(** * Race-car training / evaluation engine ([rc_nn_tools.py])

    A shallow embedding of the class [NNTools]: its constructor, [set_output],
    [train], [test], [set_io], [plot_result], [predict], [save_model] and
    [load_model], and of the driver [main] of [av_train_test.py].

    Conventions of the embedding.
    - Python floats are idealised as exact rationals ([Q]); integers that
      count examples, batches or epochs are [nat].
    - The Python heap and the outside world a session touches are one
      explicit [state]: the attribute [self.model], the file system, the
      global random generator, the console, and the local variables of
      [train] (so that they can still be inspected after an exception).
    - Exceptions are the [Raise] outcome of the monad [M]; the state reached
      when the exception was raised is kept, as in Python.
    - The network classes ([racecarNet]), the data generator
      ([rc_nn_utility]) and the torch primitives are not part of the two
      source files: they are the fields of the interface [Torch].
    - Wall-clock time ([timeit]) and device placement ([.cuda()]) have no
      effect on any value computed here and are left out.
    - The file system is a flat map from path names to files: writing a
      file never fails here (a missing parent directory or a refused
      permission is not represented), so what is said of [torch.save],
      [savefig] and the log is said of the runs in which they complete. *)

From Stdlib Require Import QArith Qround Qabs ZArith Lqa Ascii String
  DecimalString DecimalNat.
From stdpp Require Import gmap strings list.

Local Open Scope list_scope.

(** ** Global variables of the module *)

Definition TYPE : list string := ["servo"; "test"].
Definition SETTINGS : string := "settings.json".
Definition ODIR : string := "output/".
Definition SEED : Z := 717.

(** ** torch primitives with a fixed meaning *)

(** [Tensor.round()]: to the nearest integer, ties to the even one. *)
Definition round (q : Q) : Z :=
  let f := Qfloor q in
  match (q - inject_Z f ?= 1 # 2)%Q with
  | Lt => f
  | Gt => (f + 1)%Z
  | Eq => if Z.even f then f else (f + 1)%Z
  end.

(** [nn.MSELoss()(target, output)]: mean of the squared differences. *)
Definition MSELoss (target output : list Q) : Q :=
  (fold_right Qplus 0 (zip_with (fun t o => (t - o) * (t - o)) target output)
   / inject_Z (Z.of_nat (length target)))%Q.

(** [BatchSampler.__iter__] ([drop_last=False]): indices are appended to the
    current batch, which is yielded when it reaches [batch_size]; a last
    batch that is not empty is yielded short. *)
Fixpoint batch_sampler {A} (bs : nat) (sampler : list A) (cur : list A)
  : list (list A) :=
  match sampler with
  | [] => match cur with [] => [] | _ => [cur] end
  | idx :: rest =>
      let cur' := cur ++ [idx] in
      if (length cur' =? bs)%nat then cur' :: batch_sampler bs rest []
      else batch_sampler bs rest cur'
  end.

(** [abs(target - output) <= 1] for one example. *)
Definition within_one (target : Q) (output : Z) : bool :=
  Qle_bool (Qabs (target - inject_Z output)) 1%Q.

(** [sum(accuracy).item()] *)
Definition count_true (l : list bool) : nat := length (filter Is_true l).

(** [np.argmax]: scan that keeps the first position of the largest value. *)
Fixpoint argmax_from (best_i : nat) (best : Q) (i : nat) (l : list Q) : nat :=
  match l with
  | [] => best_i
  | x :: rest =>
      if Qlt_le_dec best x then argmax_from i x (S i) rest
      else argmax_from best_i best (S i) rest
  end.

(** ** String formatting and paths *)

(** ["%d" % n] *)
Definition format_d (n : nat) : string :=
  NilZero.string_of_uint (Nat.to_uint n).

Fixpoint spaces (n : nat) : string :=
  match n with O => "" | S n => String " "%char (spaces n) end.

(** ["{: 4d}".format(n)]: a blank for the sign, then right-aligned in a
    field of four characters. *)
Definition format_4d (n : nat) : string :=
  let body := String " "%char (format_d n) in
  spaces (4 - String.length body) +:+ body.

Fixpoint ends_with_sep (s : string) : bool :=
  match s with
  | "" => true
  | String c "" => Ascii.eqb c "/"%char
  | String _ rest => ends_with_sep rest
  end.

(** [os.path.join(a, b)] *)
Definition path_join (a b : string) : string :=
  if String.prefix "/" b then b
  else if ends_with_sep a then a +:+ b
  else a +:+ "/" +:+ b.

(** Number of line terminators in a text. *)
Fixpoint newlines (s : string) : nat :=
  match s with
  | "" => 0
  | String c rest =>
      (if Ascii.eqb c "010"%char then 1 else 0) + newlines rest
  end.

(** ** External collaborators *)

(** What the engine consumes from torch, [racecarNet] and [rc_nn_utility]. *)
Class Torch := {
  image : Type;                     (* one decoded input frame *)
  params : Type;                    (* the parameter state of a network *)
  grads : Type;                     (* gradients left by [loss.backward()] *)
  optimizer : Type;                 (* internal state of [optim.Adam] *)
  generator : Type;                 (* state of torch's global generator *)
  (* [torch.manual_seed] *)
  manual_seed : Z -> generator;
  (* [ServoNet(shape)], [MotorNet(shape)]: draw the initial parameters *)
  ServoNet : list nat -> generator -> params * generator;
  MotorNet : list nat -> generator -> params * generator;
  (* [Datagen(names, shape)[i]]: image, servo label, motor label *)
  get_item : list nat -> string -> image * Q * Q;
  (* [model(input)] on one example; [None] when the call raises *)
  forward : params -> image -> option Q;
  (* [loss.backward()] *)
  backward : params -> list image -> list Q -> grads;
  (* [optim.Adam(parameters, lr=0.0001)] and [optimizer.step()] *)
  Adam : params -> optimizer;
  optimizer_step : optimizer -> params -> grads -> optimizer * params;
  (* [model.load_state_dict(d)]: [None] when [d] does not fit the model *)
  load_state_dict : params -> params -> option params;
  (* the permutation drawn by a shuffling [DataLoader] *)
  randperm : generator -> list string -> list string * generator;
  (* ["{: 2.2f}".format(x)] *)
  format_2f : Q -> string
}.

(** ** Exceptions, files, console *)

Inductive exn :=
| FileNotFoundError | ParserError | KeyError | IndexError | ValueError
| AttributeError | UnboundLocalError | ZeroDivisionError | RuntimeError
| OSError.

Inductive result (A : Type) :=
| Ok (a : A)
| Raise (e : exn).
Arguments Ok {A} a.
Arguments Raise {A} e.

(** One entry of [settings.json]: [json.load(fp)[types[0]][types[1]]]. *)
Record content := mkContent {
  c_shape : option (list nat);
  c_batch : option nat;
  c_cuda : option bool;
  c_epoch : option nat;
  c_model : option string
}.

(** Lines printed on the console. *)
Inductive event :=
| TrainStatus (epoch batch : nat) (loss dev : Q)
    (* '[%3d, %5d] loss: %2.7f time: %2.3f dev: %2.0f' *)
| TestStatus (count : nat) (accuracy : Q)      (* "[%5d] accuracy: %2.2f" *)
| TestTotal (accuracy : Q)                     (* "total accuracy = %2.2f" *)
| Message (s : string).

Section Engine.
Context `{T : Torch}.

Inductive file :=
| JsonFile (j : gmap string (gmap string content))
| CsvFile (images : list string)               (* the "image" column *)
| TextFile (s : string)
| Directory
| ModelFile (p : params)                       (* a saved [state_dict] *)
| FigureFile (title : string) (xs : list nat) (ys : list Q).

(** Local variables of [train]. *)
Record frame := mkFrame {
  optim : option optimizer;
  total_loss : list Q;
  dev_accuracy : list Q;
  epoch_loss : Q;
  accuracy : Q;
  batch : nat;
  running_loss : Q
}.

Record state := mkState {
  model : option params;                       (* [self.model] *)
  fs : gmap string file;
  rng : generator;
  stdout : list event;
  locals : frame
}.

(** The immutable attributes of an [NNTools] object. *)
Record NNTools := mkNNTools {
  type : string;
  shape : list nat;
  batch_size : nat;
  cuda : bool;
  epochs : option nat;
  model_file : option string;
  log : option string
}.

(** ** State and exception monad *)

Definition M (A : Type) : Type := state -> result A * state.

Definition ret {A} (a : A) : M A := fun s => (Ok a, s).
Definition raise {A} (e : exn) : M A := fun s => (Raise e, s).
Definition bind {A B} (m : M A) (k : A -> M B) : M B :=
  fun s => match m s with
           | (Ok a, s') => k a s'
           | (Raise e, s') => (Raise e, s')
           end.

Notation "'let*' x ':=' m 'in' k" := (bind m (fun x => k))
  (at level 10, x pattern, m at level 100, k at level 200).
Notation "'do' m 'in' k" := (bind m (fun _ => k))
  (at level 10, m at level 100, k at level 200).

Definition get : M state := fun s => (Ok s, s).
Definition modify (f : state -> state) : M unit := fun s => (Ok tt, f s).

Definition set_model (p : option params) (s : state) : state :=
  mkState p (fs s) (rng s) (stdout s) (locals s).
Definition set_fs (f : gmap string file) (s : state) : state :=
  mkState (model s) f (rng s) (stdout s) (locals s).
Definition set_rng (g : generator) (s : state) : state :=
  mkState (model s) (fs s) g (stdout s) (locals s).
Definition set_stdout (o : list event) (s : state) : state :=
  mkState (model s) (fs s) (rng s) o (locals s).
Definition set_locals (l : frame) (s : state) : state :=
  mkState (model s) (fs s) (rng s) (stdout s) l.

Definition print (e : event) : M unit :=
  modify (fun s => set_stdout (stdout s ++ [e]) s).

Definition write_file (path : string) (f : file) : M unit :=
  modify (fun s => set_fs (<[path := f]> (fs s)) s).

Definition of_option {A} (e : exn) (o : option A) : M A :=
  match o with Some a => ret a | None => raise e end.

(** [self.model]: an [AttributeError] when the constructor did not set it. *)
Definition self_model : M params :=
  let* s := get in of_option AttributeError (model s).

(** [pd.read_csv(path)["image"].values.tolist()] *)
Definition read_csv (path : string) : M (list string) :=
  let* s := get in
  match fs s !! path with
  | None => raise FileNotFoundError
  | Some (CsvFile images) => ret images
  | Some _ => raise ParserError
  end.

(** Python's [x / n] for a float [x] and an integer [n]. *)
Definition py_div (x : Q) (n : nat) : M Q :=
  match n with
  | O => raise ZeroDivisionError
  | S _ => ret (x / inject_Z (Z.of_nat n))%Q
  end.

(** A [DataLoader] over [Datagen(names, shape)]. *)
Record dataloader := mkDataLoader {
  dl_names : list string;
  dl_shape : list nat;
  dl_batch_size : nat;
  dl_shuffle : bool
}.

(** [DataLoader(dataset, batch_size, shuffle)]: a shuffling loader draws
    from a [RandomSampler], which rejects an empty dataset with a
    [ValueError]; a batch size that is not a positive integer is rejected
    with a [ValueError] as well. *)
Definition DataLoader (names : list string) (shp : list nat) (bs : nat)
    (shuffle : bool) : M dataloader :=
  if shuffle && (length names =? 0)%nat then raise ValueError
  else match bs with
       | O => raise ValueError
       | S _ => ret (mkDataLoader names shp bs shuffle)
       end.

(** [iter(dataloader)]: the batches of one pass, as lists of manifest
    entries; a shuffling loader first draws a permutation. *)
Definition iter (dl : dataloader) : M (list (list string)) :=
  if dl_shuffle dl then
    let* s := get in
    let '(names, g) := randperm (rng s) (dl_names dl) in
    do modify (set_rng g) in
    ret (batch_sampler (dl_batch_size dl) names [])
  else ret (batch_sampler (dl_batch_size dl) (dl_names dl) []).

(** The collated batch [image, servo, motor] of a list of entries. *)
Definition collate (shp : list nat) (names : list string)
  : list image * list Q * list Q :=
  let items := map (get_item shp) names in
  (map (fun i => fst (fst i)) items,
   map (fun i => snd (fst i)) items,
   map snd items).

(** [model(input)] on a batch: raises when it raises on an example. *)
Fixpoint forward_batch (p : params) (input : list image) : M (list Q) :=
  match input with
  | [] => ret []
  | x :: rest =>
      let* o := of_option RuntimeError (forward p x) in
      let* os := forward_batch p rest in
      ret (o :: os)
  end.

(** ** [NNTools.set_io] *)

Definition set_io (self : NNTools) (img : list image) (servo motor : list Q)
  : M (list image * list Q) :=
  if String.eqb (type self) "servo" then ret (img, servo)
  else if String.eqb (type self) "motor" then ret (img, motor)
  else raise UnboundLocalError.

(** ** [NNTools.test] *)

(** Body of [for image, servo, motor in dataloader] in [test]; the local
    variables [total_accuracy] and [count] are threaded through. *)
Fixpoint test_loop (self : NNTools) (mdl : params) (display : bool)
    (batches : list (list string)) (total_accuracy : Q) (count : nat)
  : M (Q * nat) :=
  match batches with
  | [] => ret (total_accuracy, count)
  | b :: rest =>
      let count := count + batch_size self in
      let '(img, servo, motor) := collate (shape self) b in
      let* (input, target) := set_io self img servo motor in
      let* out := forward_batch mdl input in
      let output := map round out in
      let acc := zip_with within_one target output in
      let total_accuracy :=
        (total_accuracy + inject_Z (Z.of_nat (count_true acc)))%Q in
      do (if display && (count mod 100 =? 0)%nat then
         let* a := py_div (total_accuracy * 100)%Q count in
         print (TestStatus count a)
       else ret tt) in
      test_loop self mdl display rest total_accuracy count
  end.

Definition test (self : NNTools) (testset : string) (display : bool) : M Q :=
  let* testset := read_csv testset in
  let* mdl := self_model in
  let* dl := DataLoader testset (shape self) (batch_size self) false in
  let* batches := iter dl in
  let* (total_accuracy, count) := test_loop self mdl display batches 0%Q 0 in
  do (if display then
     let* a := py_div (total_accuracy * 100)%Q (length testset) in
     print (TestTotal a)
   else ret tt) in
  py_div (total_accuracy * 100)%Q (length testset).

(** [l[i]] with Python's negative indices. *)
Definition py_index {A} (l : list A) (i : Z) : M A :=
  let n := Z.of_nat (length l) in
  if (0 <=? i)%Z then of_option IndexError (l !! Z.to_nat i)
  else if (0 <=? n + i)%Z then of_option IndexError (l !! Z.to_nat (n + i))
  else raise IndexError.

(** [np.argmax(l)]: an empty sequence is rejected. *)
Definition argmax (l : list Q) : M nat :=
  match l with
  | [] => raise ValueError
  | x :: rest => ret (argmax_from 0 x 1 rest)
  end.

(** ** [NNTools.set_output] *)

Definition path_exists (path : string) : M bool :=
  let* s := get in ret (bool_decide (is_Some (fs s !! path))).

Definition mkdir_if_missing (path : string) : M unit :=
  let* e := path_exists path in
  if e then ret tt else write_file path Directory.

Definition set_output : M string :=
  do mkdir_if_missing ODIR in
  do mkdir_if_missing (path_join ODIR "curves") in
  do mkdir_if_missing (path_join ODIR "models") in
  let log := path_join ODIR "result.csv" in
  let* e := path_exists log in
  do (if e then
     do modify (fun s => set_fs (delete log (fs s)) s) in
     write_file log (TextFile "")
   else write_file log (TextFile "")) in
  ret log.

(** ** [NNTools.save_model] and [NNTools.load_model] *)

Definition save_model (self : NNTools) (mfile : string) : M unit :=
  if String.eqb (type self) "servo" then
    do print (Message "Saving servo Model ") in
    let* p := self_model in
    write_file mfile (ModelFile p)
  else if String.eqb (type self) "motor" then
    do print (Message "Saving motor Model ") in
    let* p := self_model in
    write_file mfile (ModelFile p)
  else ret tt.

Definition load_model (mfile : string) : M unit :=
  let* p := self_model in
  let* s := get in
  match fs s !! mfile with
  | None => raise FileNotFoundError
  | Some (ModelFile d) =>
      let* p' := of_option RuntimeError (load_state_dict p d) in
      modify (set_model (Some p'))
  | Some _ => raise RuntimeError
  end.

(** ** [NNTools.__init__] *)

(** [json.load(fp)] on the settings file. *)
Definition json_load (settings : string)
  : M (gmap string (gmap string content)) :=
  let* s := get in
  match fs s !! settings with
  | None => raise FileNotFoundError
  | Some (JsonFile j) => ret j
  | Some _ => raise ValueError
  end.

(** "set neural net by type": seed the generator, then build the network. *)
Definition set_neural_net (type_ : string) (shape_ : list nat) : M unit :=
  do modify (set_rng (manual_seed SEED)) in
  if String.eqb type_ "servo" then
    modify (fun s => let '(p, g) := ServoNet shape_ (rng s) in
                     set_model (Some p) (set_rng g s))
  else if String.eqb type_ "motor" then
    modify (fun s => let '(p, g) := MotorNet shape_ (rng s) in
                     set_model (Some p) (set_rng g s))
  else ret tt.

Definition NNTools_init (settings : string) (types : list string)
  : M NNTools :=
  (* a new object has no attribute yet *)
  do modify (set_model None) in
  let* type_ := of_option IndexError (types !! 0) in
  (* extract JSON file contents *)
  let* j := json_load settings in
  let* by_mode := of_option KeyError (j !! type_) in
  let* mode := of_option IndexError (types !! 1) in
  let* c := of_option KeyError (by_mode !! mode) in
  let* shape_ := of_option KeyError (c_shape c) in
  let* batch_ := of_option KeyError (c_batch c) in
  let* cuda_ := of_option KeyError (c_cuda c) in
  let* (epochs_, model_file_) :=
    (if String.eqb mode "train" then
       let* e := of_option KeyError (c_epoch c) in ret (Some e, None)
     else if String.eqb mode "test" then
       let* m := of_option KeyError (c_model c) in ret (None, Some m)
     else ret (None, None)) in
  (* set neural net by type *)
  do set_neural_net type_ shape_ in
  let* log_ :=
    (if String.eqb mode "train" then
       let* l := set_output in ret (Some l)
     else
       let* mf := of_option AttributeError model_file_ in
       do load_model mf in
       ret None) in
  ret (mkNNTools type_ shape_ batch_ cuda_ epochs_ model_file_ log_).

(** ** [NNTools.plot_result] *)

(** [plt.plot(range(1, epoch+1), ys)] followed by [plt.savefig(path)]: the
    two sequences must have the same length. *)
Definition plot (epoch : nat) (ys : list Q) : M (list nat * list Q) :=
  if (length ys =? epoch)%nat then ret (seq 1 epoch, ys)
  else raise ValueError.

Definition savefig (path title : string) (curve : list nat * list Q)
  : M unit :=
  write_file path (FigureFile title (fst curve) (snd curve)).

(** [open(path, 'a')]: the file is created when it is missing. *)
Definition open_append (path : string) : M unit :=
  let* s := get in
  match fs s !! path with
  | None => write_file path (TextFile "")
  | Some (TextFile _) => ret tt
  | Some _ => raise OSError
  end.

(** [fp.write(content)] on a file opened for appending. *)
Definition write_append (path content : string) : M unit :=
  let* s := get in
  match fs s !! path with
  | Some (TextFile old) => write_file path (TextFile (old +:+ content))
  | _ => raise OSError
  end.

(** The title and the file of a curve, chosen by [self.type]. *)
Definition figure_of (self : NNTools) (servo_path motor_path : string)
  : M (string * string) :=
  if String.eqb (type self) "servo" then
    ret ("Servo Data Training", ODIR +:+ servo_path)
  else if String.eqb (type self) "motor" then
    ret ("Motor Data Training", ODIR +:+ motor_path)
  else raise UnboundLocalError.

(** The line of the log: the format string of the source keeps the sixteen
    blanks that follow its line continuation. *)
Definition log_line (signal : string) (epoch : nat) (acc : Q) (best : nat)
  : string :=
  format_4d epoch +:+ "," +:+ format_2f acc +:+ ","
  +:+ "                " +:+ signal +:+ ": epoch " +:+ format_4d epoch
  +:+ " - accuracy: " +:+ format_2f acc +:+ " - best " +:+ format_4d best
  +:+ String "010"%char "".

Definition log_content (self : NNTools) (epoch : nat) (dev_acc : list Q)
  : M (option string) :=
  let* c1 :=
    (if String.eqb (type self) "servo" then
       let* a := py_index dev_acc (Z.of_nat epoch - 1) in
       let* b := argmax dev_acc in
       ret (Some (log_line "Servo" epoch a (b + 1)))
     else ret None) in
  if String.eqb (type self) "motor" then
    let* a := py_index dev_acc (Z.of_nat epoch - 1) in
    let* b := argmax dev_acc in
    ret (Some (log_line "Motor" epoch a (b + 1)))
  else ret c1.

Definition plot_result (self : NNTools) (epoch : nat)
    (total_loss dev_accuracy : list Q) : M unit :=
  (* plotting loss vs epoch curve *)
  let* curve := plot epoch total_loss in
  let* (title, fig_path) :=
    figure_of self "/curves/Servo Loss Curve.png"
                   "/curves/Motor Loss Curve.png" in
  do savefig fig_path title curve in
  (* dev accuracy vs epoch curve *)
  let* curve := plot epoch dev_accuracy in
  let* (title, fig_path) :=
    figure_of self "/curves/Servo Accuracy Curve.png"
                   "/curves/Motor Accuracy Curve.png" in
  do savefig fig_path title curve in
  (* save accuracy values and show finish message *)
  let* content := log_content self epoch dev_accuracy in
  (* write in log *)
  let* log := of_option AttributeError (log self) in
  do open_append log in
  let* content := of_option UnboundLocalError content in
  write_append log content.

(** ** [NNTools.train] *)

Definition upd_locals (f : frame -> frame) : M unit :=
  modify (fun s => set_locals (f (locals s)) s).

Definition set_optim (o : option optimizer) (l : frame) : frame :=
  mkFrame o (total_loss l) (dev_accuracy l) (epoch_loss l) (accuracy l)
          (batch l) (running_loss l).
Definition set_total_loss (x : list Q) (l : frame) : frame :=
  mkFrame (optim l) x (dev_accuracy l) (epoch_loss l) (accuracy l)
          (batch l) (running_loss l).
Definition set_dev_accuracy (x : list Q) (l : frame) : frame :=
  mkFrame (optim l) (total_loss l) x (epoch_loss l) (accuracy l)
          (batch l) (running_loss l).
Definition set_epoch_loss (x : Q) (l : frame) : frame :=
  mkFrame (optim l) (total_loss l) (dev_accuracy l) x (accuracy l)
          (batch l) (running_loss l).
Definition set_accuracy (x : Q) (l : frame) : frame :=
  mkFrame (optim l) (total_loss l) (dev_accuracy l) (epoch_loss l) x
          (batch l) (running_loss l).
Definition set_batch (x : nat) (l : frame) : frame :=
  mkFrame (optim l) (total_loss l) (dev_accuracy l) (epoch_loss l)
          (accuracy l) x (running_loss l).
Definition set_running_loss (x : Q) (l : frame) : frame :=
  mkFrame (optim l) (total_loss l) (dev_accuracy l) (epoch_loss l)
          (accuracy l) (batch l) x.

Definition local {A} (f : frame -> A) : M A :=
  let* s := get in ret (f (locals s)).

Fixpoint for_each {A} (body : A -> M unit) (l : list A) : M unit :=
  match l with
  | [] => ret tt
  | x :: rest => do body x in for_each body rest
  end.

(** Body of [for image, servo, motor in dataloader] in [train]. *)
Definition train_batch (self : NNTools) (epoch : nat) (b : list string)
  : M unit :=
  do upd_locals (fun l => set_batch (batch l + batch_size self) l) in
  (* set input and target *)
  let '(img, servo, motor) := collate (shape self) b in
  let* (input, target) := set_io self img servo motor in
  (* forward + backward + optimize *)
  let* mdl := self_model in
  let* output := forward_batch mdl input in
  let loss := MSELoss target output in
  let g := backward mdl input target in
  let* o := local optim in
  let* opt := of_option UnboundLocalError o in
  let '(opt', mdl') := optimizer_step opt mdl g in
  do modify (set_model (Some mdl')) in
  do upd_locals (set_optim (Some opt')) in
  do upd_locals (fun l => set_running_loss (running_loss l + loss)%Q l) in
  (* print status for every 100 mini-batches *)
  let* l := local id in
  if (batch l mod 100 =? 0)%nat then
    do print (TrainStatus epoch (batch l) (running_loss l / 100)%Q
                          (accuracy l)) in
    do upd_locals (fun l => set_epoch_loss (running_loss l / 100)%Q l) in
    upd_locals (set_running_loss 0%Q)
  else ret tt.

(** ['models/servo_model_epoch_%d.pth' % epoch] *)
Definition model_path (epoch : nat) : string :=
  "models/servo_model_epoch_" +:+ format_d epoch +:+ ".pth".

(** First half of the body of [for epoch in range(1, self.epochs+1)]: the
    counters are initialised and the batches of the epoch are run. *)
Definition batch_loop (self : NNTools) (dl : dataloader) (epoch : nat)
  : M unit :=
  (* initialize train loss and running loss *)
  do upd_locals (set_batch 0) in
  do upd_locals (set_running_loss 0%Q) in
  let* batches := iter dl in
  for_each (train_batch self epoch) batches.

(** Body of [for epoch in range(1, self.epochs+1)]. *)
Definition train_epoch (self : NNTools) (dl : dataloader) (devset : string)
    (epoch : nat) : M unit :=
  do batch_loop self dl epoch in
  (* accuracy count on dev set *)
  let* acc := test self devset false in
  do upd_locals (set_accuracy acc) in
  do upd_locals (fun l => set_dev_accuracy (dev_accuracy l ++ [acc]) l) in
  (* total loss count *)
  do upd_locals (fun l => set_total_loss (total_loss l ++ [epoch_loss l]) l) in
  do save_model self (path_join ODIR (model_path epoch)) in
  (* plotting loss vs epoch curve, produces log file *)
  let* l := local id in
  plot_result self epoch (total_loss l) (dev_accuracy l).

(** [train] up to its epoch loop: the data loader and the epoch count. *)
Definition train_setup (self : NNTools) (trainset : string)
  : M (dataloader * nat) :=
  let* trainset := read_csv trainset in
  (* set neural network model and optimizer *)
  let* mdl := self_model in
  do upd_locals (set_optim (Some (Adam mdl))) in
  (* set dataloader *)
  let* dl := DataLoader trainset (shape self) (batch_size self) true in
  (* initialize conunter and result holder *)
  do upd_locals (set_total_loss []) in
  do upd_locals (set_dev_accuracy []) in
  do upd_locals (set_epoch_loss 0%Q) in
  do upd_locals (set_accuracy 0%Q) in
  (* loop over the dataset multiple times *)
  let* n := of_option AttributeError (epochs self) in
  ret (dl, n).

Definition train (self : NNTools) (trainset devset : string) : M unit :=
  let* (dl, n) := train_setup self trainset in
  do for_each (train_epoch self dl devset) (seq 1 n) in
  (* show finish message *)
  do (if String.eqb (type self) "servo"
      then print (Message "Servo model training finished!") else ret tt) in
  if String.eqb (type self) "motor"
  then print (Message "Motor model training finished!") else ret tt.

End Engine.

Notation "'let*' x ':=' m 'in' k" := (bind m (fun x => k))
  (at level 10, x pattern, m at level 100, k at level 200).
Notation "'do' m 'in' k" := (bind m (fun _ => k))
  (at level 10, m at level 100, k at level 200).

(** ** [NNTools.predict] *)

Section Prediction.
Context `{T : Torch}.

(** [Datagen(shape=shape).get_image(iname)], of [rc_nn_utility]. *)
Variable get_image : list nat -> string -> image.

(** [Tensor.int()]: the conversion of an integral float to a 32-bit
    integer.  Torch converts with a C cast, whose result for a value that
    does not fit is left to the platform: the conversion is a parameter,
    and the properties assume of it only what [int_conversion] says. *)
Variable to_int : Z -> Z.

(** [model(image).round().int().item()] *)
Definition predict (self : NNTools) (iname : string) : M Z :=
  let image := get_image (shape self) iname in
  let* mdl := self_model in
  let* output := of_option RuntimeError (forward mdl image) in
  ret (to_int (round output)).

End Prediction.

(** ** The driver [av_train_test.py] *)

Module AvTrainTest.
Section Driver.
Context `{T : Torch}.

Definition LIST : list string :=
  ["data/lists/Random/";
   "data/lists/5 Fold Cross-Val/fold1/";
   "data/lists/5 Fold Cross-Val/fold2/";
   "data/lists/5 Fold Cross-Val/fold3/";
   "data/lists/5 Fold Cross-Val/fold4/";
   "data/lists/5 Fold Cross-Val/fold5/";
   "data/lists/Debug/"].

Definition BASE : string := nth 6 LIST "".
Definition TRAIN_DATA : string := BASE +:+ "train.csv".
Definition DEV_DATA : string := BASE +:+ "dev.csv".
Definition TEST_DATA : string := BASE +:+ "test.csv".
Definition SETTINGS : string := "settings.json".

(** [main()]: the servo training session; the other sessions are commented
    out in the source. *)
Definition main : M unit :=
  let* servoTrain := NNTools_init SETTINGS ["servo"; "train"] in
  do train servoTrain TRAIN_DATA DEV_DATA in
  ret tt.

End Driver.
End AvTrainTest.

(** ** Vocabulary of the properties *)

Section Vocabulary.
Context `{T : Torch}.

(** [prints P m]: from every state, [m] appends some lines to the console,
    all of them satisfying [P], and changes nothing else; neither these
    lines nor the outcome depend on what the console already shows. *)
Definition prints {A} (P : event -> Prop) (m : M A) : Prop :=
  forall s, exists r evs,
    Forall P evs /\
    forall o, m (set_stdout o s) = (r, set_stdout (o ++ evs) s).

(** The label of an example: the signal selected by [set_io]. *)
Definition label_of (self : NNTools) (name : string) : Q :=
  let '(_, servo, motor) := get_item (shape self) name in
  if String.eqb (type self) "servo" then servo else motor.

(** The raw prediction of the model on an example. *)
Definition prediction (self : NNTools) (mdl : params) (name : string)
  : option Q :=
  forward mdl (fst (fst (get_item (shape self) name))).

(** An example is correct when its label is within one unit of the
    prediction rounded to the nearest integer. *)
Definition correct (self : NNTools) (mdl : params) (name : string) : bool :=
  match prediction self mdl name with
  | Some o => Qle_bool (Qabs (label_of self name - inject_Z (round o))) 1
  | None => false
  end.

Definition correct_count (self : NNTools) (mdl : params)
    (names : list string) : nat :=
  length (filter (fun name => correct self mdl name) names).

(** The name under which a signal appears in the log. *)
Definition signal_name (self : NNTools) : string :=
  if String.eqb (type self) "servo" then "Servo" else "Motor".

(** The state once the counter [batch] has been advanced. *)
Definition after_count (self : NNTools) (s : state) : state :=
  set_locals (set_batch (batch (locals s) + batch_size self) (locals s)) s.

(** The state after the optimizer step and the accumulation of [loss]. *)
Definition after_step (self : NNTools) (mdl' : params) (opt' : optimizer)
    (loss : Q) (s : state) : state :=
  let s0 := after_count self s in
  set_locals
    (set_running_loss (running_loss (locals s0) + loss)
       (set_optim (Some opt') (locals s0)))
    (set_model (Some mdl') s0).

(** The state after the status line, when one is due. *)
Definition after_report (epoch : nat) (s : state) : state :=
  let l := locals s in
  if batch l mod 100 =? 0 then
    set_locals
      (set_running_loss 0 (set_epoch_loss (running_loss l / 100) l))
      (set_stdout
         (stdout s ++ [TrainStatus epoch (batch l) (running_loss l / 100)
                                   (accuracy l)]) s)
  else s.

(** A status line of [epoch] showing the counter [c]. *)
Definition status_of (epoch c : nat) (e : event) : Prop :=
  exists loss dev, e = TrainStatus epoch c loss dev.

(** What the batches of an epoch can change: the model, the optimizer, the
    counters and the console, on which only status lines at multiples of
    100 appear. *)
Definition batch_phase (epoch : nat) (s s' : state) : Prop :=
  fs s' = fs s /\ rng s' = rng s /\
  total_loss (locals s') = total_loss (locals s) /\
  dev_accuracy (locals s') = dev_accuracy (locals s) /\
  accuracy (locals s') = accuracy (locals s) /\
  exists evs,
    stdout s' = stdout s ++ evs /\
    Forall (fun e => exists c, c mod 100 = 0 /\ status_of epoch c e) evs.

(** The batches that one pass over the loader yields. *)
Definition batches_of (dl : dataloader) (g : generator) : list (list string) :=
  batch_sampler (dl_batch_size dl)
    (if dl_shuffle dl then fst (randperm g (dl_names dl)) else dl_names dl) [].

(** The state in which the batches of an epoch start. *)
Definition epoch_start (dl : dataloader) (s : state) : state :=
  let s0 :=
    set_locals (set_running_loss 0 (set_batch 0 (locals s))) s in
  if dl_shuffle dl then set_rng (snd (randperm (rng s) (dl_names dl))) s0
  else s0.

(** The counters at which status lines are due when [n] batches are run
    from a counter that shows [b0]. *)
Definition report_counters (bs b0 n : nat) : list nat :=
  filter (fun c => c mod 100 = 0) (map (fun k => b0 + k * bs) (seq 1 n)).

Definition log_path : string := path_join ODIR "result.csv".

Definition checkpoint_path (epoch : nat) : string :=
  path_join ODIR (model_path epoch).

Definition loss_curve (self : NNTools) : string :=
  ODIR +:+ (if String.eqb (type self) "servo"
            then "/curves/Servo Loss Curve.png"
            else "/curves/Motor Loss Curve.png").

Definition accuracy_curve (self : NNTools) : string :=
  ODIR +:+ (if String.eqb (type self) "servo"
            then "/curves/Servo Accuracy Curve.png"
            else "/curves/Motor Accuracy Curve.png").

Definition figure_title (self : NNTools) : string :=
  if String.eqb (type self) "servo" then "Servo Data Training"
  else "Motor Data Training".

(** What holds after [j] completed epochs of a session that started in the
    state [s1]. *)
Definition session_inv (self : NNTools) (s1 : state) (j : nat) (s : state)
  : Prop :=
  length (total_loss (locals s)) = j /\
  length (dev_accuracy (locals s)) = j /\
  (exists txt, fs s !! log_path = Some (TextFile txt) /\ newlines txt = j) /\
  (forall n, 1 <= n <= j ->
             exists p, fs s !! checkpoint_path n = Some (ModelFile p)) /\
  (forall path,
     (forall n, 1 <= n <= j -> path <> checkpoint_path n) ->
     path <> log_path -> path <> loss_curve self ->
     path <> accuracy_curve self ->
     fs s !! path = fs s1 !! path).

(** The parameters a freshly built network starts from. *)
Definition initial_model (type_ : string) (shape_ : list nat)
  : option params :=
  if String.eqb type_ "servo"
  then Some (fst (ServoNet shape_ (manual_seed SEED)))
  else if String.eqb type_ "motor"
  then Some (fst (MotorNet shape_ (manual_seed SEED)))
  else None.

(** Two runs of [m] from states related by [R] have the same outcome, and
    when it is a value they end in states related by [R']. *)
Definition lockstep {A} (R R' : state -> state -> Prop) (m : M A) : Prop :=
  forall s1 s2, R s1 s2 ->
    fst (m s1) = fst (m s2) /\
    (forall a, fst (m s1) = Ok a -> R' (snd (m s1)) (snd (m s2))).

Definition same_files (s1 s2 : state) : Prop := fs s1 = fs s2.
Definition same_object (s1 s2 : state) : Prop :=
  fs s1 = fs s2 /\ model s1 = model s2.
Definition same_start (s1 s2 : state) : Prop :=
  fs s1 = fs s2 /\ model s1 = model s2 /\ rng s1 = rng s2.

(** The directory [path] is there in [f], made if it was missing. *)
Definition with_directory (f : gmap string file) (path : string)
  : gmap string file :=
  if bool_decide (is_Some (f !! path)) then f else <[path := Directory]> f.

(** The files as [set_output] leaves them. *)
Definition output_files (f : gmap string file) : gmap string file :=
  let f3 := with_directory
              (with_directory (with_directory f ODIR)
                 (path_join ODIR "curves")) (path_join ODIR "models") in
  if bool_decide (is_Some (f3 !! log_path))
  then <[log_path := TextFile ""]> (delete log_path f3)
  else <[log_path := TextFile ""]> f3.

(** The integers that fit a 32-bit [int]. *)
Definition fits_int32 (z : Z) : Prop :=
  (-2147483648 <= z < 2147483648)%Z.

(** What is assumed of [Tensor.int()]: it keeps the integers that fit. *)
Definition int_conversion (to_int : Z -> Z) : Prop :=
  forall z, fits_int32 z -> to_int z = z.

(** An example on which [predict] answers within one unit of the label. *)
Definition predicted_within_one (get_image : list nat -> string -> image)
    (to_int : Z -> Z) (self : NNTools) (s : state) (name : string) : bool :=
  match fst (predict get_image to_int self name s) with
  | Ok z => Qle_bool (Qabs (label_of self name - inject_Z z)) 1
  | Raise _ => false
  end.

(** Removes the blanks a text starts with. *)
Fixpoint skip_blanks (s : string) : string :=
  match s with
  | String c rest => if Ascii.eqb c " "%char then skip_blanks rest else s
  | "" => ""
  end.


(** The directories that [set_output] makes sure of. *)
Definition output_directories : list string :=
  [ODIR; path_join ODIR "curves"; path_join ODIR "models"].

(** A file system on which [set_output] meets no obstacle: what is found
    under the name of an output directory is a directory, and the log is
    not one. *)
Definition output_layout (f : gmap string file) : Prop :=
  f !! log_path <> Some Directory /\
  forall d, d ∈ output_directories -> f !! d = None \/ f !! d = Some Directory.

(** The loss shown on the last status line among [evs], or [d] when there
    is none. *)
Definition last_loss (evs : list event) (d : Q) : Q :=
  fold_left (fun acc e => match e with
                          | TrainStatus _ _ l _ => l
                          | _ => acc
                          end) evs d.

End Vocabulary.

(** ** A small concrete backend

    A one-parameter "network" [x |-> p + x] on frames that are summarised by
    a number.  A manifest entry is read digit by digit: the first character
    is the frame, the second the servo label, the third the motor label.
    The forward pass raises when its result would be negative. *)
Module Toy.

Definition digit (c : ascii) : Q := inject_Z (Z.of_nat (nat_of_ascii c) - 48).

Definition get_item (shp : list nat) (name : string) : Q * Q * Q :=
  match name with
  | String a (String b (String c _)) => (digit a, digit b, digit c)
  | String a (String b "") => (digit a, digit b, 0%Q)
  | String a "" => (digit a, 0%Q, 0%Q)
  | "" => (0%Q, 0%Q, 0%Q)
  end.

Definition forward (p x : Q) : option Q :=
  if Qle_bool 0 (p + x) then Some (p + x)%Q else None.

(** Two decimals, truncated, after a blank for the sign. *)
Definition format_2f (x : Q) : string :=
  let n := Z.to_nat (Qfloor (x * 100)) in
  String " "%char (format_d (n / 100)) +:+ "."
  +:+ format_d ((n / 10) mod 10) +:+ format_d (n mod 10).

End Toy.

(** The backend, with learning rate [lr]: every step moves the parameter by
    [lr] times a unit gradient. *)
#[local] Instance toy (lr : Q) : Torch := {|
  image := Q; params := Q; grads := Q; optimizer := nat; generator := Z;
  manual_seed := fun z => z;
  ServoNet := fun _ g => (0%Q, (g + 1)%Z);
  MotorNet := fun _ g => (0%Q, (g + 2)%Z);
  get_item := Toy.get_item;
  forward := Toy.forward;
  backward := fun _ _ _ => 1%Q;
  Adam := fun _ => 0;
  optimizer_step := fun o p g => (S o, (p - lr * g)%Q);
  load_state_dict := fun _ d => Some d;
  randperm := fun g l => (l, (g + 1)%Z);
  format_2f := Toy.format_2f
|}.

(** The evaluation scenario: batch size 2, five examples with the labels
    3, 5, 2, 8, 1 on which the model predicts 3, 4, 2, 9, 1. *)
Definition scenario_self : NNTools :=
  mkNNTools "servo" [1] 2 false None None None.

Definition scenario_names : list string := ["33"; "45"; "22"; "98"; "11"].

Definition scenario_state : @state (toy 0) :=
  mkState (T := toy 0) (Some 0%Q)
          {[ "dev.csv" := CsvFile (T := toy 0) scenario_names ]} 0%Z []
          (mkFrame (T := toy 0) None [] [] 0%Q 0%Q 0 0%Q).

(** Training sessions on the small backend: the settings give the batch
    size [bs] and the epoch count [E] for both signals. *)
Definition session_settings (bs E : nat) : gmap string (gmap string content) :=
  {[ "servo" := {[ "train" := mkContent (Some [1]) (Some bs) (Some false)
                                        (Some E) None ]};
     "motor" := {[ "train" := mkContent (Some [1]) (Some bs) (Some false)
                                        (Some E) None ]} ]}.

Definition session_state (lr : Q) (bs E : nat) (trainset devset : list string)
  : @state (toy lr) :=
  mkState (T := toy lr) None
    {[ "settings.json" := JsonFile (T := toy lr) (session_settings bs E);
       "train.csv" := CsvFile (T := toy lr) trainset;
       "dev.csv" := CsvFile (T := toy lr) devset ]}
    0%Z [] (mkFrame (T := toy lr) None [] [] 0%Q 0%Q 0 0%Q).

(** The engine of a training session and the state its constructor leaves. *)
Definition session_init (lr : Q) (signal : string) (bs E : nat)
    (trainset devset : list string) : result NNTools * @state (toy lr) :=
  NNTools_init (T := toy lr) "settings.json" [signal; "train"]
    (session_state lr bs E trainset devset).

Definition session_self (signal : string) (bs E : nat) : NNTools :=
  mkNNTools signal [1] bs false (Some E) None (Some "output/result.csv").

(** A state in the middle of a training session, for running single epochs:
    the model and the optimizer are set, the records are empty. *)
Definition epoch_state (lr : Q) (trainset devset : list string)
  : @state (toy lr) :=
  mkState (T := toy lr) (Some 0%Q)
    {[ "train.csv" := CsvFile (T := toy lr) trainset;
       "dev.csv" := CsvFile (T := toy lr) devset ]}
    0%Z [] (mkFrame (T := toy lr) (Some 0) [] [] 0%Q 0%Q 0 0%Q).

(** Batch size 50: one hundred examples, in two batches with the losses 1
    and 9. *)
Definition interval_names : list string := repeat "32" 50 ++ repeat "30" 50.

(** Batch size 50 and 150 examples: the third batch of an epoch, of loss 9,
    falls in an interval that the epoch does not complete. *)
Definition carry_names : list string := repeat "32" 100 ++ repeat "30" 50.

(** Learning rate 1/2: every step lowers the parameter by 1/2, and in the
    third batch of the second epoch the forward pass raises. *)
Definition failing_self : NNTools := session_self "servo" 2 3.
Definition failing_dl : dataloader := mkDataLoader scenario_names [1] 2 true.
Definition failing_s0 : @state (toy (1 # 2)) :=
  snd (session_init (1 # 2) "servo" 2 3 scenario_names ["99"; "98"]).
Definition failing_s1 : @state (toy (1 # 2)) :=
  snd (train_setup (T := toy (1 # 2)) failing_self "train.csv" failing_s0).
Definition failing_s2 : @state (toy (1 # 2)) :=
  snd (for_each (train_epoch (T := toy (1 # 2)) failing_self failing_dl
                   "dev.csv") (seq 1 (2 - 1)) failing_s1).
Definition failing_s3 : @state (toy (1 # 2)) :=
  snd (batch_loop (T := toy (1 # 2)) failing_self failing_dl 2 failing_s2).

(** The image that the small backend reads from a manifest entry. *)
Definition toy_get_image (shp : list nat) (name : string) : Q :=
  fst (fst (Toy.get_item shp name)).

(** A 32-bit conversion: outside the range it yields the smallest integer,
    as the cast does on x86. *)
Definition toy_int (z : Z) : Z :=
  if ((-2147483648 <=? z) && (z <? 2147483648))%Z then z
  else (-2147483648)%Z.

(** The files that the driver reads: the settings and the two Debug
    manifests. *)
Definition driver_state : @state (toy 0) :=
  mkState (T := toy 0) None
    {[ "settings.json" := JsonFile (T := toy 0) (session_settings 2 2);
       "data/lists/Debug/train.csv" := CsvFile (T := toy 0) scenario_names;
       "data/lists/Debug/dev.csv" := CsvFile (T := toy 0) scenario_names ]}
    0%Z [] (mkFrame (T := toy 0) None [] [] 0%Q 0%Q 0 0%Q).

(** Batch size 50 and 95 examples, all of them predicted within one unit:
    the counter of [test] ends at 100. *)
Definition overcount_self : NNTools :=
  mkNNTools "servo" [1] 50 false None None None.

Definition overcount_names : list string := repeat "32" 95.

Definition overcount_state : @state (toy 0) :=
  mkState (T := toy 0) (Some 0%Q)
          {[ "test.csv" := CsvFile (T := toy 0) overcount_names ]} 0%Z []
          (mkFrame (T := toy 0) None [] [] 0%Q 0%Q 0 0%Q).


(** * Properties *)

(** ** Texts and paths *)

Lemma newlines_app (a b : string) :
  newlines (a +:+ b) = newlines a + newlines b.
Proof.
  induction a as [|c a IH]; simpl; [reflexivity|].
  rewrite IH. lia.
Qed.

Lemma newlines_uint (d : Decimal.uint) :
  newlines (NilEmpty.string_of_uint d) = 0.
Proof. induction d; simpl; auto. Qed.

Lemma newlines_format_d (n : nat) : newlines (format_d n) = 0.
Proof.
  unfold format_d, NilZero.string_of_uint.
  destruct (Nat.to_uint n); try reflexivity; apply (newlines_uint (_ _)).
Qed.

Lemma newlines_spaces (n : nat) : newlines (spaces n) = 0.
Proof. induction n; simpl; auto. Qed.

Lemma newlines_format_4d (n : nat) : newlines (format_4d n) = 0.
Proof.
  unfold format_4d. rewrite newlines_app, newlines_spaces. simpl.
  apply newlines_format_d.
Qed.

Lemma toy_format_2f_newlines (x : Q) : newlines (Toy.format_2f x) = 0.
Proof.
  unfold Toy.format_2f. rewrite !newlines_app. simpl.
  rewrite !newlines_format_d. reflexivity.
Qed.

(** ** The monad *)

Section EngineFacts.
Context `{T : Torch}.

Lemma bind_Ok {A B} (m : M A) (k : A -> M B) s a s1 :
  m s = (Ok a, s1) -> bind m k s = k a s1.
Proof. unfold bind. intros ->. reflexivity. Qed.

Lemma bind_Raise {A B} (m : M A) (k : A -> M B) s e s1 :
  m s = (Raise e, s1) -> bind m k s = (Raise e, s1).
Proof. unfold bind. intros ->. reflexivity. Qed.

Lemma bind_inv {A B} (m : M A) (k : A -> M B) s r :
  bind m k s = r ->
  (exists a s1, m s = (Ok a, s1) /\ k a s1 = r) \/
  (exists e s1, m s = (Raise e, s1) /\ r = (Raise e, s1)).
Proof.
  unfold bind. destruct (m s) as [[a|e] s1]; intros <-; eauto.
Qed.

Lemma bind_inv_Ok {A B} (m : M A) (k : A -> M B) s b s' :
  bind m k s = (Ok b, s') ->
  exists a s1, m s = (Ok a, s1) /\ k a s1 = (Ok b, s').
Proof.
  intros H. apply bind_inv in H as [H|(e & s1 & _ & H)]; [exact H|discriminate].
Qed.

Lemma bind_ret {A B} (a : A) (k : A -> M B) : bind (ret a) k = k a.
Proof. reflexivity. Qed.

Lemma bind_raise {A B} e (k : A -> M B) : bind (raise e) k = raise e.
Proof. reflexivity. Qed.

Lemma set_stdout_id (s : state) : set_stdout (stdout s) s = s.
Proof. destruct s; reflexivity. Qed.

Lemma set_stdout_twice o o' (s : state) :
  set_stdout o (set_stdout o' s) = set_stdout o s.
Proof. reflexivity. Qed.

(** ** Computations that only print *)

Lemma prints_run {A} P (m : M A) s :
  prints P m ->
  exists r evs, Forall P evs /\ m s = (r, set_stdout (stdout s ++ evs) s) /\
    forall o, m (set_stdout o s) = (r, set_stdout (o ++ evs) s).
Proof.
  intros H. destruct (H s) as (r & evs & HP & Hm). exists r, evs.
  split; [exact HP|]. split; [|exact Hm].
  rewrite <- (set_stdout_id s) at 1. apply Hm.
Qed.

(** Nothing is printed when no line is allowed. *)
Lemma prints_nothing {A} (m : M A) s :
  prints (fun _ => False) m -> snd (m s) = s.
Proof.
  intros H. destruct (prints_run _ m s H) as (r & evs & HP & -> & _).
  destruct evs as [|e evs]; [|by inversion HP].
  simpl. rewrite app_nil_r. apply set_stdout_id.
Qed.

Section Prints.
Variable P : event -> Prop.

Lemma prints_ret {A} (a : A) : prints P (ret a).
Proof.
  intros s. exists (Ok a), []. split; [constructor|].
  intros o. unfold ret. by rewrite app_nil_r.
Qed.

Lemma prints_raise {A} e : prints P (raise e : M A).
Proof.
  intros s. exists (Raise e), []. split; [constructor|].
  intros o. unfold raise. by rewrite app_nil_r.
Qed.

Lemma prints_of_option {A} e (o : option A) : prints P (of_option e o).
Proof. destruct o; [apply prints_ret|apply prints_raise]. Qed.

Lemma prints_print e : P e -> prints P (print e).
Proof.
  intros He s. exists (Ok tt), [e]. split; [by repeat constructor|reflexivity].
Qed.

Lemma prints_bind {A B} (m : M A) (k : A -> M B) :
  prints P m -> (forall a, prints P (k a)) -> prints P (bind m k).
Proof.
  intros Hm Hk s. destruct (Hm s) as ([a|e] & evs & HP & Hms).
  - destruct (Hk a s) as (r & evs' & HP' & Hks). exists r, (evs ++ evs').
    split; [by apply Forall_app|].
    intros o. unfold bind. rewrite Hms, Hks. by rewrite app_assoc.
  - exists (Raise e), evs. split; [exact HP|].
    intros o. unfold bind. by rewrite Hms.
Qed.

(** A computation that reads the state without looking at the console. *)
Lemma prints_reader {A} (f : state -> M A) :
  (forall s o, f (set_stdout o s) = f s) ->
  (forall s, prints P (f s)) ->
  prints P (bind get f).
Proof.
  intros Hf Hp s. destruct (Hp s s) as (r & evs & HP & Hs). exists r, evs.
  split; [exact HP|].
  intros o. unfold bind, get. rewrite Hf. apply Hs.
Qed.

Lemma prints_self_model : prints P self_model.
Proof.
  apply prints_reader; [reflexivity|]. intros s. apply prints_of_option.
Qed.

Lemma prints_read_csv path : prints P (read_csv path).
Proof.
  apply prints_reader; [reflexivity|]. intros s.
  destruct (fs s !! path) as [[]|];
    first [apply prints_ret | apply prints_raise].
Qed.

Lemma prints_py_div x n : prints P (py_div x n).
Proof. destruct n; [apply prints_raise|apply prints_ret]. Qed.

Lemma prints_set_io self img servo motor :
  prints P (set_io self img servo motor).
Proof.
  unfold set_io. repeat case_match;
    first [apply prints_ret | apply prints_raise].
Qed.

Lemma prints_forward_batch p input : prints P (forward_batch p input).
Proof.
  induction input as [|x input IH]; simpl; [apply prints_ret|].
  apply prints_bind; [apply prints_of_option|]. intros o.
  apply prints_bind; [exact IH|]. intros os. apply prints_ret.
Qed.

Lemma prints_test_loop self mdl display batches total count :
  (display = true -> forall c a, P (TestStatus c a)) ->
  prints P (test_loop self mdl display batches total count).
Proof.
  intros HP. revert total count.
  induction batches as [|b batches IH]; intros total count; simpl;
    [apply prints_ret|].
  destruct (collate (shape self) b) as [[img servo] motor].
  apply prints_bind; [apply prints_set_io|]. intros [input target].
  apply prints_bind; [apply prints_forward_batch|]. intros out.
  apply prints_bind; [|intros _; apply IH].
  destruct display; simpl; [|apply prints_ret].
  case_match; [|apply prints_ret].
  apply prints_bind; [apply prints_py_div|]. intros a.
  apply prints_print. by apply HP.
Qed.

Lemma prints_test self testset display :
  (display = true -> forall c a, P (TestStatus c a)) ->
  (display = true -> forall a, P (TestTotal a)) ->
  prints P (test self testset display).
Proof.
  intros HP1 HP2. unfold test.
  apply prints_bind; [apply prints_read_csv|]. intros names.
  apply prints_bind; [apply prints_self_model|]. intros mdl.
  unfold DataLoader. simpl andb. cbv iota.
  destruct (batch_size self) as [|n] eqn:Hbs.
  { rewrite bind_raise. apply prints_raise. }
  rewrite bind_ret. unfold iter. simpl dl_shuffle. cbv iota. rewrite bind_ret.
  apply prints_bind; [by apply prints_test_loop|]. intros [total count].
  apply prints_bind; [|intros _; apply prints_py_div].
  destruct display; [|apply prints_ret].
  apply prints_bind; [apply prints_py_div|]. intros a.
  apply prints_print. by apply HP2.
Qed.

End Prints.

(** An evaluation that does not display leaves the whole state as it is. *)
Lemma test_quiet self testset s : snd (test self testset false s) = s.
Proof. apply prints_nothing, prints_test; discriminate. Qed.

(** C7. [test] takes no optimizer step and leaves the parameters of the
    model as they are (of the whole state, only the console can change);
    hence a second call right after the first, on the same manifest,
    returns the same accuracy (or raises the same exception). *)
Theorem test_side_effect_free self testset display s :
  model (snd (test self testset display s)) = model s /\
  optim (locals (snd (test self testset display s))) = optim (locals s) /\
  (exists evs,
     snd (test self testset display s) = set_stdout (stdout s ++ evs) s) /\
  fst (test self testset display (snd (test self testset display s)))
  = fst (test self testset display s).
Proof.
  destruct (prints_run (fun _ => True) (test self testset display) s)
    as (r & evs & _ & Hs & Ho); [by apply prints_test|].
  rewrite Hs. simpl. repeat split; [by exists evs|]. by rewrite Ho.
Qed.

(** ** Evaluation: what [test] computes *)

Lemma batch_sampler_concat {A} bs (l cur : list A) :
  concat (batch_sampler bs l cur) = cur ++ l.
Proof.
  revert cur. induction l as [|x l IH]; intros cur; simpl.
  - destruct cur; simpl; by rewrite ?app_nil_r.
  - case_match; simpl; rewrite IH; by rewrite <- ?app_assoc.
Qed.

Lemma correct_count_app self mdl l1 l2 :
  correct_count self mdl (l1 ++ l2)
  = correct_count self mdl l1 + correct_count self mdl l2.
Proof. unfold correct_count. by rewrite filter_app, length_app. Qed.

Lemma correct_count_le self mdl names :
  correct_count self mdl names <= length names.
Proof. apply length_filter. Qed.

Lemma forward_batch_ok self mdl (b : list string) s :
  (forall name, name ∈ b -> is_Some (prediction self mdl name)) ->
  exists outs,
    forward_batch mdl (map (fun i => fst (fst i)) (map (get_item (shape self)) b)) s
    = (Ok outs, s) /\
    Forall2 (fun name o => prediction self mdl name = Some o) b outs.
Proof.
  induction b as [|name b IH]; intros Hb; simpl.
  - exists []. split; [reflexivity|constructor].
  - destruct (Hb name) as [o Ho]; [by left|].
    destruct IH as (outs & Hf & H2); [intros n Hn; apply Hb; by right|].
    exists (o :: outs). split; [|by constructor].
    unfold prediction in Ho. unfold bind. rewrite Ho. simpl. by rewrite Hf.
Qed.

Lemma forward_batch_inv mdl input s r s' :
  forward_batch mdl input s = (r, s') -> s' = s.
Proof.
  revert r s'. induction input as [|x input IH]; simpl; intros r s'.
  - by intros [= _ <-].
  - unfold bind. destruct (forward mdl x); simpl; [|by intros [= _ <-]].
    destruct (forward_batch mdl input s) as [[os|e] s1] eqn:Hf;
      specialize (IH _ _ eq_refl); subst s1; by intros [= _ <-].
Qed.

Lemma count_true_correct self mdl (b : list string) outs :
  type self = "servo" \/ type self = "motor" ->
  Forall2 (fun name o => prediction self mdl name = Some o) b outs ->
  count_true
    (zip_with within_one
       (map (fun name => label_of self name) b) (map round outs))
  = correct_count self mdl b.
Proof.
  intros _. unfold count_true, correct_count.
  induction 1 as [|name o b outs Ho _ IH]; [reflexivity|].
  assert (Hc : correct self mdl name
               = within_one (label_of self name) (round o)).
  { unfold correct. by rewrite Ho. }
  simpl. destruct (within_one (label_of self name) (round o)).
  - rewrite !filter_cons_True by (rewrite ?Hc; exact I).
    simpl. by rewrite IH.
  - rewrite !filter_cons_False by (rewrite ?Hc; exact id). exact IH.
Qed.

Lemma set_io_ok self img servo motor s :
  type self = "servo" \/ type self = "motor" ->
  set_io self img servo motor s
  = (Ok (img, if String.eqb (type self) "servo" then servo else motor), s).
Proof.
  intros [H|H]; unfold set_io; rewrite H; reflexivity.
Qed.

Lemma collate_labels self (b : list string) :
  (if String.eqb (type self) "servo"
   then snd (fst (collate (shape self) b)) else snd (collate (shape self) b))
  = map (fun name => label_of self name) b.
Proof.
  unfold collate, label_of. simpl.
  destruct (String.eqb (type self) "servo"); rewrite map_map;
    apply map_ext; intros name; by destruct (get_item _ name) as [[? ?] ?].
Qed.

Lemma test_loop_ok self mdl display batches total count s :
  type self = "servo" \/ type self = "motor" ->
  1 <= batch_size self ->
  (forall name, name ∈ concat batches -> is_Some (prediction self mdl name)) ->
  exists q evs,
    test_loop self mdl display batches total count s
    = (Ok (q, count + length batches * batch_size self),
       set_stdout (stdout s ++ evs) s) /\
    (q == total
          + inject_Z (Z.of_nat (correct_count self mdl (concat batches))))%Q.
Proof.
  intros Hty Hbs. revert total count s.
  induction batches as [|b batches IH]; intros total count s Hp.
  - exists total, []. simpl. split.
    + unfold ret. by rewrite app_nil_r, set_stdout_id, Nat.add_0_r.
    + unfold correct_count. simpl. ring.
  - simpl test_loop.
    pose proof (collate_labels self b) as Hlab.
    destruct (collate (shape self) b) as [[img servo] motor] eqn:Hc.
    simpl in Hlab.
    destruct (forward_batch_ok self mdl b s) as (outs & Hf & H2).
    { intros n Hn. apply Hp. simpl. apply elem_of_app. by left. }
    unfold collate in Hc. injection Hc as <- <- <-.
    erewrite bind_Ok; [|by apply set_io_ok]. cbv beta iota.
    erewrite bind_Ok; [|exact Hf].
    fold (collate (shape self) b) in *.
    set (total' := (total + _)%Q).
    set (count' := count + batch_size self).
    assert (Hstep : exists evs0,
      (if display && (count' mod 100 =? 0)
       then let* a := py_div (total' * 100) count' in
            print (TestStatus count' a)
       else ret tt) s = (Ok tt, set_stdout (stdout s ++ evs0) s)).
    { destruct (display && (count' mod 100 =? 0)).
      - destruct count' as [|c] eqn:Hc'; [unfold count' in Hc'; lia|].
        eexists [_]. reflexivity.
      - exists []. unfold ret. by rewrite app_nil_r, set_stdout_id. }
    destruct Hstep as (evs0 & Hstep).
    erewrite bind_Ok; [|exact Hstep].
    destruct (IH total' count' (set_stdout (stdout s ++ evs0) s))
      as (q & evs & Hloop & Hq).
    { intros n Hn. apply Hp. simpl. apply elem_of_app. by right. }
    exists q, (evs0 ++ evs). split.
    + rewrite Hloop. simpl. f_equal; [|by rewrite app_assoc].
      do 2 f_equal. unfold count'. lia.
    + rewrite Hq. unfold total'. simpl concat.
      rewrite correct_count_app, Nat2Z.inj_add, inject_Z_plus.
      rewrite Hlab, (count_true_correct self mdl b outs Hty H2). ring.
Qed.

Lemma read_csv_ok path names s :
  fs s !! path = Some (CsvFile names) -> read_csv path s = (Ok names, s).
Proof. intros H. unfold read_csv, bind, get. by rewrite H. Qed.

Lemma self_model_ok mdl s : model s = Some mdl -> self_model s = (Ok mdl, s).
Proof. intros H. unfold self_model, bind, get. by rewrite H. Qed.

(** [test] up to its final division: the loop has counted the correct
    examples of the whole manifest. *)
Lemma test_unfold self testset display s names mdl :
  fs s !! testset = Some (CsvFile names) ->
  model s = Some mdl ->
  type self = "servo" \/ type self = "motor" ->
  1 <= batch_size self ->
  (forall name, name ∈ names -> is_Some (prediction self mdl name)) ->
  exists total evs,
    (total == inject_Z (Z.of_nat (correct_count self mdl names)))%Q /\
    test self testset display s
    = (let* _ := (if display
                  then let* a := py_div (total * 100) (length names) in
                       print (TestTotal a)
                  else ret tt) in
       py_div (total * 100) (length names)) (set_stdout (stdout s ++ evs) s).
Proof.
  intros Hfs Hm Hty Hbs Hp. unfold test.
  erewrite bind_Ok; [|by apply read_csv_ok].
  erewrite bind_Ok; [|by apply self_model_ok].
  unfold DataLoader. simpl andb. cbv iota.
  destruct (batch_size self) as [|n] eqn:Hn; [lia|].
  rewrite bind_ret. unfold iter. simpl dl_shuffle. cbv iota. rewrite bind_ret.
  simpl dl_batch_size. simpl dl_names. rewrite <- Hn.
  destruct (test_loop_ok self mdl display
              (batch_sampler (batch_size self) names []) 0%Q 0 s Hty)
    as (q & evs & Hloop & Hq); [lia| |].
  { by rewrite batch_sampler_concat. }
  rewrite batch_sampler_concat in Hq. simpl in Hq.
  exists q, evs. split; [rewrite Hq; ring|].
  erewrite bind_Ok; [|exact Hloop]. reflexivity.
Qed.

Lemma test_returns self testset display s names mdl :
  fs s !! testset = Some (CsvFile names) ->
  names <> [] ->
  model s = Some mdl ->
  type self = "servo" \/ type self = "motor" ->
  1 <= batch_size self ->
  (forall name, name ∈ names -> is_Some (prediction self mdl name)) ->
  exists q evs,
    test self testset display s = (Ok q, set_stdout (stdout s ++ evs) s) /\
    (q == 100 * inject_Z (Z.of_nat (correct_count self mdl names))
          / inject_Z (Z.of_nat (length names)))%Q.
Proof.
  intros Hfs Hne Hm Hty Hbs Hp.
  destruct (test_unfold self testset display s names mdl)
    as (total & evs & Htot & ->); auto.
  destruct names as [|name names]; [done|].
  set (n := length (name :: names)) in *.
  exists (total * 100 / inject_Z (Z.of_nat n))%Q.
  destruct display.
  - exists (evs ++ [TestTotal (total * 100 / inject_Z (Z.of_nat n))%Q]).
    split; [|rewrite Htot; field; by unfold n].
    unfold bind, print, modify, py_div, ret. simpl. by rewrite <- app_assoc.
  - exists evs. split; [reflexivity|rewrite Htot; field; by unfold n].
Qed.

Lemma test_raises_on_empty self testset display s mdl :
  fs s !! testset = Some (CsvFile []) ->
  model s = Some mdl ->
  1 <= batch_size self ->
  fst (test self testset display s) = Raise ZeroDivisionError.
Proof.
  intros Hfs Hm Hbs. unfold test.
  erewrite bind_Ok; [|by apply read_csv_ok].
  erewrite bind_Ok; [|by apply self_model_ok].
  unfold DataLoader. simpl andb. cbv iota.
  destruct (batch_size self) as [|n] eqn:Hn; [lia|].
  by destruct display.
Qed.

(** [Tensor.round()] goes to a nearest integer. *)
Lemma round_nearest (q : Q) : (Qabs (q - inject_Z (round q)) <= 1 # 2)%Q.
Proof.
  unfold round.
  pose proof (Qfloor_le q) as Hlo. pose proof (Qlt_floor q) as Hhi.
  rewrite inject_Z_plus in Hhi. change (inject_Z 1) with 1%Q in Hhi.
  apply Qabs_Qle_condition.
  destruct (Qcompare_spec (q - inject_Z (Qfloor q)) (1 # 2)) as [H|H|H].
  - destruct (Z.even (Qfloor q));
      rewrite ?inject_Z_plus; change (inject_Z 1) with 1%Q; split; lra.
  - split; lra.
  - rewrite inject_Z_plus. change (inject_Z 1) with 1%Q. split; lra.
Qed.

Lemma accuracy_bounds (c n : nat) :
  c <= n -> 0 < n ->
  (0 <= 100 * inject_Z (Z.of_nat c) / inject_Z (Z.of_nat n) <= 100)%Q.
Proof.
  intros Hc Hn.
  assert (H0 : (0 < inject_Z (Z.of_nat n))%Q).
  { change 0%Q with (inject_Z 0). rewrite <- Zlt_Qlt. lia. }
  assert (Hc0 : (0 <= inject_Z (Z.of_nat c))%Q).
  { change 0%Q with (inject_Z 0). rewrite <- Zle_Qle. lia. }
  assert (Hcn : (inject_Z (Z.of_nat c) <= inject_Z (Z.of_nat n))%Q).
  { rewrite <- Zle_Qle. lia. }
  split.
  - apply Qle_shift_div_l; [exact H0|]. lra.
  - apply Qle_shift_div_r; [exact H0|]. lra.
Qed.

(** C1 (amended). On a non-empty manifest (read from a file, with a model
    that answers on every example, a signal servo or motor and a positive
    batch size) [test] returns [100 * correct / total]: [correct] counts
    the examples whose label is within one unit of the prediction rounded
    to a nearest integer, [total] is the number of examples of the manifest
    whatever the batch size, and the value lies between 0 and 100.  On the
    scenario (batch size 2, labels 3,5,2,8,1, rounded predictions 3,4,2,9,1)
    every example is within the band and the value is 100. *)
Theorem test_accuracy self testset display s names mdl :
  fs s !! testset = Some (CsvFile names) ->
  names <> [] ->
  model s = Some mdl ->
  type self = "servo" \/ type self = "motor" ->
  1 <= batch_size self ->
  (forall name, name ∈ names -> is_Some (prediction self mdl name)) ->
  exists q s',
    test self testset display s = (Ok q, s') /\
    (q == 100 * inject_Z (Z.of_nat (correct_count self mdl names))
          / inject_Z (Z.of_nat (length names)))%Q /\
    (0 <= q <= 100)%Q /\
    (forall name o,
       prediction self mdl name = Some o ->
       (correct self mdl name = true <->
        (Qabs (label_of self name - inject_Z (round o)) <= 1)%Q) /\
       (Qabs (o - inject_Z (round o)) <= 1 # 2)%Q) /\
    (batch_size self = 2 ->
     map (label_of self) names = [3; 5; 2; 8; 1]%Q ->
     map (fun name => round <$> prediction self mdl name) names
     = [Some 3; Some 4; Some 2; Some 9; Some 1]%Z ->
     (q == 100)%Q).
Proof.
  intros Hfs Hne Hm Hty Hbs Hp.
  destruct (test_returns self testset display s names mdl)
    as (q & evs & Ht & Hq); auto.
  exists q, (set_stdout (stdout s ++ evs) s).
  split; [exact Ht|]. split; [exact Hq|]. split; [|split].
  - rewrite Hq. apply accuracy_bounds; [apply correct_count_le|].
    destruct names; [done|simpl; lia].
  - intros name o Ho. split; [|apply round_nearest].
    unfold correct. rewrite Ho. apply Qle_bool_iff.
  - intros _ Hl Hr. rewrite Hq.
    destruct names as [|n1 [|n2 [|n3 [|n4 [|n5 [|n6 names]]]]]];
      try discriminate Hl.
    assert (Hc : correct_count self mdl [n1; n2; n3; n4; n5] = 5).
    { injection Hl as L1 L2 L3 L4 L5. injection Hr as R1 R2 R3 R4 R5.
      unfold correct_count.
      rewrite !filter_cons_True; [reflexivity|..]; try exact I;
        unfold correct;
        [destruct (prediction self mdl n5); [|discriminate R5];
           injection R5 as ->; rewrite L5
        |destruct (prediction self mdl n4); [|discriminate R4];
           injection R4 as ->; rewrite L4
        |destruct (prediction self mdl n3); [|discriminate R3];
           injection R3 as ->; rewrite L3
        |destruct (prediction self mdl n2); [|discriminate R2];
           injection R2 as ->; rewrite L2
        |destruct (prediction self mdl n1); [|discriminate R1];
           injection R1 as ->; rewrite L1]; exact I. }
    rewrite Hc. reflexivity.
Qed.

(** C9. [test] divides by the length of the manifest without a guard: on
    an empty manifest it raises [ZeroDivisionError]; with a model that
    answers on every example the division fails exactly then. *)
Theorem test_empty_manifest self testset display s names mdl :
  fs s !! testset = Some (CsvFile names) ->
  model s = Some mdl ->
  type self = "servo" \/ type self = "motor" ->
  1 <= batch_size self ->
  (forall name, name ∈ names -> is_Some (prediction self mdl name)) ->
  (fst (test self testset display s) = Raise ZeroDivisionError
   <-> names = []) /\
  (names <> [] -> exists q, fst (test self testset display s) = Ok q).
Proof.
  intros Hfs Hm Hty Hbs Hp.
  assert (Hok : names <> [] ->
                exists q, fst (test self testset display s) = Ok q).
  { intros Hne.
    destruct (test_returns self testset display s names mdl)
      as (q & evs & Ht & _); auto.
    exists q. by rewrite Ht. }
  split; [|exact Hok]. split.
  - intros Hr. destruct names as [|n names]; [reflexivity|].
    destruct Hok as [q Hq]; [done|]. congruence.
  - intros ->. by eapply test_raises_on_empty.
Qed.

(** ** The best epoch *)

Lemma argmax_from_spec (l pre : list Q) best_i best :
  pre !! best_i = Some best ->
  (forall j x, pre !! j = Some x -> (x <= best)%Q) ->
  (forall j x, j < best_i -> pre !! j = Some x -> (x < best)%Q) ->
  exists m,
    (pre ++ l) !! argmax_from best_i best (length pre) l = Some m /\
    (forall j x, (pre ++ l) !! j = Some x -> (x <= m)%Q) /\
    (forall j x, j < argmax_from best_i best (length pre) l ->
                 (pre ++ l) !! j = Some x -> (x < m)%Q).
Proof.
  revert pre best_i best.
  induction l as [|y l IH]; intros pre best_i best Hb Hle Hlt; simpl.
  - rewrite app_nil_r. eauto.
  - replace (pre ++ y :: l) with ((pre ++ [y]) ++ l)
      by (by rewrite <- app_assoc).
    replace (S (length pre)) with (length (pre ++ [y]))
      by (rewrite length_app; simpl; lia).
    destruct (Qlt_le_dec best y) as [Hy|Hy]; apply IH.
    + rewrite lookup_app_r by lia. by rewrite Nat.sub_diag.
    + intros j x Hj. apply lookup_app_Some in Hj as [Hj|[_ Hj]].
      * apply Qle_trans with best; [by eapply Hle|by apply Qlt_le_weak].
      * destruct (j - length pre); [|done]. injection Hj as <-. apply Qle_refl.
    + intros j x Hlen Hj. rewrite lookup_app_l in Hj by exact Hlen.
      apply Qle_lt_trans with best; [by eapply Hle|exact Hy].
    + apply lookup_app_l_Some. exact Hb.
    + intros j x Hj. apply lookup_app_Some in Hj as [Hj|[_ Hj]].
      * by eapply Hle.
      * destruct (j - length pre); [|done]. by injection Hj as <-.
    + intros j x Hlen Hj. apply (Hlt j x Hlen).
      rewrite lookup_app_l in Hj; [exact Hj|].
      apply lookup_lt_Some in Hb. lia.
Qed.

Lemma argmax_spec (l : list Q) s :
  l <> [] ->
  exists i m,
    argmax l s = (Ok i, s) /\
    l !! i = Some m /\
    (forall j x, l !! j = Some x -> (x <= m)%Q) /\
    (forall j x, j < i -> l !! j = Some x -> (x < m)%Q).
Proof.
  destruct l as [|y l]; [done|]. intros _.
  destruct (argmax_from_spec l [y] 0 y) as (m & H1 & H2 & H3).
  - reflexivity.
  - intros [|j] x; [|done]. intros [= <-]. apply Qle_refl.
  - intros j x Hj. lia.
  - exists (argmax_from 0 y 1 l), m. eauto.
Qed.

Lemma py_index_ok {A} (l : list A) (i : nat) a s :
  l !! i = Some a -> py_index l (Z.of_nat i) s = (Ok a, s).
Proof.
  intros H. unfold py_index.
  destruct (Z.leb_spec 0 (Z.of_nat i)); [|lia].
  by rewrite Nat2Z.id, H.
Qed.

Lemma log_content_ok self epoch (accs : list Q) i a s :
  type self = "servo" \/ type self = "motor" ->
  accs !! (epoch - 1) = Some a ->
  1 <= epoch ->
  argmax accs s = (Ok i, s) ->
  log_content self epoch accs s
  = (Ok (Some (log_line (signal_name self) epoch a (i + 1))), s).
Proof.
  intros Hty Ha He Hi.
  assert (Hidx : py_index accs (Z.of_nat epoch - 1) s = (Ok a, s)).
  { replace (Z.of_nat epoch - 1)%Z with (Z.of_nat (epoch - 1)) by lia.
    by apply py_index_ok. }
  unfold log_content, signal_name.
  destruct Hty as [Hty|Hty]; rewrite Hty.
  - change (String.eqb "servo" "servo") with true.
    change (String.eqb "servo" "motor") with false. cbv iota.
    unfold bind. rewrite Hidx, Hi. reflexivity.
  - change (String.eqb "motor" "servo") with false.
    change (String.eqb "motor" "motor") with true. cbv iota.
    rewrite bind_ret. unfold bind. rewrite Hidx, Hi. reflexivity.
Qed.

(** ** Training: one batch *)

(** The two ways a batch can end: an exception before the optimizer step,
    which leaves only the counter advanced, or a complete step. *)
Lemma train_batch_inv self epoch b s r s' :
  train_batch self epoch b s = (r, s') ->
  (exists e, r = Raise e /\ s' = after_count self s) \/
  (exists mdl opt outs img target,
     r = Ok tt /\
     model s = Some mdl /\ optim (locals s) = Some opt /\
     set_io self (fst (fst (collate (shape self) b)))
       (snd (fst (collate (shape self) b))) (snd (collate (shape self) b))
       (after_count self s)
     = (Ok (img, target), after_count self s) /\
     forward_batch mdl img (after_count self s)
     = (Ok outs, after_count self s) /\
     s' = after_report epoch
            (after_step self
               (snd (optimizer_step opt mdl (backward mdl img target)))
               (fst (optimizer_step opt mdl (backward mdl img target)))
               (MSELoss target outs) s)).
Proof.
  unfold train_batch.
  destruct (collate (shape self) b) as [[img servo] motor] eqn:Hc.
  unfold bind at 1. unfold upd_locals at 1. unfold modify at 1.
  fold (after_count self s). simpl fst. simpl snd.
  set (s0 := after_count self s).
  intros H.
  apply bind_inv in H as [(it & s1 & Hio & H)|(e & s1 & Hio & [= -> ->])].
  2:{ left. exists e. split; [done|].
      unfold set_io in Hio. repeat case_match; by injection Hio as _ <-. }
  assert (s1 = s0) as ->.
  { unfold set_io in Hio. repeat case_match; by injection Hio as _ <-. }
  destruct it as [input target].
  apply bind_inv in H as [(mdl & s1 & Hm & H)|(e & s1 & Hm & [= -> ->])].
  2:{ left. exists e. split; [done|].
      unfold self_model, bind, get, of_option in Hm.
      case_match; by injection Hm as _ <-. }
  assert (s1 = s0 /\ model s = Some mdl) as [-> Hmdl].
  { unfold self_model, bind, get, of_option in Hm. simpl in Hm.
    destruct (model s); [|discriminate]. by injection Hm as <- <-. }
  apply bind_inv in H as [(outs & s1 & Hf & H)|(e & s1 & Hf & [= -> ->])].
  2:{ left. exists e. split; [done|]. by eapply forward_batch_inv. }
  assert (s1 = s0) as -> by (by eapply forward_batch_inv).
  unfold bind at 1 in H. unfold local at 1 in H. unfold bind, get, ret in H.
  simpl in H.
  destruct (optim (locals s)) as [opt|] eqn:Ho; simpl in H.
  2:{ left. exists UnboundLocalError. by injection H as <- <-. }
  right. exists mdl, opt, outs, input, target.
  destruct (optimizer_step opt mdl (backward mdl input target))
    as [opt' mdl'] eqn:Hstep.
  simpl in H. unfold after_report, after_step. simpl.
  fold s0.
  repeat split; auto.
  all: match type of H with
       | context [if ?c then _ else _] => destruct c
       end; by injection H as <- <-.
Qed.

(** ** Loops *)

Lemma for_each_app {A} (f : A -> M unit) l1 l2 s :
  for_each f (l1 ++ l2) s = (do for_each f l1 in for_each f l2) s.
Proof.
  revert s. induction l1 as [|x l1 IH]; intros s; simpl; [reflexivity|].
  unfold bind. destruct (f x s) as [[[]|e] s1]; [|reflexivity].
  rewrite IH. reflexivity.
Qed.

(** A loop that raises has completed a prefix of its iterations. *)
Lemma for_each_raise {A} (f : A -> M unit) l s e s' :
  for_each f l s = (Raise e, s') ->
  exists done x rest s1,
    l = done ++ x :: rest /\
    for_each f done s = (Ok tt, s1) /\ f x s1 = (Raise e, s').
Proof.
  revert s. induction l as [|x l IH]; intros s; simpl; [discriminate|].
  intros H. apply bind_inv in H as [([] & s1 & Hx & H)|(e' & s1 & Hx & [= -> ->])].
  - destruct (IH _ H) as (done & y & rest & s2 & -> & Hd & Hy).
    exists (x :: done), y, rest, s2. split; [reflexivity|]. split; [|exact Hy].
    simpl. by erewrite bind_Ok.
  - exists [], x, l, s. auto.
Qed.

(** A relation that every iteration establishes holds across the loop. *)
Lemma for_each_rel {A} (f : A -> M unit) (R : state -> state -> Prop) :
  (forall s, R s s) ->
  (forall s1 s2 s3, R s1 s2 -> R s2 s3 -> R s1 s3) ->
  (forall x s r s', f x s = (r, s') -> R s s') ->
  forall l s r s', for_each f l s = (r, s') -> R s s'.
Proof.
  intros Hrefl Htrans Hf l.
  induction l as [|x l IH]; intros s r s'; simpl.
  - intros [= _ <-]. apply Hrefl.
  - intros H. apply bind_inv in H as [([] & s1 & Hx & H)|(e & s1 & Hx & [= -> ->])].
    + eapply Htrans; [by eapply Hf|by eapply IH].
    + by eapply Hf.
Qed.
(** ** Training: the batches of an epoch *)

#[local] Arguments Nat.modulo : simpl never.

Lemma batch_phase_refl epoch s : batch_phase epoch s s.
Proof.
  repeat split. exists []. split; [by rewrite app_nil_r|constructor].
Qed.

Lemma batch_phase_trans epoch s1 s2 s3 :
  batch_phase epoch s1 s2 -> batch_phase epoch s2 s3 ->
  batch_phase epoch s1 s3.
Proof.
  intros (F1 & G1 & T1 & D1 & A1 & evs1 & O1 & P1)
         (F2 & G2 & T2 & D2 & A2 & evs2 & O2 & P2).
  repeat split; try congruence.
  exists (evs1 ++ evs2). split; [|by apply Forall_app].
  by rewrite O2, O1, app_assoc.
Qed.

Lemma after_report_cases epoch s :
  (batch (locals s) mod 100 = 0 /\
   after_report epoch s
   = set_locals
       (set_running_loss 0
          (set_epoch_loss (running_loss (locals s) / 100) (locals s)))
       (set_stdout
          (stdout s ++ [TrainStatus epoch (batch (locals s))
                          (running_loss (locals s) / 100)
                          (accuracy (locals s))]) s)) \/
  (batch (locals s) mod 100 <> 0 /\ after_report epoch s = s).
Proof.
  unfold after_report.
  destruct (Nat.eqb_spec (batch (locals s) mod 100) 0); [left|right]; auto.
Qed.

Lemma train_batch_phase self epoch b s r s' :
  train_batch self epoch b s = (r, s') -> batch_phase epoch s s'.
Proof.
  intros H. apply train_batch_inv in H
    as [(e & -> & ->)|(mdl & opt & outs & img & tgt & -> & _ & _ & _ & _ & ->)].
  - repeat split. exists []. split; [by rewrite app_nil_r|constructor].
  - destruct (after_report_cases epoch
                (after_step self
                   (snd (optimizer_step opt mdl (backward mdl img tgt)))
                   (fst (optimizer_step opt mdl (backward mdl img tgt)))
                   (MSELoss tgt outs) s)) as [[Hm ->]|[Hm ->]].
    + repeat split. eexists [_]. split; [reflexivity|].
      constructor; [|constructor]. eexists. split; [exact Hm|].
      by eexists _, _.
    + repeat split. exists []. split; [by rewrite app_nil_r|constructor].
Qed.

Lemma iter_run dl s :
  iter dl s
  = (Ok (batches_of dl (rng s)),
     if dl_shuffle dl then set_rng (snd (randperm (rng s) (dl_names dl))) s
     else s).
Proof.
  unfold iter, batches_of. destruct (dl_shuffle dl); [|reflexivity].
  unfold bind, get. by destruct (randperm (rng s) (dl_names dl)).
Qed.

Lemma batch_loop_unfold self dl epoch s :
  batch_loop self dl epoch s
  = for_each (train_batch self epoch) (batches_of dl (rng s))
      (epoch_start dl s).
Proof.
  unfold batch_loop, bind, upd_locals, modify. rewrite iter_run.
  unfold epoch_start. by destruct (dl_shuffle dl).
Qed.

Lemma epoch_start_locals dl s :
  locals (epoch_start dl s)
  = set_running_loss 0 (set_batch 0 (locals s)).
Proof. unfold epoch_start. by destruct (dl_shuffle dl). Qed.

Lemma epoch_start_fs dl s : fs (epoch_start dl s) = fs s.
Proof. unfold epoch_start. by destruct (dl_shuffle dl). Qed.

Lemma epoch_start_stdout dl s : stdout (epoch_start dl s) = stdout s.
Proof. unfold epoch_start. by destruct (dl_shuffle dl). Qed.

Lemma epoch_start_model dl s : model (epoch_start dl s) = model s.
Proof. unfold epoch_start. by destruct (dl_shuffle dl). Qed.

(** The batches of an epoch leave the files and the epoch records alone,
    whether they complete or raise. *)
Lemma batch_loop_keeps self dl epoch s r s' :
  batch_loop self dl epoch s = (r, s') ->
  fs s' = fs s /\
  total_loss (locals s') = total_loss (locals s) /\
  dev_accuracy (locals s') = dev_accuracy (locals s) /\
  accuracy (locals s') = accuracy (locals s) /\
  exists evs,
    stdout s' = stdout s ++ evs /\
    Forall (fun e => exists c, c mod 100 = 0 /\ status_of epoch c e) evs.
Proof.
  rewrite batch_loop_unfold. intros H.
  apply (for_each_rel _ (batch_phase epoch)) in H;
    [|apply batch_phase_refl|apply batch_phase_trans
     |intros; by eapply train_batch_phase].
  destruct H as (F & _ & TL & DA & A & evs & O & P).
  rewrite epoch_start_fs in F. rewrite epoch_start_stdout in O.
  rewrite epoch_start_locals in TL, DA, A. simpl in TL, DA, A.
  repeat split; auto. by exists evs.
Qed.

Lemma report_counters_S bs b0 n :
  report_counters bs b0 (S n)
  = filter (fun c => c mod 100 = 0) [b0 + bs]
    ++ report_counters bs (b0 + bs) n.
Proof.
  unfold report_counters. change (seq 1 (S n)) with (1 :: seq 2 n).
  rewrite <- seq_shift, map_cons, map_map.
  replace (b0 + 1 * bs) with (b0 + bs) by lia.
  assert (E : map (fun k => b0 + S k * bs) (seq 1 n)
              = map (fun k => b0 + bs + k * bs) (seq 1 n)).
  { apply map_ext. intros k. lia. }
  rewrite E.
  destruct (decide ((b0 + bs) mod 100 = 0)) as [Hm|Hm].
  - by rewrite !filter_cons_True by exact Hm.
  - by rewrite !filter_cons_False by exact Hm.
Qed.

Lemma for_each_reports self epoch batches s s' :
  for_each (train_batch self epoch) batches s = (Ok tt, s') ->
  batch (locals s') = batch (locals s) + length batches * batch_size self /\
  exists evs,
    stdout s' = stdout s ++ evs /\
    Forall2 (fun e c => status_of epoch c e) evs
      (report_counters (batch_size self) (batch (locals s))
         (length batches)).
Proof.
  revert s. induction batches as [|b batches IH]; intros s; simpl.
  - intros [= <-]. split; [lia|]. exists [].
    split; [by rewrite app_nil_r|constructor].
  - intros H. apply bind_inv_Ok in H as ([] & s1 & Hb & H).
    destruct (IH _ H) as (Hc & evs & Ho & Hr).
    apply train_batch_inv in Hb
      as [(e & [=] & _)
         |(mdl & opt & outs & img & tgt & _ & _ & _ & _ & _ & ->)].
    rewrite report_counters_S.
    destruct (after_report_cases epoch
                (after_step self
                   (snd (optimizer_step opt mdl (backward mdl img tgt)))
                   (fst (optimizer_step opt mdl (backward mdl img tgt)))
                   (MSELoss tgt outs) s)) as [[Hm E]|[Hm E]];
      rewrite E in Hc, Ho, Hr; simpl in Hc, Ho, Hr, Hm.
    + split; [lia|]. eexists (_ :: evs).
      split; [by rewrite Ho, <- app_assoc|].
      rewrite filter_cons_True by exact Hm. simpl.
      constructor; [by eexists _, _|exact Hr].
    + split; [lia|]. exists evs. split; [exact Ho|].
      rewrite filter_cons_False by exact Hm. exact Hr.
Qed.
(** C3 (amended). In an epoch of [train] that completes its batches, a
    status line is emitted after the [k]-th batch exactly when the counter
    [k * batch_size] is a multiple of 100, and shows that counter; the
    counter advances by [batch_size] per batch whatever the batch holds.
    After a batch with a status line the accumulator [running_loss] is
    zero; a batch without one prints nothing.  When the batch size divides
    100, say [m] batches make 100, the lines come after every [m]-th
    batch. *)
Theorem progress_reports self dl epoch s s' :
  batch_loop self dl epoch s = (Ok tt, s') ->
  (exists evs,
     stdout s' = stdout s ++ evs /\
     Forall2 (fun e c => exists loss dev, e = TrainStatus epoch c loss dev)
       evs
       (filter (fun c => c mod 100 = 0)
          (map (fun k => k * batch_size self)
             (seq 1 (length (batches_of dl (rng s))))))) /\
  (forall b s1 s2,
     train_batch self epoch b s1 = (Ok tt, s2) ->
     batch (locals s2) = batch (locals s1) + batch_size self /\
     (batch (locals s2) mod 100 = 0 ->
      running_loss (locals s2) = 0%Q /\
      exists loss dev,
        stdout s2
        = stdout s1 ++ [TrainStatus epoch (batch (locals s2)) loss dev]) /\
     (batch (locals s2) mod 100 <> 0 -> stdout s2 = stdout s1)) /\
  (forall m k,
     m * batch_size self = 100 ->
     ((k * batch_size self) mod 100 = 0 <-> k mod m = 0)).
Proof.
  intros H. split; [|split].
  3:{ intros m k Hm. rewrite <- Hm, Nat.Div0.mul_mod_distr_r. nia. }
  - rewrite batch_loop_unfold in H.
    apply for_each_reports in H as (_ & evs & Ho & Hr).
    rewrite epoch_start_stdout in Ho. rewrite epoch_start_locals in Hr.
    exists evs. split; [exact Ho|]. exact Hr.
  - intros b s1 s2 Hb.
    apply train_batch_inv in Hb
      as [(e & [=] & _)
         |(mdl & opt & outs & img & tgt & _ & _ & _ & _ & _ & ->)].
    destruct (after_report_cases epoch
                (after_step self
                   (snd (optimizer_step opt mdl (backward mdl img tgt)))
                   (fst (optimizer_step opt mdl (backward mdl img tgt)))
                   (MSELoss tgt outs) s1)) as [[Hm ->]|[Hm ->]];
      simpl in *.
    + split; [reflexivity|]. split; [|done].
      intros _. split; [reflexivity|]. by eexists _, _.
    + split; [reflexivity|]. split; [done|]. reflexivity.
Qed.

(** C4 (amended). What the accumulator and the counter hold when an epoch
    begins is discarded: the batches of the epoch, and the epoch as a whole,
    run exactly as they would from any other left-over.  A partial interval
    is never reported either: every status line of the epoch shows a
    multiple of 100. *)
Theorem partial_interval_discarded self dl devset epoch s r b :
  batch_loop self dl epoch
    (set_locals (set_running_loss r (set_batch b (locals s))) s)
  = batch_loop self dl epoch s /\
  train_epoch self dl devset epoch
    (set_locals (set_running_loss r (set_batch b (locals s))) s)
  = train_epoch self dl devset epoch s /\
  exists evs,
    stdout (snd (batch_loop self dl epoch s)) = stdout s ++ evs /\
    Forall (fun e => exists c loss dev,
                       c mod 100 = 0 /\ e = TrainStatus epoch c loss dev)
      evs.
Proof.
  assert (E : batch_loop self dl epoch
                (set_locals (set_running_loss r (set_batch b (locals s))) s)
              = batch_loop self dl epoch s) by reflexivity.
  split; [exact E|]. split.
  - unfold train_epoch, bind. by rewrite E.
  - destruct (batch_loop self dl epoch s) as [res s'] eqn:H.
    apply batch_loop_keeps in H as (_ & _ & _ & _ & evs & Ho & Hp).
    exists evs. split; [exact Ho|].
    eapply Forall_impl; [exact Hp|].
    intros e (c & Hc & loss & dev & ->). by exists c, loss, dev.
Qed.

(** ** Training: a failing batch *)

Lemma train_unfold self trainset devset s0 dl n s1 :
  train_setup self trainset s0 = (Ok (dl, n), s1) ->
  train self trainset devset s0
  = (do for_each (train_epoch self dl devset) (seq 1 n) in
     do (if String.eqb (type self) "servo"
         then print (Message "Servo model training finished!") else ret tt) in
     if String.eqb (type self) "motor"
     then print (Message "Motor model training finished!") else ret tt) s1.
Proof.
  intros H. unfold train. erewrite bind_Ok by exact H. reflexivity.
Qed.

(** C8. When the batches of epoch [e] raise, after the epochs before it
    have completed, [train] as a whole ends with that exception, in the
    state in which it was raised.  Since the end of epoch [e - 1] no file
    has been written (no checkpoint, no curve, no log line) and no epoch
    record has been appended; the model is the one left by the batches of
    epoch [e] that completed. *)
Theorem batch_failure_aborts self trainset devset s0 dl n s1 e s2 x s3 :
  train_setup self trainset s0 = (Ok (dl, n), s1) ->
  1 <= e <= n ->
  for_each (train_epoch self dl devset) (seq 1 (e - 1)) s1 = (Ok tt, s2) ->
  batch_loop self dl e s2 = (Raise x, s3) ->
  train self trainset devset s0 = (Raise x, s3) /\
  fs s3 = fs s2 /\
  total_loss (locals s3) = total_loss (locals s2) /\
  dev_accuracy (locals s3) = dev_accuracy (locals s2) /\
  exists done failing rest s4,
    batches_of dl (rng s2) = done ++ failing :: rest /\
    for_each (train_batch self e) done (epoch_start dl s2) = (Ok tt, s4) /\
    fst (train_batch self e failing s4) = Raise x /\
    model s3 = model s4.
Proof.
  intros Hsetup He Hprev Hfail.
  split; [|split; [|split; [|split]]].
  - erewrite train_unfold by exact Hsetup.
    replace n with ((e - 1) + S (n - e)) by lia.
    rewrite seq_app. replace (1 + (e - 1)) with e by lia.
    change (seq e (S (n - e))) with (e :: seq (S e) (n - e)).
    apply bind_Raise. rewrite for_each_app.
    erewrite bind_Ok by exact Hprev. simpl for_each.
    apply bind_Raise. unfold train_epoch. by apply bind_Raise.
  - by apply batch_loop_keeps in Hfail as (? & _).
  - by apply batch_loop_keeps in Hfail as (_ & ? & _).
  - by apply batch_loop_keeps in Hfail as (_ & _ & ? & _).
  - rewrite batch_loop_unfold in Hfail.
    apply for_each_raise in Hfail
      as (done & failing & rest & s4 & Hb & Hdone & Hf).
    exists done, failing, rest, s4. split; [exact Hb|]. split; [exact Hdone|].
    split; [by rewrite Hf|].
    apply train_batch_inv in Hf as [(e' & _ & ->)|(? & ? & ? & ? & ? & [=] & _)].
    reflexivity.
Qed.

(** ** The files of a session *)

Lemma string_length_app (a b : string) :
  String.length (a +:+ b) = String.length a + String.length b.
Proof. induction a as [|c a IH]; simpl; [reflexivity|]. by rewrite IH. Qed.

Lemma string_app_inv_tail (a b c : string) : a +:+ c = b +:+ c -> a = b.
Proof.
  revert b. induction a as [|x a IH]; intros [|y b]; simpl; intros H.
  - reflexivity.
  - apply (f_equal String.length) in H.
    rewrite !string_length_app in H. simpl in H. lia.
  - apply (f_equal String.length) in H.
    rewrite !string_length_app in H. simpl in H. lia.
  - injection H as -> H. f_equal. by apply IH.
Qed.

Lemma to_uint_nonnil (n : nat) : Nat.to_uint n <> Decimal.Nil.
Proof.
  rewrite <- (Unsigned.of_to n) at 1. rewrite Unsigned.to_of.
  unfold Decimal.unorm. by destruct (Decimal.nzhead (Nat.to_uint n)).
Qed.

Lemma format_d_inj (n m : nat) : format_d n = format_d m -> n = m.
Proof.
  unfold format_d. intros H. apply Unsigned.to_uint_inj.
  apply (f_equal NilZero.uint_of_string) in H.
  rewrite !NilZero.usu in H by apply to_uint_nonnil. by injection H.
Qed.

Lemma checkpoint_path_eq (n : nat) :
  checkpoint_path n
  = "output/models/servo_model_epoch_" +:+ format_d n +:+ ".pth".
Proof. reflexivity. Qed.

Lemma checkpoint_path_inj (n m : nat) :
  checkpoint_path n = checkpoint_path m -> n = m.
Proof.
  rewrite !checkpoint_path_eq. intros H.
  apply String.app_inj in H. apply string_app_inv_tail in H.
  by apply format_d_inj.
Qed.

Lemma checkpoint_path_other self (n : nat) :
  checkpoint_path n <> log_path /\
  checkpoint_path n <> loss_curve self /\
  checkpoint_path n <> accuracy_curve self.
Proof.
  rewrite checkpoint_path_eq. unfold loss_curve, accuracy_curve.
  destruct (String.eqb (type self) "servo"); repeat split; discriminate.
Qed.

Lemma log_path_other self :
  log_path <> loss_curve self /\ log_path <> accuracy_curve self /\
  loss_curve self <> accuracy_curve self.
Proof.
  unfold loss_curve, accuracy_curve.
  destruct (String.eqb (type self) "servo"); repeat split; discriminate.
Qed.

Lemma type_cases self :
  type self = "servo" \/ type self = "motor" \/
  (String.eqb (type self) "servo" = false /\
   String.eqb (type self) "motor" = false).
Proof.
  destruct (String.eqb_spec (type self) "servo"); [by left|].
  destruct (String.eqb_spec (type self) "motor"); [by right; left|].
  by right; right.
Qed.

(** ** Training: the end of an epoch *)

Lemma save_model_inv self path s s' :
  save_model self path s = (Ok tt, s') ->
  type self = "servo" \/ type self = "motor" ->
  exists mdl msg,
    model s = Some mdl /\
    s' = set_fs (<[path := ModelFile mdl]> (fs s))
           (set_stdout (stdout s ++ [Message msg]) s).
Proof.
  intros H [Hty|Hty]; unfold save_model in H; rewrite Hty in H; simpl in H;
    cbv [bind print write_file modify self_model get of_option ret raise]
      in H; simpl in H;
    (destruct (model s) as [mdl|]; [|discriminate]);
    injection H as <-; by eexists _, _.
Qed.

Lemma of_option_inv {A} e (o : option A) s a s' :
  of_option e o s = (Ok a, s') -> o = Some a /\ s' = s.
Proof. destruct o; simpl; [by intros [= -> ->]|discriminate]. Qed.

Lemma plot_inv epoch ys s c s' :
  plot epoch ys s = (Ok c, s') ->
  length ys = epoch /\ c = (seq 1 epoch, ys) /\ s' = s.
Proof.
  unfold plot. destruct (Nat.eqb_spec (length ys) epoch); [|discriminate].
  by intros [= <- <-].
Qed.

Lemma figure_of_inv self a b s r s' :
  figure_of self a b s = (Ok r, s') ->
  s' = s /\
  (type self = "servo" \/ type self = "motor") /\
  fst r = figure_title self /\
  snd r = ODIR +:+ (if String.eqb (type self) "servo" then a else b).
Proof.
  unfold figure_of, figure_title.
  destruct (type_cases self) as [Hty|[Hty|[H1 H2]]].
  - rewrite Hty. simpl. intros [= <- <-]. auto.
  - rewrite Hty. simpl. intros [= <- <-]. auto.
  - rewrite H1, H2. discriminate.
Qed.

Lemma py_index_inv {A} (l : list A) (i : nat) s a s' :
  py_index l (Z.of_nat i - 1) s = (Ok a, s') ->
  length l = i ->
  s' = s /\ 1 <= i /\ l !! (i - 1) = Some a.
Proof.
  unfold py_index. intros H Hl.
  destruct (Z.leb_spec 0 (Z.of_nat i - 1)).
  - apply of_option_inv in H as [H ->].
    replace (Z.to_nat (Z.of_nat i - 1)) with (i - 1) in H by lia.
    split; [done|]. split; [lia|done].
  - destruct (Z.leb_spec 0 (Z.of_nat (length l) + (Z.of_nat i - 1)));
      [lia|discriminate].
Qed.

Lemma argmax_inv (l : list Q) s i s' :
  argmax l s = (Ok i, s') -> s' = s /\ forall s0, argmax l s0 = (Ok i, s0).
Proof. destruct l; simpl; [discriminate|by intros [= <- <-]]. Qed.

Lemma log_content_inv self epoch (da : list Q) s c s' :
  log_content self epoch da s = (Ok c, s') ->
  type self = "servo" \/ type self = "motor" ->
  length da = epoch ->
  exists a i,
    c = Some (log_line (signal_name self) epoch a (i + 1)) /\
    da !! (epoch - 1) = Some a /\ argmax da s = (Ok i, s) /\ s' = s.
Proof.
  intros H Hty Hlen. unfold log_content, signal_name in *.
  destruct Hty as [Hty|Hty]; rewrite Hty in *.
  - change (String.eqb "servo" "servo") with true in *.
    change (String.eqb "servo" "motor") with false in *. cbv iota in *.
    apply bind_inv_Ok in H as (c1 & s1 & H & Hr). injection Hr as <- <-.
    apply bind_inv_Ok in H as (a & s2 & Ha & H).
    apply py_index_inv in Ha as (-> & _ & Ha); [|done].
    apply bind_inv_Ok in H as (i & s3 & Hi & H).
    pose proof (proj1 (argmax_inv _ _ _ _ Hi)) as ->.
    injection H as <- <-. by exists a, i.
  - change (String.eqb "motor" "servo") with false in *.
    change (String.eqb "motor" "motor") with true in *. cbv iota in *.
    rewrite bind_ret in H.
    apply bind_inv_Ok in H as (a & s2 & Ha & H).
    apply py_index_inv in Ha as (-> & _ & Ha); [|done].
    apply bind_inv_Ok in H as (i & s3 & Hi & H).
    pose proof (proj1 (argmax_inv _ _ _ _ Hi)) as ->.
    injection H as <- <-. by exists a, i.
Qed.

Lemma open_append_inv path s s' :
  open_append path s = (Ok tt, s') ->
  (fs s !! path = None /\ s' = set_fs (<[path := TextFile ""]> (fs s)) s) \/
  (exists old, fs s !! path = Some (TextFile old) /\ s' = s).
Proof.
  unfold open_append, bind, get, write_file, modify, ret, raise.
  destruct (fs s !! path) as [[]|]; try discriminate; intros [= <-]; eauto.
Qed.

Lemma write_append_inv path content s s' :
  write_append path content s = (Ok tt, s') ->
  exists old,
    fs s !! path = Some (TextFile old) /\
    s' = set_fs (<[path := TextFile (old +:+ content)]> (fs s)) s.
Proof.
  unfold write_append, bind, get, write_file, modify, ret, raise.
  destruct (fs s !! path) as [[]|]; try discriminate; intros [= <-]; eauto.
Qed.

Lemma plot_result_inv self epoch tl da s s' :
  plot_result self epoch tl da s = (Ok tt, s') ->
  (type self = "servo" \/ type self = "motor") /\
  length tl = epoch /\ length da = epoch /\
  exists logp old a i,
    log self = Some logp /\
    da !! (epoch - 1) = Some a /\
    argmax da s = (Ok i, s) /\
    (let fs2 :=
       <[accuracy_curve self
         := FigureFile (figure_title self) (seq 1 epoch) da]>
         (<[loss_curve self
            := FigureFile (figure_title self) (seq 1 epoch) tl]> (fs s)) in
     (fs2 !! logp = Some (TextFile old) \/
      fs2 !! logp = None /\ old = "") /\
     s' = set_fs
            (<[logp := TextFile
                         (old +:+ log_line (signal_name self) epoch a (i + 1))]>
               fs2) s).
Proof.
  intros H. unfold plot_result in H.
  apply bind_inv_Ok in H as (c1 & s1 & Hp1 & H).
  apply plot_inv in Hp1 as (Htl & -> & ->).
  apply bind_inv_Ok in H as ([title1 path1] & s1 & Hf1 & H).
  apply figure_of_inv in Hf1 as (-> & Hty & Ht1 & Hpath1).
  simpl in Ht1, Hpath1. fold (loss_curve self) in Hpath1. subst title1 path1.
  apply bind_inv_Ok in H as ([] & s1 & Hs1 & H).
  injection Hs1 as <-.
  apply bind_inv_Ok in H as (c2 & s2 & Hp2 & H).
  apply plot_inv in Hp2 as (Hda & -> & ->).
  apply bind_inv_Ok in H as ([title2 path2] & s2 & Hf2 & H).
  apply figure_of_inv in Hf2 as (-> & _ & Ht2 & Hpath2).
  simpl in Ht2, Hpath2. fold (accuracy_curve self) in Hpath2.
  subst title2 path2.
  apply bind_inv_Ok in H as ([] & s2 & Hs2 & H).
  injection Hs2 as <-.
  apply bind_inv_Ok in H as (c & s3 & Hc & H).
  apply log_content_inv in Hc as (a & i & -> & Ha & Hi & ->); [|done|done].
  apply bind_inv_Ok in H as (logp & s3 & Hl & H).
  apply of_option_inv in Hl as [Hl ->].
  apply bind_inv_Ok in H as ([] & s3 & Ho & H).
  apply bind_inv_Ok in H as (line & s4 & Hline & H).
  apply of_option_inv in Hline as [[= <-] ->].
  apply write_append_inv in H as (old & Hold & ->).
  split; [done|]. split; [done|]. split; [done|].
  apply argmax_inv in Hi as [_ Hi].
  apply open_append_inv in Ho as [[Hnone ->]|(old' & Hsome & ->)];
    simpl in *.
  - rewrite lookup_insert_eq in Hold. injection Hold as <-.
    exists logp, "", a, i. repeat split; auto.
    by rewrite insert_insert_eq.
  - rewrite Hsome in Hold. injection Hold as <-.
    exists logp, old', a, i. repeat split; auto.
Qed.
(** ** The best epoch in the log *)

Lemma skip_blanks_spaces (k : nat) (t : string) :
  skip_blanks (spaces k +:+ t) = skip_blanks t.
Proof. induction k as [|k IH]; [reflexivity|exact IH]. Qed.

Lemma skip_blanks_format_d (n : nat) : skip_blanks (format_d n) = format_d n.
Proof.
  unfold format_d. pose proof (to_uint_nonnil n) as H.
  by destruct (Nat.to_uint n).
Qed.

(** The field ["{: 4d}"] determines the number it shows. *)
Lemma format_4d_inj (n m : nat) : format_4d n = format_4d m -> n = m.
Proof.
  intros H. apply (f_equal skip_blanks) in H. unfold format_4d in H.
  rewrite !skip_blanks_spaces in H. simpl in H.
  rewrite !skip_blanks_format_d in H. by apply format_d_inj.
Qed.

(** C6. For a non-empty sequence of epoch accuracies, the best-epoch field
    of the log line is the 1-based index [i + 1] of a record whose accuracy
    no record exceeds, and every record before it is strictly smaller: it is
    the first position of the maximum.  The text of the line ends with
    [" - best "], this index in a field that determines it, and a line
    break; and this line is what a completed [plot_result] has appended to
    the log. *)
Theorem best_epoch_index self epoch (accs : list Q) s :
  accs <> [] ->
  type self = "servo" \/ type self = "motor" ->
  1 <= epoch <= length accs ->
  exists i a m,
    log_content self epoch accs s
    = (Ok (Some (log_line (signal_name self) epoch a (i + 1))), s) /\
    accs !! (epoch - 1) = Some a /\
    argmax accs s = (Ok i, s) /\
    accs !! i = Some m /\
    (forall j x, accs !! j = Some x -> (x <= m)%Q) /\
    (forall j x, j < i -> accs !! j = Some x -> (x < m)%Q) /\
    log_line (signal_name self) epoch a (i + 1)
    = format_4d epoch +:+ "," +:+ format_2f a +:+ ","
      +:+ "                " +:+ signal_name self +:+ ": epoch "
      +:+ format_4d epoch +:+ " - accuracy: " +:+ format_2f a
      +:+ " - best " +:+ format_4d (i + 1) +:+ String "010"%char "" /\
    (forall n, format_4d n = format_4d (i + 1) -> n = i + 1) /\
    (forall tl s',
       plot_result self epoch tl accs s = (Ok tt, s') ->
       exists logp old,
         log self = Some logp /\
         fs s' !! logp
         = Some (TextFile
                   (old +:+ log_line (signal_name self) epoch a (i + 1)))).
Proof.
  intros Hne Hty He.
  destruct (argmax_spec accs s Hne) as (i & m & Hi & Hm & Hle & Hlt).
  destruct (lookup_lt_is_Some_2 accs (epoch - 1)) as [a Ha]; [lia|].
  exists i, a, m.
  split; [apply log_content_ok; auto; lia|].
  split; [exact Ha|]. split; [exact Hi|]. split; [exact Hm|].
  split; [exact Hle|]. split; [exact Hlt|].
  split; [reflexivity|]. split; [intros n; apply format_4d_inj|].
  intros tl s' Hplot.
  apply plot_result_inv in Hplot
    as (_ & _ & _ & logp & old & a' & i' & Hlog & Ha' & Hi' & _ & ->).
  rewrite Ha in Ha'. injection Ha' as <-.
  rewrite Hi in Hi'. injection Hi' as <-.
  exists logp, old. split; [exact Hlog|]. simpl. apply lookup_insert_eq.
Qed.

Section LogLines.
(** Python prints a float on one line. *)
Hypothesis format_2f_one_line : forall x, newlines (format_2f x) = 0.

Lemma newlines_log_line self epoch a best :
  newlines (log_line (signal_name self) epoch a best) = 1.
Proof.
  unfold log_line. rewrite !newlines_app, !newlines_format_4d.
  rewrite !format_2f_one_line. unfold signal_name.
  by destruct (String.eqb (type self) "servo").
Qed.

Lemma test_quiet_inv self devset s acc s' :
  test self devset false s = (Ok acc, s') -> s' = s.
Proof. intros H. pose proof (test_quiet self devset s) as E. by rewrite H in E. Qed.

(** A completed epoch: after its batches, one accuracy and one loss are
    recorded, the checkpoint and the two curves are written, and one line
    is appended to the log. *)
Lemma train_epoch_inv self dl devset epoch s s' :
  train_epoch self dl devset epoch s = (Ok tt, s') ->
  exists s1 acc mdl logp old i f1 f2,
    batch_loop self dl epoch s = (Ok tt, s1) /\
    test self devset false s1 = (Ok acc, s1) /\
    (type self = "servo" \/ type self = "motor") /\
    model s1 = Some mdl /\ model s' = Some mdl /\
    log self = Some logp /\
    total_loss (locals s')
    = total_loss (locals s) ++ [epoch_loss (locals s1)] /\
    dev_accuracy (locals s') = dev_accuracy (locals s) ++ [acc] /\
    length (total_loss (locals s')) = epoch /\
    length (dev_accuracy (locals s')) = epoch /\
    (forall s0, argmax (dev_accuracy (locals s')) s0 = (Ok i, s0)) /\
    (let fs3 :=
       <[accuracy_curve self := f2]>
         (<[loss_curve self := f1]>
            (<[checkpoint_path epoch := ModelFile mdl]> (fs s))) in
     (fs3 !! logp = Some (TextFile old) \/ fs3 !! logp = None /\ old = "") /\
     fs s'
     = <[logp := TextFile
                   (old +:+ log_line (signal_name self) epoch acc (i + 1))]>
         fs3).
Proof.
  intros H. unfold train_epoch in H.
  apply bind_inv_Ok in H as ([] & s1 & Hb & H).
  apply bind_inv_Ok in H as (acc & s2 & Ht & H).
  pose proof (test_quiet_inv _ _ _ _ _ Ht) as ->.
  apply bind_inv_Ok in H as ([] & s2 & [= <-] & H).
  apply bind_inv_Ok in H as ([] & s2 & [= <-] & H).
  apply bind_inv_Ok in H as ([] & s2 & [= <-] & H).
  apply bind_inv_Ok in H as ([] & s2 & Hs & H).
  apply bind_inv_Ok in H as (l & s3 & [= <- <-] & H).
  apply plot_result_inv in H
    as (Hty & Htl & Hda & logp & old & a & i & Hlog & Ha & Hi & Hfs & ->).
  apply save_model_inv in Hs as (mdl & msg & Hm & ->); [|exact Hty].
  simpl in *.
  pose proof (batch_loop_keeps _ _ _ _ _ _ Hb) as (Hf & Htl1 & Hda1 & _).
  rewrite Htl1 in Htl. rewrite Hda1 in Hda, Ha, Hi.
  rewrite Hf, Htl1, Hda1 in Hfs.
  assert (a = acc) as ->.
  { rewrite lookup_app_r in Ha by (rewrite length_app in Hda; simpl in Hda; lia).
    rewrite length_app in Hda. simpl in Hda.
    replace (epoch - 1 - length (dev_accuracy (locals s))) with 0 in Ha by lia.
    by injection Ha. }
  apply argmax_inv in Hi as [_ Hi].
  exists s1, acc, mdl, logp, old, i. eexists _, _.
  rewrite Htl1, Hda1, Hf.
  repeat split; done.
Qed.
(** ** A training session *)

Lemma set_output_run s :
  exists s',
    set_output s = (Ok log_path, s') /\
    fs s' !! log_path = Some (TextFile "") /\
    model s' = model s /\ rng s' = rng s.
Proof.
  unfold set_output, mkdir_if_missing, path_exists.
  cbv [bind get ret write_file modify].
  repeat case_match; simplify_eq; simpl;
    eexists; (split; [reflexivity|]); simpl;
    by rewrite lookup_insert_eq.
Qed.

Lemma set_neural_net_inv type_ shape_ s r s' :
  set_neural_net type_ shape_ s = (r, s') -> r = Ok tt /\ fs s' = fs s.
Proof.
  unfold set_neural_net. cbv [bind modify ret]. simpl.
  repeat case_match; intros [= <- <-]; simpl; auto.
Qed.

(** A constructed engine that has an epoch count is in train mode: its log
    is the file [output/result.csv], which the constructor left empty. *)
Lemma NNTools_init_train settings types s0 self s1 E :
  NNTools_init settings types s0 = (Ok self, s1) ->
  epochs self = Some E ->
  log self = Some log_path /\ fs s1 !! log_path = Some (TextFile "").
Proof.
  intros H HE. unfold NNTools_init in H.
  apply bind_inv_Ok in H as ([] & s & _ & H).
  apply bind_inv_Ok in H as (type_ & s' & Ht & H).
  apply of_option_inv in Ht as [_ ->].
  apply bind_inv_Ok in H as (j & s' & _ & H). clear s. rename s' into s.
  apply bind_inv_Ok in H as (by_mode & s' & Hx & H).
  apply of_option_inv in Hx as [_ ->].
  apply bind_inv_Ok in H as (mode & s' & Hx & H).
  apply of_option_inv in Hx as [_ ->].
  apply bind_inv_Ok in H as (c & s' & Hx & H).
  apply of_option_inv in Hx as [_ ->].
  apply bind_inv_Ok in H as (shape_ & s' & Hx & H).
  apply of_option_inv in Hx as [_ ->].
  apply bind_inv_Ok in H as (batch_ & s' & Hx & H).
  apply of_option_inv in Hx as [_ ->].
  apply bind_inv_Ok in H as (cuda_ & s' & Hx & H).
  apply of_option_inv in Hx as [_ ->].
  apply bind_inv_Ok in H as ([epochs_ model_file_] & s' & Hmode & H).
  apply bind_inv_Ok in H as ([] & s2 & Hnet & H).
  apply bind_inv_Ok in H as (log_ & s3 & Hlog & H).
  injection H as <- <-. simpl in HE. subst epochs_.
  destruct (String.eqb mode "train").
  - apply bind_inv_Ok in Hlog as (l & s4 & Hout & [= <- <-]).
    destruct (set_output_run s2) as (s5 & Hrun & Hfs & _).
    rewrite Hrun in Hout. injection Hout as <- <-. simpl. auto.
  - destruct (String.eqb mode "test").
    + apply bind_inv_Ok in Hmode as (m & s4 & _ & [=]).
    + discriminate Hmode.
Qed.

Lemma train_setup_inv self trainset s dl n s' :
  train_setup self trainset s = (Ok (dl, n), s') ->
  epochs self = Some n /\ fs s' = fs s /\
  total_loss (locals s') = [] /\ dev_accuracy (locals s') = [].
Proof.
  intros H. unfold train_setup in H.
  apply bind_inv_Ok in H as (names & s1 & Hr & H).
  assert (s1 = s) as ->.
  { unfold read_csv, bind, get in Hr.
    destruct (fs s !! trainset) as [[]|]; try discriminate.
    by injection Hr as _ <-. }
  apply bind_inv_Ok in H as (mdl & s1 & Hm & H).
  assert (s1 = s) as ->.
  { unfold self_model, bind, get in Hm. simpl in Hm.
    by apply of_option_inv in Hm as [_ ->]. }
  apply bind_inv_Ok in H as ([] & s1 & [= <-] & H).
  apply bind_inv_Ok in H as (dl' & s1 & Hdl & H).
  unfold DataLoader in Hdl. simpl andb in Hdl.
  destruct (length names =? 0); [discriminate|].
  destruct (batch_size self); [discriminate|].
  injection Hdl as <- <-.
  apply bind_inv_Ok in H as ([] & s1 & [= <-] & H).
  apply bind_inv_Ok in H as ([] & s1 & [= <-] & H).
  apply bind_inv_Ok in H as ([] & s1 & [= <-] & H).
  apply bind_inv_Ok in H as ([] & s1 & [= <-] & H).
  apply bind_inv_Ok in H as (n' & s1 & Hn & H).
  apply of_option_inv in Hn as [Hn ->].
  injection H as <- <- <-. simpl. auto.
Qed.

Lemma session_inv_step self dl devset s1 j s s' :
  log self = Some log_path ->
  session_inv self s1 j s ->
  train_epoch self dl devset (S j) s = (Ok tt, s') ->
  session_inv self s1 (S j) s'.
Proof.
  intros Hlog (Htl & Hda & (txt & Htxt & Hnl) & Hck & Hun) H.
  apply train_epoch_inv in H
    as (s2 & acc & mdl & logp & old & i & f1 & f2 & _ & _ & Hty & _ & _
        & Hlogp & Htl' & Hda' & _ & _ & _ & Hold & Hfs).
  rewrite Hlog in Hlogp. injection Hlogp as <-.
  destruct (checkpoint_path_other self (S j)) as (C1 & C2 & C3).
  destruct (log_path_other self) as (L1 & L2 & L3).
  assert (old = txt) as ->.
  { rewrite !lookup_insert_ne in Hold by done. rewrite Htxt in Hold.
    destruct Hold as [[= ->]|[[=] _]]. reflexivity. }
  split; [rewrite Htl', length_app; simpl; lia|].
  split; [rewrite Hda', length_app; simpl; lia|].
  split; [|split].
  - eexists. rewrite Hfs, lookup_insert_eq. split; [reflexivity|].
    rewrite newlines_app, newlines_log_line. lia.
  - intros n Hn. rewrite Hfs.
    destruct (checkpoint_path_other self n) as (D1 & D2 & D3).
    rewrite !lookup_insert_ne by done.
    destruct (decide (n = S j)) as [->|Hne].
    + rewrite lookup_insert_eq. eauto.
    + rewrite lookup_insert_ne
        by (intros E; apply checkpoint_path_inj in E; lia).
      apply Hck. lia.
  - intros path Hp P1 P2 P3. rewrite Hfs.
    rewrite !lookup_insert_ne by done.
    rewrite lookup_insert_ne by (apply not_eq_sym, Hp; lia).
    apply Hun; auto. intros n Hn. apply Hp. lia.
Qed.

Lemma session_inv_loop self dl devset s1 k :
  log self = Some log_path ->
  forall j s s',
    session_inv self s1 j s ->
    for_each (train_epoch self dl devset) (seq (S j) k) s = (Ok tt, s') ->
    session_inv self s1 (j + k) s'.
Proof.
  intros Hlog. induction k as [|k IH]; intros j s s' Hinv H; simpl in H.
  - injection H as <-. by rewrite Nat.add_0_r.
  - apply bind_inv_Ok in H as ([] & s2 & He & H).
    replace (j + S k) with (S j + k) by lia.
    eapply IH; [|exact H]. by eapply session_inv_step.
Qed.

Lemma NoDup_checkpoint_paths a n : NoDup (map checkpoint_path (seq a n)).
Proof.
  apply NoDup_fmap_2; [|apply NoDup_seq].
  intros x y. apply checkpoint_path_inj.
Qed.

(** C2. In a session (the constructor, then [train]) that runs to
    completion with epoch count [E]: [E] losses and [E] accuracies have been
    recorded; each of the [E] checkpoint paths, which are pairwise distinct,
    holds a saved model, and apart from them, the two curves and the log no
    file has changed; the log, which the constructor left empty, holds [E]
    lines, every completed epoch having appended exactly one line to it. *)
Theorem train_session_outputs settings types trainset devset s0 self s1 E s2 :
  NNTools_init settings types s0 = (Ok self, s1) ->
  epochs self = Some E ->
  1 <= E ->
  train self trainset devset s1 = (Ok tt, s2) ->
  (length (total_loss (locals s2)) = E /\
   length (dev_accuracy (locals s2)) = E) /\
  ((forall n, 1 <= n <= E ->
              exists p, fs s2 !! checkpoint_path n = Some (ModelFile p)) /\
   NoDup (map checkpoint_path (seq 1 E)) /\
   length (map checkpoint_path (seq 1 E)) = E /\
   (forall path,
      path ∉ map checkpoint_path (seq 1 E) ->
      path <> log_path -> path <> loss_curve self ->
      path <> accuracy_curve self ->
      fs s2 !! path = fs s1 !! path)) /\
  (log self = Some log_path /\
   fs s1 !! log_path = Some (TextFile "") /\
   (exists txt, fs s2 !! log_path = Some (TextFile txt) /\ newlines txt = E) /\
   (forall dl e s s' old,
      train_epoch self dl devset e s = (Ok tt, s') ->
      fs s !! log_path = Some (TextFile old) ->
      exists line,
        newlines line = 1 /\
        fs s' !! log_path = Some (TextFile (old +:+ line)))).
Proof.
  intros Hinit HE _ Htrain.
  destruct (NNTools_init_train _ _ _ _ _ _ Hinit HE) as [Hlog Hempty].
  unfold train in Htrain.
  apply bind_inv_Ok in Htrain as ([dl n] & s1' & Hsetup & Htrain).
  apply train_setup_inv in Hsetup as (Hn & Hfs & Htl & Hda).
  rewrite HE in Hn. injection Hn as <-.
  apply bind_inv_Ok in Htrain as ([] & s3 & Hloop & Hmsg).
  assert (Hfs2 : fs s2 = fs s3 /\ locals s2 = locals s3).
  { cbv [bind print modify ret] in Hmsg.
    repeat case_match; simplify_eq; by simpl. }
  destruct Hfs2 as [-> ->].
  assert (Hinv : session_inv self s1 0 s1').
  { split; [by rewrite Htl|]. split; [by rewrite Hda|].
    split; [exists ""; by rewrite Hfs|].
    split; [intros n Hn; lia|]. intros path _ _ _ _. by rewrite Hfs. }
  apply (session_inv_loop self dl devset s1 E Hlog 0 _ _ Hinv) in Hloop.
  destruct Hloop as (L1 & L2 & L3 & L4 & L5). simpl in *.
  split; [done|]. split; [|split; [done|split; [done|split; [done|]]]].
  - split; [done|]. split; [apply NoDup_checkpoint_paths|].
    split; [by rewrite length_map, length_seq|].
    intros path Hp P1 P2 P3. apply L5; auto.
    intros n Hn ->. apply Hp. apply list_elem_of_fmap. exists n.
    split; [done|]. apply elem_of_seq. lia.
  - intros dl' e s s' old He Hold.
    apply train_epoch_inv in He
      as (s4 & acc & mdl & logp & old' & i & f1 & f2 & _ & _ & _ & _ & _
          & Hlogp & _ & _ & _ & _ & _ & Hold' & Hfs').
    rewrite Hlog in Hlogp. injection Hlogp as <-.
    destruct (checkpoint_path_other self e) as (C1 & C2 & C3).
    destruct (log_path_other self) as (M1 & M2 & M3).
    rewrite !lookup_insert_ne in Hold' by done. rewrite Hold in Hold'.
    destruct Hold' as [[= <-]|[[=] _]].
    eexists. split; [apply newlines_log_line|].
    by rewrite Hfs', lookup_insert_eq.
Qed.
End LogLines.

(** ** Construction *)

Lemma lockstep_bind {A B} R R' R'' (m : M A) (k : A -> M B) :
  lockstep R R' m -> (forall a, lockstep R' R'' (k a)) ->
  lockstep R R'' (bind m k).
Proof.
  intros Hm Hk s1 s2 HR. destruct (Hm s1 s2 HR) as [Hr Hs]. unfold bind.
  destruct (m s1) as [[a|e] s1'], (m s2) as [[a'|e'] s2'];
    simpl in *; try discriminate.
  - injection Hr as <-. apply Hk. by apply (Hs a).
  - injection Hr as <-. split; [reflexivity|]. discriminate.
Qed.

Lemma lockstep_ret {A} R (a : A) : lockstep R R (ret a).
Proof. intros s1 s2 HR. split; [reflexivity|]. by intros _ _. Qed.

Lemma lockstep_raise {A} R R' e : lockstep R R' (raise e : M A).
Proof. intros s1 s2 HR. split; [reflexivity|]. discriminate. Qed.

Lemma lockstep_of_option {A} R e (o : option A) :
  lockstep R R (of_option e o).
Proof. destruct o; [apply lockstep_ret|apply lockstep_raise]. Qed.

Lemma lockstep_json_load settings :
  lockstep same_object same_object (json_load settings).
Proof.
  intros s1 s2 [Hf Hm]. unfold json_load, bind, get. rewrite Hf.
  destruct (fs s2 !! settings) as [[]|]; simpl; split; try done;
    by intros _ _.
Qed.

Lemma lockstep_set_neural_net type_ shape_ :
  lockstep same_object same_start (set_neural_net type_ shape_).
Proof.
  intros s1 s2 [Hf Hm]. unfold set_neural_net. cbv [bind modify ret].
  simpl. repeat case_match; simpl in *; simplify_eq; split; try done;
    intros _ _; repeat split; simpl; congruence.
Qed.

Lemma set_fs_id (s : state) : set_fs (fs s) s = s.
Proof. by destruct s. Qed.

Lemma mkdir_if_missing_run path s :
  mkdir_if_missing path s = (Ok tt, set_fs (with_directory (fs s) path) s).
Proof.
  unfold mkdir_if_missing, path_exists, with_directory.
  cbv [bind get ret write_file modify].
  destruct (bool_decide (is_Some (fs s !! path))); [|reflexivity].
  by rewrite set_fs_id.
Qed.

(** [set_output] returns the path of the log and touches the files only. *)
Lemma set_output_files s :
  set_output s = (Ok log_path, set_fs (output_files (fs s)) s).
Proof.
  unfold set_output, output_files.
  erewrite bind_Ok by apply mkdir_if_missing_run.
  erewrite bind_Ok by apply mkdir_if_missing_run.
  erewrite bind_Ok by apply mkdir_if_missing_run.
  unfold path_exists. cbv [bind get ret write_file modify]. simpl.
  fold log_path.
  by destruct (bool_decide (is_Some (_ !! log_path))).
Qed.

Lemma lockstep_set_output : lockstep same_start same_start set_output.
Proof.
  intros s1 s2 (Hf & Hm & Hg). rewrite !set_output_files. simpl.
  split; [reflexivity|]. intros _ _. repeat split; simpl; congruence.
Qed.

Lemma lockstep_load_model mfile :
  lockstep same_start same_start (load_model mfile).
Proof.
  intros s1 s2 (Hf & Hm & Hg). unfold load_model.
  cbv [bind get self_model of_option ret raise modify]. rewrite Hm.
  destruct (model s2) as [p|]; simpl; [|split; [done|discriminate]].
  rewrite Hf.
  destruct (fs s2 !! mfile) as [[]|]; simpl; try (split; [done|discriminate]).
  destruct (load_state_dict p p0); simpl; split; done.
Qed.

Lemma lockstep_NNTools_init settings types :
  lockstep same_files same_start (NNTools_init settings types).
Proof.
  unfold NNTools_init.
  apply lockstep_bind with same_object.
  { intros s1 s2 H. split; [reflexivity|]. intros _ _. by split. }
  intros _. apply lockstep_bind with same_object;
    [apply lockstep_of_option|]. intros type_.
  apply lockstep_bind with same_object; [apply lockstep_json_load|].
  intros j. apply lockstep_bind with same_object;
    [apply lockstep_of_option|]. intros by_mode.
  apply lockstep_bind with same_object; [apply lockstep_of_option|].
  intros mode. apply lockstep_bind with same_object;
    [apply lockstep_of_option|]. intros c.
  apply lockstep_bind with same_object; [apply lockstep_of_option|].
  intros shape_. apply lockstep_bind with same_object;
    [apply lockstep_of_option|]. intros batch_.
  apply lockstep_bind with same_object; [apply lockstep_of_option|].
  intros cuda_. apply lockstep_bind with same_object.
  { destruct (String.eqb mode "train").
    - apply lockstep_bind with same_object; [apply lockstep_of_option|].
      intros e. apply lockstep_ret.
    - destruct (String.eqb mode "test"); [|apply lockstep_ret].
      apply lockstep_bind with same_object; [apply lockstep_of_option|].
      intros m. apply lockstep_ret. }
  intros [epochs_ model_file_].
  apply lockstep_bind with same_start; [apply lockstep_set_neural_net|].
  intros _. apply lockstep_bind with same_start; [|intros l; apply lockstep_ret].
  destruct (String.eqb mode "train").
  - apply lockstep_bind with same_start; [apply lockstep_set_output|].
    intros l. apply lockstep_ret.
  - apply lockstep_bind with same_start; [apply lockstep_of_option|].
    intros mf. apply lockstep_bind with same_start;
      [apply lockstep_load_model|]. intros _. apply lockstep_ret.
Qed.

Lemma json_load_inv settings s j s' :
  json_load settings s = (Ok j, s') -> s' = s.
Proof.
  unfold json_load, bind, get.
  destruct (fs s !! settings) as [[]|]; try discriminate.
  by intros [= _ <-].
Qed.

Lemma set_neural_net_model type_ shape_ s s' :
  set_neural_net type_ shape_ s = (Ok tt, s') ->
  model s = None -> model s' = initial_model type_ shape_.
Proof.
  unfold set_neural_net, initial_model. cbv [bind modify ret]. simpl.
  intros H Hm.
  destruct (String.eqb type_ "servo").
  { injection H as <-. cbn.
    by destruct (ServoNet shape_ (manual_seed SEED)). }
  destruct (String.eqb type_ "motor").
  { injection H as <-. cbn.
    by destruct (MotorNet shape_ (manual_seed SEED)). }
  by injection H as <-.
Qed.

(** An engine constructed for training carries the parameters drawn right
    after the generator was seeded with [SEED]. *)
Lemma NNTools_init_train_model settings types s0 self s1 E :
  NNTools_init settings types s0 = (Ok self, s1) ->
  epochs self = Some E ->
  model s1 = initial_model (type self) (shape self).
Proof.
  intros H HE. unfold NNTools_init in H.
  apply bind_inv_Ok in H as ([] & s & [= <-] & H).
  apply bind_inv_Ok in H as (type_ & s' & Ht & H).
  apply of_option_inv in Ht as [_ ->].
  apply bind_inv_Ok in H as (j & s' & Hj & H).
  apply json_load_inv in Hj as ->.
  apply bind_inv_Ok in H as (by_mode & s' & Hx & H).
  apply of_option_inv in Hx as [_ ->].
  apply bind_inv_Ok in H as (mode & s' & Hx & H).
  apply of_option_inv in Hx as [_ ->].
  apply bind_inv_Ok in H as (c & s' & Hx & H).
  apply of_option_inv in Hx as [_ ->].
  apply bind_inv_Ok in H as (shape_ & s' & Hx & H).
  apply of_option_inv in Hx as [_ ->].
  apply bind_inv_Ok in H as (batch_ & s' & Hx & H).
  apply of_option_inv in Hx as [_ ->].
  apply bind_inv_Ok in H as (cuda_ & s' & Hx & H).
  apply of_option_inv in Hx as [_ ->].
  apply bind_inv_Ok in H as ([epochs_ model_file_] & s' & Hmode & H).
  apply bind_inv_Ok in H as ([] & s2 & Hnet & H).
  apply bind_inv_Ok in H as (log_ & s3 & Hlog & H).
  injection H as <- <-. simpl in *. subst epochs_.
  destruct (String.eqb mode "train").
  - apply bind_inv_Ok in Hmode as (e & s4 & He & [= <- <-]).
    apply of_option_inv in He as [_ ->].
    apply set_neural_net_model in Hnet; [|by subst].
    apply bind_inv_Ok in Hlog as (l & s4 & Hout & [= <- <-]).
    destruct (set_output_run s2) as (s5 & Hrun & _ & Hm & _).
    rewrite Hrun in Hout. injection Hout as <- <-. congruence.
  - destruct (String.eqb mode "test").
    + apply bind_inv_Ok in Hmode as (m & s4 & _ & [=]).
    + discriminate Hmode.
Qed.

(** C10. The constructor seeds the generator with the constant [SEED]
    before it builds the network: whatever the generator, the console and
    the memory held before, two constructions from the same files (the same
    settings, and in test mode the same checkpoint) and the same [types]
    have the same outcome and, when they succeed, leave identical model
    parameters (and generator states).  For training they are the
    parameters drawn from the generator seeded with [SEED]. *)
Theorem init_deterministic settings types s1 s2 :
  fs s1 = fs s2 ->
  fst (NNTools_init settings types s1) = fst (NNTools_init settings types s2)
  /\
  (forall self,
     fst (NNTools_init settings types s1) = Ok self ->
     model (snd (NNTools_init settings types s1))
     = model (snd (NNTools_init settings types s2)) /\
     rng (snd (NNTools_init settings types s1))
     = rng (snd (NNTools_init settings types s2)) /\
     (forall E, epochs self = Some E ->
        model (snd (NNTools_init settings types s1))
        = initial_model (type self) (shape self))).
Proof.
  intros Hfs.
  destruct (lockstep_NNTools_init settings types s1 s2 Hfs) as [Hr Hs].
  split; [exact Hr|]. intros self Hself.
  destruct (Hs self Hself) as (_ & Hm & Hg).
  split; [exact Hm|]. split; [exact Hg|].
  intros E HE. clear Hr Hs Hm Hg.
  destruct (NNTools_init settings types s1) as [r s1'] eqn:Hinit.
  simpl in *. rewrite Hself in Hinit.
  by eapply NNTools_init_train_model.
Qed.

(** ** Prediction *)

Lemma predict_run get_image to_int self iname s :
  predict get_image to_int self iname s
  = (match model s with
     | None => Raise AttributeError
     | Some mdl =>
         match forward mdl (get_image (shape self) iname) with
         | None => Raise RuntimeError
         | Some o => Ok (to_int (round o))
         end
     end, s).
Proof.
  unfold predict. cbv [bind self_model get of_option ret raise].
  destruct (model s) as [mdl|]; [|reflexivity].
  by destruct (forward mdl (get_image (shape self) iname)).
Qed.

(** X1. [predict] reads the model and changes nothing; without a model it
    raises [AttributeError]; the integer it returns is the 32-bit conversion
    of the rounded output of the model on the image.  When the rounded
    output fits 32 bits, it is that integer, at most one half away from the
    raw output; for an output that does not fit, nothing more is claimed. *)
Theorem predict_nearest get_image to_int self iname s :
  int_conversion to_int ->
  snd (predict get_image to_int self iname s) = s /\
  (model s = None ->
   fst (predict get_image to_int self iname s) = Raise AttributeError) /\
  (forall z,
     fst (predict get_image to_int self iname s) = Ok z ->
     exists mdl o,
       model s = Some mdl /\
       forward mdl (get_image (shape self) iname) = Some o /\
       z = to_int (round o) /\
       (fits_int32 (round o) ->
        z = round o /\ (Qabs (o - inject_Z z) <= 1 # 2)%Q)).
Proof.
  intros Hint. rewrite predict_run. cbn [fst snd].
  split; [reflexivity|]. split.
  - by intros ->.
  - intros z. destruct (model s) as [mdl|]; [|discriminate].
    destruct (forward mdl (get_image (shape self) iname)) as [o|] eqn:Ho;
      [|discriminate].
    intros [= <-]. exists mdl, o.
    split; [reflexivity|]. split; [exact Ho|]. split; [reflexivity|].
    intros Hfit. rewrite (Hint _ Hfit).
    split; [reflexivity|apply round_nearest].
Qed.

Lemma predicted_within_one_correct get_image to_int self mdl s name :
  int_conversion to_int ->
  model s = Some mdl ->
  get_image (shape self) name = fst (fst (get_item (shape self) name)) ->
  (forall o, prediction self mdl name = Some o -> fits_int32 (round o)) ->
  predicted_within_one get_image to_int self s name = correct self mdl name.
Proof.
  intros Hint Hm Hi Hfit. unfold predicted_within_one, correct.
  unfold prediction in *.
  rewrite predict_run, Hm, Hi. simpl.
  destruct (forward mdl (get_item (shape self) name).1.1) as [o|];
    [|reflexivity].
  simpl. by rewrite Hint by by apply Hfit.
Qed.

Lemma filter_length_ext {A} (f g : A -> bool) (l : list A) :
  (forall x, x ∈ l -> f x = g x) ->
  length (filter (fun x => f x) l) = length (filter (fun x => g x) l).
Proof.
  induction l as [|x l IH]; intros H; [reflexivity|].
  rewrite !filter_cons. rewrite <- (H x) by by left.
  destruct (f x); simpl; rewrite IH; auto; intros y Hy; apply H; by right.
Qed.

(** X2. The accuracy that [test] returns is the percentage of examples of
    the manifest on which [predict] answers within one unit of the label,
    when [get_image] decodes an entry to the image the data loader feeds and
    the rounded output of the model fits 32 bits on every entry. *)
Theorem test_counts_predictions get_image to_int self testset display s
    names mdl :
  int_conversion to_int ->
  fs s !! testset = Some (CsvFile names) ->
  names <> [] ->
  model s = Some mdl ->
  type self = "servo" \/ type self = "motor" ->
  1 <= batch_size self ->
  (forall name, name ∈ names -> is_Some (prediction self mdl name)) ->
  (forall name o, name ∈ names -> prediction self mdl name = Some o ->
                  fits_int32 (round o)) ->
  (forall name, name ∈ names ->
     get_image (shape self) name = fst (fst (get_item (shape self) name))) ->
  exists q,
    fst (test self testset display s) = Ok q /\
    (q == 100
          * inject_Z (Z.of_nat
              (length (filter
                 (fun name =>
                    predicted_within_one get_image to_int self s name)
                 names)))
          / inject_Z (Z.of_nat (length names)))%Q.
Proof.
  intros Hint Hfs Hne Hm Hty Hbs Hp Hfit Himg.
  destruct (test_returns self testset display s names mdl)
    as (q & evs & Ht & Hq); auto.
  exists q. split; [by rewrite Ht|]. rewrite Hq. unfold correct_count.
  rewrite (filter_length_ext
             (fun name => predicted_within_one get_image to_int self s name)
             (fun name => correct self mdl name)); [reflexivity|].
  intros name Hn. apply predicted_within_one_correct; auto.
  intros o Ho. by eapply Hfit.
Qed.

(** ** Evaluation with display *)

Lemma test_loop_state_blind self mdl display batches total count s o :
  fst (test_loop self mdl display batches total count (set_stdout o s))
  = fst (test_loop self mdl display batches total count s).
Proof.
  destruct (prints_run (fun _ => True)
              (test_loop self mdl display batches total count) s)
    as (r & evs & _ & Hs & Ho); [by apply prints_test_loop|].
  by rewrite Ho, Hs.
Qed.

Lemma bind_fst_congr {A B} (m : M A) (k1 k2 : A -> M B) s :
  (forall a s1, m s = (Ok a, s1) -> fst (k1 a s1) = fst (k2 a s1)) ->
  fst (bind m k1 s) = fst (bind m k2 s).
Proof. intros H. unfold bind. destruct (m s) as [[a|e] s1]; auto. Qed.

Lemma set_io_state self img servo motor s r s' :
  set_io self img servo motor s = (r, s') -> s' = s.
Proof. unfold set_io. repeat case_match; by intros [= _ <-]. Qed.

Lemma read_csv_state path s r s' : read_csv path s = (r, s') -> s' = s.
Proof.
  unfold read_csv, bind, get.
  destruct (fs s !! path) as [[]|]; by intros [= _ <-].
Qed.

Lemma self_model_state s r s' : self_model s = (r, s') -> s' = s.
Proof.
  unfold self_model, bind, get, of_option. case_match; by intros [= _ <-].
Qed.

Lemma test_loop_display self mdl batches total count s :
  1 <= batch_size self ->
  fst (test_loop self mdl true batches total count s)
  = fst (test_loop self mdl false batches total count s).
Proof.
  intros Hbs. revert total count s.
  induction batches as [|b batches IH]; intros total count s; [reflexivity|].
  simpl test_loop.
  destruct (collate (shape self) b) as [[img servo] motor].
  apply bind_fst_congr. intros [input target] s1 Hio.
  apply set_io_state in Hio as ->.
  apply bind_fst_congr. intros out s1 Hf.
  apply forward_batch_inv in Hf as ->.
  set (total' := (total + _)%Q). set (count' := count + batch_size self).
  simpl andb. rewrite bind_ret.
  destruct (count' mod 100 =? 0); [|by rewrite bind_ret].
  destruct count' as [|c] eqn:Hc; [unfold count' in Hc; lia|].
  cbv [bind py_div ret print modify].
  rewrite test_loop_state_blind. apply IH.
Qed.

(** X3. The flag [display] has no influence on what [test] returns: the
    same accuracy, or the same exception. *)
Theorem display_does_not_change_result self testset s :
  fst (test self testset true s) = fst (test self testset false s).
Proof.
  unfold test.
  apply bind_fst_congr. intros names s1 Hr. apply read_csv_state in Hr as ->.
  apply bind_fst_congr. intros mdl s1 Hm. apply self_model_state in Hm as ->.
  unfold DataLoader. simpl andb. cbv iota.
  destruct (batch_size self) as [|n] eqn:Hn; [reflexivity|].
  rewrite !bind_ret. unfold iter. simpl dl_shuffle. cbv iota.
  rewrite !bind_ret. simpl dl_batch_size. simpl dl_names. rewrite <- Hn.
  pose proof (test_loop_display self mdl
                (batch_sampler (batch_size self) names []) 0%Q 0 s) as Hl.
  unfold bind at 1 4.
  destruct (test_loop self mdl true _ 0%Q 0 s) as [[[t c]|e] s1];
    destruct (test_loop self mdl false _ 0%Q 0 s) as [[[t' c']|e'] s2];
    simpl in Hl; specialize (Hl ltac:(lia)); try discriminate Hl.
  - injection Hl as <- <-. rewrite bind_ret.
    destruct (length names) as [|k]; reflexivity.
  - by injection Hl as <-.
Qed.



(** ** Checkpoints *)


(** ** Construction and the files *)

Lemma of_option_state {A} e (o : option A) s r s' :
  of_option e o s = (r, s') -> s' = s.
Proof. destruct o; by intros [= _ <-]. Qed.

Lemma json_load_state settings s r s' :
  json_load settings s = (r, s') -> s' = s.
Proof.
  unfold json_load, bind, get.
  destruct (fs s !! settings) as [[]|]; by intros [= _ <-].
Qed.

Lemma load_model_fs mfile s r s' :
  load_model mfile s = (r, s') -> fs s' = fs s.
Proof.
  unfold load_model. cbv [bind self_model get of_option ret raise modify].
  destruct (model s) as [p|]; [|by intros [= _ <-]].
  destruct (fs s !! mfile) as [[]|]; try (by intros [= _ <-]).
  destruct (load_state_dict p p0); by intros [= _ <-].
Qed.

(** Files are kept through a step and through what follows it. *)
Lemma bind_keeps_fs {A B} (m : M A) (k : A -> M B) s r s' :
  bind m k s = (r, s') ->
  (forall r1 s1, m s = (r1, s1) -> fs s1 = fs s) ->
  (forall a s1, m s = (Ok a, s1) -> k a s1 = (r, s') -> fs s' = fs s1) ->
  fs s' = fs s.
Proof.
  intros H Hm Hk.
  apply bind_inv in H as [(a & s1 & H1 & H)|(e & s1 & H1 & [= _ <-])].
  - rewrite (Hk a s1 H1 H). by eapply Hm.
  - by eapply Hm.
Qed.

(** X6. On a file system where [set_output] meets no obstacle, a
    construction that raises has not touched the files, and a construction
    for anything but training never does: the output directories are made
    and the log is emptied only by a training-mode constructor that
    succeeds.  (The constructors [ParseData] and [Datagen] of the
    collaborators, which the constructor calls last, are taken not to
    fail.) *)
Theorem init_keeps_files settings types s r s' :
  output_layout (fs s) ->
  NNTools_init settings types s = (r, s') ->
  (exists e, r = Raise e) \/ types !! 1 <> Some "train" ->
  fs s' = fs s.
Proof.
  intros _ H Hcase. unfold NNTools_init in H.
  eapply bind_keeps_fs; [exact H|by intros ? ? [= _ <-]|]. clear H.
  intros [] s1 _ H.
  eapply bind_keeps_fs; [exact H|intros ? ? E; by apply of_option_state in E as ->|].
  clear H. intros type_ s2 _ H.
  eapply bind_keeps_fs; [exact H|intros ? ? E; by apply json_load_state in E as ->|].
  clear H. intros j s3 _ H.
  eapply bind_keeps_fs; [exact H|intros ? ? E; by apply of_option_state in E as ->|].
  clear H. intros by_mode s4 _ H.
  eapply bind_keeps_fs; [exact H|intros ? ? E; by apply of_option_state in E as ->|].
  clear H. intros mode s5 Hmode H.
  apply of_option_inv in Hmode as [Hmode _].
  eapply bind_keeps_fs; [exact H|intros ? ? E; by apply of_option_state in E as ->|].
  clear H. intros c s6 _ H.
  eapply bind_keeps_fs; [exact H|intros ? ? E; by apply of_option_state in E as ->|].
  clear H. intros shape_ s7 _ H.
  eapply bind_keeps_fs; [exact H|intros ? ? E; by apply of_option_state in E as ->|].
  clear H. intros batch_ s8 _ H.
  eapply bind_keeps_fs; [exact H|intros ? ? E; by apply of_option_state in E as ->|].
  clear H. intros cuda_ s9 _ H.
  eapply bind_keeps_fs; [exact H| |].
  { intros r1 s10 E. destruct (String.eqb mode "train").
    - apply bind_inv in E as [(? & ? & E1 & [= _ <-])|(? & ? & E1 & [= _ <-])];
        by apply of_option_state in E1 as ->.
    - destruct (String.eqb mode "test"); [|by injection E as _ <-].
      apply bind_inv in E as [(? & ? & E1 & [= _ <-])|(? & ? & E1 & [= _ <-])];
        by apply of_option_state in E1 as ->. }
  clear H. intros [epochs_ model_file_] s10 _ H.
  eapply bind_keeps_fs; [exact H|intros ? ? E; by apply set_neural_net_inv in E as [_ ?]|].
  clear H. intros [] s11 _ H.
  destruct (String.eqb_spec mode "train") as [->|Hne].
  - destruct (set_output_run s11) as (s12 & Hrun & _).
    unfold bind in H. rewrite Hrun in H. simpl in H. injection H as <- <-.
    destruct Hcase as [[e [=]]|Hcase]. by destruct Hcase.
  - eapply bind_keeps_fs; [exact H| |by intros ? ? _ [= _ <-]].
    intros r1 s12 E.
    apply bind_inv in E as [(mf & s13 & E1 & E)|(? & ? & E1 & [= _ <-])];
      apply of_option_state in E1 as ->; [|reflexivity].
    apply bind_inv in E as [(? & ? & E1 & [= _ <-])|(? & ? & E1 & [= _ <-])];
      by apply load_model_fs in E1.
Qed.

Lemma output_files_log f : output_files f !! log_path = Some (TextFile "").
Proof. unfold output_files. case_match; apply lookup_insert_eq. Qed.

Lemma with_directory_lookup f d path :
  with_directory f d !! path
  = if decide (path = d)
    then match f !! d with Some x => Some x | None => Some Directory end
    else f !! path.
Proof.
  unfold with_directory. case_decide as Hd.
  - subst path. destruct (f !! d) as [x|] eqn:E.
    + rewrite bool_decide_eq_true_2 by eauto. exact E.
    + rewrite bool_decide_eq_false_2 by (by intros [? ?]; congruence).
      apply lookup_insert_eq.
  - case_bool_decide; [reflexivity|]. by rewrite lookup_insert_ne.
Qed.

Lemma output_files_other f path :
  path <> log_path ->
  output_files f !! path
  = if decide (path ∈ output_directories)
    then match f !! path with Some x => Some x | None => Some Directory end
    else f !! path.
Proof.
  intros Hlog. unfold output_files.
  assert (E : forall f3 : gmap string file,
            (if bool_decide (is_Some (f3 !! log_path))
             then <[log_path := TextFile ""]> (delete log_path f3)
             else <[log_path := TextFile ""]> f3) !! path = f3 !! path).
  { intros f3. case_bool_decide.
    - rewrite lookup_insert_ne by done. by rewrite lookup_delete_ne.
    - by rewrite lookup_insert_ne. }
  rewrite E, !with_directory_lookup. unfold output_directories.
  repeat case_decide; subst; try reflexivity; try discriminate;
    exfalso; rewrite ?elem_of_cons, ?elem_of_nil in *; intuition congruence.
Qed.

(** X7. On a file system where what is found under the name of an output
    directory is a directory and the log is not one, [set_output] succeeds
    and returns the path of the log, which it leaves empty whatever it held;
    afterwards the three output directories exist, and every other file
    (earlier checkpoints and curves included) is as it was, as are the
    model, the generator and the console.  Run again right away, it changes
    nothing. *)
Theorem set_output_effect s :
  output_layout (fs s) ->
  exists s',
    set_output s = (Ok log_path, s') /\
    fs s' !! log_path = Some (TextFile "") /\
    (forall d, d ∈ output_directories -> fs s' !! d = Some Directory) /\
    (forall path,
       path <> log_path -> path ∉ output_directories ->
       fs s' !! path = fs s !! path) /\
    (model s' = model s /\ rng s' = rng s /\ stdout s' = stdout s /\
     locals s' = locals s) /\
    set_output s' = (Ok log_path, s').
Proof.
  intros [_ Hdirs].
  assert (Hidem : output_files (output_files (fs s)) = output_files (fs s)).
  { apply map_eq. intros path.
    destruct (decide (path = log_path)) as [->|Hp].
    - by rewrite !output_files_log.
    - rewrite !(output_files_other _ path Hp).
      case_decide; [|reflexivity]. by destruct (fs s !! path). }
  exists (set_fs (output_files (fs s)) s).
  split; [apply set_output_files|]. split; [apply output_files_log|].
  split; [|split; [|split; [done|]]].
  - intros d Hd. simpl.
    rewrite output_files_other.
    + rewrite decide_True by exact Hd. by destruct (Hdirs d Hd) as [->| ->].
    + intros ->. revert Hd. unfold output_directories.
      rewrite !elem_of_cons, elem_of_nil. by intros [?|[?|[?|[]]]].
  - intros path Hp Hd. simpl.
    rewrite output_files_other by exact Hp. by rewrite decide_False.
  - rewrite set_output_files. simpl. by rewrite Hidem.
Qed.

(** ** Training: before the first epoch *)

Lemma train_setup_run self trainset s :
  train_setup self trainset s
  = match fs s !! trainset with
    | None => (Raise FileNotFoundError, s)
    | Some (CsvFile names) =>
        match model s with
        | None => (Raise AttributeError, s)
        | Some mdl =>
            let s1 := set_locals (set_optim (Some (Adam mdl)) (locals s)) s in
            match names, batch_size self with
            | [], _ | _, O => (Raise ValueError, s1)
            | _ :: _, S _ =>
                let s2 :=
                  set_locals
                    (set_accuracy 0
                       (set_epoch_loss 0
                          (set_dev_accuracy []
                             (set_total_loss [] (locals s1))))) s1 in
                match epochs self with
                | None => (Raise AttributeError, s2)
                | Some n =>
                    (Ok (mkDataLoader names (shape self) (batch_size self)
                           true, n), s2)
                end
            end
        end
    | Some _ => (Raise ParserError, s)
    end.
Proof.
  unfold train_setup.
  cbv [bind read_csv get self_model of_option upd_locals modify DataLoader
       ret raise].
  destruct (fs s !! trainset) as [[| names | | | |]|]; try reflexivity.
  destruct (model s) as [mdl|]; [|reflexivity]. simpl.
  destruct names as [|name names]; [reflexivity|]. simpl.
  destruct (batch_size self) as [|k]; [reflexivity|].
  by destruct (epochs self).
Qed.

(** X8. [train] refuses to start when the training manifest is missing
    ([FileNotFoundError]), when the engine has no model ([AttributeError]),
    when the manifest is empty or the batch size is 0 (the shuffling loader
    rejects both with a [ValueError]) or when the engine has no epoch count,
    as an engine built for testing ([AttributeError]).  The exception is
    decided in this order; the files, the model, the generator and the
    console are as before, and the validation manifest has not been read. *)
Theorem train_refuses self trainset devset s :
  fs s !! trainset = None \/
  (exists names, fs s !! trainset = Some (CsvFile names)) ->
  fs s !! trainset = None \/ fs s !! trainset = Some (CsvFile []) \/
  model s = None \/ batch_size self = 0 \/ epochs self = None ->
  exists e s',
    train self trainset devset s = (Raise e, s') /\
    e = match fs s !! trainset, model s with
        | None, _ => FileNotFoundError
        | Some _, None => AttributeError
        | Some f, Some _ =>
            match f, batch_size self with
            | CsvFile [], _ | _, O => ValueError
            | _, S _ => AttributeError
            end
        end /\
    fs s' = fs s /\ model s' = model s /\ rng s' = rng s /\
    stdout s' = stdout s.
Proof.
  intros Hcsv H. unfold train, bind at 1. rewrite train_setup_run.
  destruct Hcsv as [Hf|[names Hf]]; rewrite Hf.
  { by eexists _, _. }
  destruct (model s) as [mdl|] eqn:Hm; [|by eexists _, _].
  destruct names as [|name names]; [by eexists _, _|].
  destruct (batch_size self) as [|k] eqn:Hb; [by eexists _, _|].
  destruct (epochs self) as [n|] eqn:He; [|by eexists _, _].
  exfalso. destruct H as [H|[H|[H|[H|H]]]]; congruence.
Qed.

(** X9. With an epoch count of 0, [train] on a manifest that is not empty
    completes at once: it prints the finishing message of its signal (none
    for an unknown signal) and nothing else, records nothing, writes no
    file and leaves the model as it was; the validation manifest is not
    even read. *)
Theorem train_zero_epochs self trainset devset s names mdl :
  epochs self = Some 0 ->
  fs s !! trainset = Some (CsvFile names) ->
  names <> [] ->
  model s = Some mdl ->
  1 <= batch_size self ->
  exists s',
    train self trainset devset s = (Ok tt, s') /\
    stdout s'
    = stdout s
      ++ (if String.eqb (type self) "servo"
          then [Message "Servo model training finished!"]
          else if String.eqb (type self) "motor"
               then [Message "Motor model training finished!"] else []) /\
    total_loss (locals s') = [] /\ dev_accuracy (locals s') = [] /\
    fs s' = fs s /\ model s' = model s /\ rng s' = rng s.
Proof.
  intros He Hf Hne Hm Hb. unfold train, bind at 1. rewrite train_setup_run.
  rewrite Hf, Hm, He.
  destruct names as [|name names]; [done|].
  destruct (batch_size self) as [|k]; [lia|]. simpl.
  destruct (type_cases self) as [Hty|[Hty|[H1 H2]]].
  - rewrite Hty. eexists. split; [reflexivity|]. simpl. by repeat split.
  - rewrite Hty. eexists. split; [reflexivity|]. simpl. by repeat split.
  - rewrite H1, H2. eexists. split; [reflexivity|]. simpl.
    rewrite app_nil_r. by repeat split.
Qed.

(** ** Training: the checkpoints *)

Lemma finish_messages_keep self (s s' : state) :
  (do (if String.eqb (type self) "servo"
       then print (Message "Servo model training finished!") else ret tt) in
   if String.eqb (type self) "motor"
   then print (Message "Motor model training finished!") else ret tt) s
  = (Ok tt, s') ->
  fs s' = fs s /\ model s' = model s /\ locals s' = locals s.
Proof.
  intros H. cbv [bind print modify ret] in H.
  repeat case_match; simplify_eq; by simpl.
Qed.

Lemma last_epoch_checkpoint self dl devset epoch s s' :
  log self = Some log_path ->
  train_epoch self dl devset epoch s = (Ok tt, s') ->
  exists p, model s' = Some p /\
            fs s' !! checkpoint_path epoch = Some (ModelFile p).
Proof.
  intros Hlog H.
  apply train_epoch_inv in H
    as (s1 & acc & mdl & logp & old & i & f1 & f2 & _ & _ & _ & _ & Hm
        & Hlogp & _ & _ & _ & _ & _ & _ & Hfs).
  rewrite Hlog in Hlogp. injection Hlogp as <-.
  destruct (checkpoint_path_other self epoch) as (C1 & C2 & C3).
  exists mdl. split; [exact Hm|].
  rewrite Hfs, !lookup_insert_ne by done. apply lookup_insert_eq.
Qed.

(** X10. When a training session of [E >= 1] epochs completes, the
    checkpoint of the last epoch holds the parameters that the model has at
    the end of the session. *)
Theorem last_checkpoint_is_final_model self trainset devset s E s' :
  epochs self = Some E ->
  1 <= E ->
  log self = Some log_path ->
  train self trainset devset s = (Ok tt, s') ->
  exists p, model s' = Some p /\
            fs s' !! checkpoint_path E = Some (ModelFile p).
Proof.
  intros HE Hpos Hlog H. unfold train in H.
  apply bind_inv_Ok in H as ([dl n] & s1 & Hsetup & H).
  apply train_setup_inv in Hsetup as (Hn & _).
  rewrite HE in Hn. injection Hn as <-.
  apply bind_inv_Ok in H as ([] & s3 & Hloop & Hmsg).
  apply finish_messages_keep in Hmsg as (-> & -> & _).
  destruct E as [|k]; [lia|].
  rewrite seq_S, for_each_app in Hloop.
  apply bind_inv_Ok in Hloop as ([] & s2 & _ & Hlast).
  simpl in Hlast. apply bind_inv_Ok in Hlast as ([] & s4 & Hlast & [= <-]).
  by eapply last_epoch_checkpoint.
Qed.

(** X11. The files of a session never collide: two epochs never share a
    checkpoint path, and no checkpoint path is the log, a curve or one of
    the output directories; the log and the two curves are three different
    files. *)
Theorem output_paths_distinct self (n m : nat) :
  (checkpoint_path n = checkpoint_path m -> n = m) /\
  (checkpoint_path n ∉ [log_path; loss_curve self; accuracy_curve self]) /\
  (checkpoint_path n ∉ output_directories) /\
  NoDup [log_path; loss_curve self; accuracy_curve self].
Proof.
  destruct (checkpoint_path_other self n) as (C1 & C2 & C3).
  destruct (log_path_other self) as (L1 & L2 & L3).
  split; [apply checkpoint_path_inj|]. split; [|split].
  - rewrite !elem_of_cons, elem_of_nil. by intros [?|[?|[?|[]]]].
  - rewrite checkpoint_path_eq. unfold output_directories.
    rewrite !elem_of_cons, elem_of_nil.
    intros [H|[H|[H|[]]]]; apply (f_equal String.length) in H;
      rewrite !string_length_app in H; simpl in H; lia.
  - repeat constructor; rewrite ?elem_of_cons, ?elem_of_nil;
      intuition congruence.
Qed.

(** ** Training: the loss that an epoch records *)

Lemma for_each_epoch_loss self epoch batches s s' :
  for_each (train_batch self epoch) batches s = (Ok tt, s') ->
  exists evs,
    stdout s' = stdout s ++ evs /\
    Forall (fun e => exists c l,
                       e = TrainStatus epoch c l (accuracy (locals s))) evs /\
    epoch_loss (locals s') = last_loss evs (epoch_loss (locals s)) /\
    accuracy (locals s') = accuracy (locals s).
Proof.
  revert s. induction batches as [|b batches IH]; intros s; simpl.
  - intros [= <-]. exists []. by rewrite app_nil_r.
  - intros H. apply bind_inv_Ok in H as ([] & s1 & Hb & H).
    destruct (IH _ H) as (evs & Ho & Hevs & Hl & Ha).
    apply train_batch_inv in Hb
      as [(e & [=] & _)
         |(mdl & opt & outs & img & tgt & _ & _ & _ & _ & _ & ->)].
    destruct (after_report_cases epoch
                (after_step self
                   (snd (optimizer_step opt mdl (backward mdl img tgt)))
                   (fst (optimizer_step opt mdl (backward mdl img tgt)))
                   (MSELoss tgt outs) s)) as [[Hm E]|[Hm E]];
      rewrite E in Ho, Hevs, Hl, Ha; simpl in Ho, Hevs, Hl, Ha.
    + eexists (_ :: evs). split; [by rewrite Ho, <- app_assoc|].
      split; [constructor; [by eexists _, _|exact Hevs]|].
      split; [exact Hl|exact Ha].
    + exists evs. by repeat split.
Qed.

Lemma train_epoch_console self dl devset epoch s s' :
  train_epoch self dl devset epoch s = (Ok tt, s') ->
  exists s1 acc msg,
    batch_loop self dl epoch s = (Ok tt, s1) /\
    test self devset false s1 = (Ok acc, s1) /\
    stdout s' = stdout s1 ++ [Message msg] /\
    locals s'
    = set_total_loss (total_loss (locals s1) ++ [epoch_loss (locals s1)])
        (set_dev_accuracy (dev_accuracy (locals s1) ++ [acc])
           (set_accuracy acc (locals s1))).
Proof.
  intros H. unfold train_epoch in H.
  apply bind_inv_Ok in H as ([] & s1 & Hb & H).
  apply bind_inv_Ok in H as (acc & s2 & Ht & H).
  pose proof (test_quiet_inv _ _ _ _ _ Ht) as ->.
  apply bind_inv_Ok in H as ([] & s2 & [= <-] & H).
  apply bind_inv_Ok in H as ([] & s2 & [= <-] & H).
  apply bind_inv_Ok in H as ([] & s2 & [= <-] & H).
  apply bind_inv_Ok in H as ([] & s2 & Hs & H).
  apply bind_inv_Ok in H as (l & s3 & [= <- <-] & H).
  apply plot_result_inv in H
    as (Hty & _ & _ & logp & old & a & i & _ & _ & _ & _ & ->).
  apply save_model_inv in Hs as (mdl & msg & _ & ->); [|exact Hty].
  exists s1, acc, msg. by repeat split.
Qed.

Lemma train_epoch_records self dl devset epoch s s' :
  train_epoch self dl devset epoch s = (Ok tt, s') ->
  exists evs msg acc,
    stdout s' = stdout s ++ evs ++ [Message msg] /\
    Forall (fun e => exists c l,
                       e = TrainStatus epoch c l (accuracy (locals s))) evs /\
    Forall2 (fun e c => status_of epoch c e) evs
      (report_counters (batch_size self) 0
         (length (batches_of dl (rng s)))) /\
    total_loss (locals s')
    = total_loss (locals s) ++ [last_loss evs (epoch_loss (locals s))] /\
    epoch_loss (locals s') = last_loss evs (epoch_loss (locals s)) /\
    dev_accuracy (locals s') = dev_accuracy (locals s) ++ [acc] /\
    accuracy (locals s') = acc.
Proof.
  intros H.
  apply train_epoch_console in H as (s1 & acc & msg & Hb & _ & Ho & Hl).
  pose proof (batch_loop_keeps _ _ _ _ _ _ Hb) as (_ & Htl & Hda & _).
  rewrite batch_loop_unfold in Hb.
  pose proof (for_each_reports _ _ _ _ _ Hb) as (_ & evs' & Ho' & Hr).
  apply for_each_epoch_loss in Hb as (evs & Ho1 & Hevs & Hel & _).
  rewrite Ho1 in Ho'. apply app_inv_head in Ho'. subst evs'.
  rewrite epoch_start_stdout in Ho1. rewrite epoch_start_locals in Hel, Hevs, Hr.
  simpl in Hel, Hevs, Hr.
  exists evs, msg, acc. rewrite Hl, Ho, Ho1. simpl.
  rewrite Htl, Hda, Hel, <- app_assoc. by repeat split.
Qed.

(** X12. The loss that a completed epoch records is the one shown on the
    last status line of that epoch, and when the epoch has printed no status
    line it is the value left by the epoch before (0 in the first epoch).
    Every status line of the epoch shows the validation accuracy of the
    epoch before; the epoch prints its status lines, then the message of
    [save_model], and nothing else. *)
Theorem epoch_records_last_shown_loss self dl devset epoch s s' :
  train_epoch self dl devset epoch s = (Ok tt, s') ->
  exists evs msg acc,
    stdout s' = stdout s ++ evs ++ [Message msg] /\
    Forall (fun e => exists c l,
                       e = TrainStatus epoch c l (accuracy (locals s))) evs /\
    total_loss (locals s')
    = total_loss (locals s) ++ [last_loss evs (epoch_loss (locals s))] /\
    epoch_loss (locals s') = last_loss evs (epoch_loss (locals s)) /\
    dev_accuracy (locals s') = dev_accuracy (locals s) ++ [acc] /\
    accuracy (locals s') = acc.
Proof.
  intros H.
  apply train_epoch_records in H as (evs & msg & acc & H1 & H2 & _ & H3).
  by exists evs, msg, acc.
Qed.

(** ** The batches of a pass *)

Lemma batch_sampler_count {A} bs (l cur : list A) :
  1 <= bs -> length cur < bs ->
  length cur + length l <= length (batch_sampler bs l cur) * bs /\
  length (batch_sampler bs l cur) * bs < length cur + length l + bs.
Proof.
  intros Hbs. revert cur. induction l as [|x l IH]; intros cur Hcur; simpl.
  - destruct cur; simpl in *; lia.
  - rewrite length_app. simpl.
    destruct (Nat.eqb_spec (length cur + 1) bs) as [E|E].
    + simpl. specialize (IH [] ltac:(simpl; lia)). simpl in IH. lia.
    + specialize (IH (cur ++ [x])). rewrite length_app in IH. simpl in IH.
      specialize (IH ltac:(lia)). lia.
Qed.

Lemma report_counters_none bs n b0 :
  1 <= bs -> b0 + n * bs < 100 -> report_counters bs b0 n = [].
Proof.
  intros Hbs. revert b0. induction n as [|n IH]; intros b0 Hn;
    [reflexivity|].
  rewrite report_counters_S, filter_cons_False.
  - simpl. apply IH. lia.
  - rewrite Nat.mod_small by lia. lia.
Qed.

(** ** Training sets of less than one hundred examples *)

Lemma Forall_eq_repeat {A} (x : A) (l : list A) :
  Forall (fun y => y = x) l -> l = repeat x (length l).
Proof. induction 1 as [|y l -> _ IH]; simpl; [reflexivity|by f_equal]. Qed.

Lemma quiet_epochs self dl devset (s0 : state) :
  1 <= batch_size self ->
  (forall g, length (batches_of dl g) * batch_size self < 100) ->
  forall epochs_ s s',
    for_each (train_epoch self dl devset) epochs_ s = (Ok tt, s') ->
    epoch_loss (locals s) = 0%Q ->
    Forall (fun l => l = 0%Q) (total_loss (locals s)) ->
    (exists evs, stdout s = stdout s0 ++ evs /\
                 Forall (fun e => exists msg, e = Message msg) evs) ->
    Forall (fun l => l = 0%Q) (total_loss (locals s')) /\
    length (total_loss (locals s'))
    = length (total_loss (locals s)) + length epochs_ /\
    (exists evs, stdout s' = stdout s0 ++ evs /\
                 Forall (fun e => exists msg, e = Message msg) evs).
Proof.
  intros Hbs Hsmall epochs_.
  induction epochs_ as [|e epochs_ IH]; intros s s' H Hel Htl Ho; simpl in H.
  - injection H as <-. split; [done|]. split; [simpl; lia|done].
  - apply bind_inv_Ok in H as ([] & s1 & He & H).
    apply train_epoch_records in He
      as (evs & msg & acc & Ho1 & _ & Hr & Htl1 & Hel1 & _).
    rewrite report_counters_none in Hr by (auto; simpl; apply Hsmall).
    apply Forall2_nil_inv_r in Hr. subst evs. simpl in *.
    destruct Ho as (evs0 & Ho & Hevs0).
    destruct (IH s1 s' H) as (R1 & R2 & R3).
    + by rewrite Hel1.
    + rewrite Htl1, Hel. apply Forall_app. split; [done|]. by constructor.
    + exists (evs0 ++ [Message msg]). rewrite Ho1, Ho, <- app_assoc.
      split; [done|]. apply Forall_app. split; [done|].
      constructor; [by eexists|constructor].
    + split; [done|]. split; [|done].
      rewrite R2, Htl1, length_app. simpl. lia.
Qed.

(** X13. Training on a manifest so short that the counter never reaches
    100 within an epoch (the number of examples plus the batch size is at
    most 100) prints no status line at all, and every loss that the session
    records, hence every point of the loss curve, is 0. *)
Theorem short_manifest_flat_loss self trainset devset s names E s' :
  fs s !! trainset = Some (CsvFile names) ->
  (forall g, length (fst (randperm g names)) = length names) ->
  length names + batch_size self <= 100 ->
  epochs self = Some E ->
  train self trainset devset s = (Ok tt, s') ->
  total_loss (locals s') = repeat 0%Q E /\
  exists evs,
    stdout s' = stdout s ++ evs /\
    Forall (fun e => exists msg, e = Message msg) evs.
Proof.
  intros Hf Hperm Hshort HE H. unfold train in H.
  apply bind_inv_Ok in H as ([dl n] & s1 & Hsetup & H).
  rewrite train_setup_run, Hf in Hsetup.
  destruct (model s) as [mdl|]; [|discriminate].
  destruct names as [|name names'] eqn:Hnames; [discriminate|].
  destruct (batch_size self) as [|k] eqn:Hbs; [discriminate|].
  rewrite <- Hnames in *. clear Hnames name names'.
  rewrite HE in Hsetup. simpl in Hsetup. injection Hsetup as <- <- <-.
  apply bind_inv_Ok in H as ([] & s3 & Hloop & Hmsg).
  rewrite <- Hbs in *.
  eapply (quiet_epochs _ _ _ s) in Hloop as (R1 & R2 & evs & R3 & R4).
  - simpl in R2. rewrite length_seq in R2.
    cbv [bind print modify ret] in Hmsg.
    split.
    + assert (locals s' = locals s3) as ->
        by (repeat case_match; simplify_eq; by simpl).
      rewrite <- R2. by apply Forall_eq_repeat.
    + repeat case_match; simplify_eq; simpl; rewrite R3, <- ?app_assoc;
        (eexists; split; [reflexivity|]);
        rewrite ?Forall_app; repeat split; auto;
        repeat (constructor; eauto).
  - lia.
  - intros g. unfold batches_of. simpl.
    pose proof (batch_sampler_count (batch_size self)
                  (fst (randperm g names)) [] ltac:(lia) ltac:(simpl; lia))
      as [_ Hc].
    simpl in Hc. rewrite Hperm in Hc. lia.
  - reflexivity.
  - constructor.
  - exists []. by rewrite app_nil_r.
Qed.

(** ** Construction: the two modes *)

Lemma load_model_inv mfile s s' :
  load_model mfile s = (Ok tt, s') ->
  exists p0 d p,
    model s = Some p0 /\ fs s !! mfile = Some (ModelFile d) /\
    load_state_dict p0 d = Some p /\ s' = set_model (Some p) s.
Proof.
  unfold load_model. cbv [bind self_model get of_option ret raise modify].
  destruct (model s) as [p0|]; [|discriminate].
  destruct (fs s !! mfile) as [[]|]; try discriminate.
  destruct (load_state_dict p0 p) as [p'|] eqn:E; [|discriminate].
  intros [= <-]. by exists p0, p, p'.
Qed.

Lemma initial_model_type type_ shape_ p :
  initial_model type_ shape_ = Some p -> type_ = "servo" \/ type_ = "motor".
Proof.
  unfold initial_model.
  destruct (String.eqb_spec type_ "servo"); [by left|].
  destruct (String.eqb_spec type_ "motor"); [by right|discriminate].
Qed.

Lemma set_neural_net_stdout type_ shape_ s r s' :
  set_neural_net type_ shape_ s = (r, s') -> stdout s' = stdout s.
Proof.
  unfold set_neural_net. cbv [bind modify ret]. simpl.
  repeat case_match; intros [= <- <-]; simpl; auto.
Qed.

Lemma NNTools_init_inv settings types s self s' :
  NNTools_init settings types s = (Ok self, s') ->
  types !! 0 = Some (type self) /\ stdout s' = stdout s /\
  (exists j by_mode mode c,
     fs s !! settings = Some (JsonFile j) /\
     j !! type self = Some by_mode /\ types !! 1 = Some mode /\
     by_mode !! mode = Some c /\
     c_shape c = Some (shape self) /\ c_batch c = Some (batch_size self) /\
     c_cuda c = Some (cuda self) /\
     (mode = "train" -> c_epoch c = epochs self)) /\
  ((types !! 1 = Some "train" /\ (exists E, epochs self = Some E) /\
    model_file self = None /\ log self = Some log_path /\
    model s' = initial_model (type self) (shape self) /\
    fs s' = output_files (fs s)) \/
   (types !! 1 = Some "test" /\ epochs self = None /\ log self = None /\
    (type self = "servo" \/ type self = "motor") /\
    fs s' = fs s /\
    exists mf d p0 p,
      model_file self = Some mf /\ fs s !! mf = Some (ModelFile d) /\
      initial_model (type self) (shape self) = Some p0 /\
      load_state_dict p0 d = Some p /\ model s' = Some p)).
Proof.
  intros H. unfold NNTools_init in H.
  apply bind_inv_Ok in H as ([] & s0 & [= <-] & H).
  apply bind_inv_Ok in H as (type_ & s1 & Ht & H).
  apply of_option_inv in Ht as [Ht ->].
  apply bind_inv_Ok in H as (j & s1 & Hj & H).
  assert (fs s !! settings = Some (JsonFile j) /\ s1 = set_model None s)
    as [Hset ->].
  { unfold json_load, bind, get in Hj. simpl in Hj.
    destruct (fs s !! settings) as [[]|]; try discriminate.
    by injection Hj as <- <-. }
  apply bind_inv_Ok in H as (by_mode & s1 & Hx & H).
  apply of_option_inv in Hx as [Hby ->].
  apply bind_inv_Ok in H as (mode & s1 & Hx & H).
  apply of_option_inv in Hx as [Hmode ->].
  apply bind_inv_Ok in H as (c & s1 & Hx & H).
  apply of_option_inv in Hx as [Hc ->].
  apply bind_inv_Ok in H as (shape_ & s1 & Hx & H).
  apply of_option_inv in Hx as [Hshape ->].
  apply bind_inv_Ok in H as (batch_ & s1 & Hx & H).
  apply of_option_inv in Hx as [Hbatch ->].
  apply bind_inv_Ok in H as (cuda_ & s1 & Hx & H).
  apply of_option_inv in Hx as [Hcuda ->].
  apply bind_inv_Ok in H as ([epochs_ model_file_] & s1 & Hm & H).
  apply bind_inv_Ok in H as ([] & s2 & Hnet & H).
  apply bind_inv_Ok in H as (log_ & s3 & Hlog & H).
  injection H as <- <-. simpl.
  split; [exact Ht|].
  destruct (String.eqb_spec mode "train") as [->|Hne].
  - apply bind_inv_Ok in Hm as (E & s4 & HE & [= <- <- <-]).
    apply of_option_inv in HE as [HE ->].
    pose proof (set_neural_net_model _ _ _ _ Hnet eq_refl) as Hmdl.
    pose proof (set_neural_net_stdout _ _ _ _ _ Hnet) as Hout2.
    apply set_neural_net_inv in Hnet as [_ Hfs].
    apply bind_inv_Ok in Hlog as (l & s4 & Hout & [= <- <-]).
    rewrite set_output_files in Hout. injection Hout as <- <-.
    split; [exact Hout2|]. split.
    { exists j, by_mode, "train", c. by repeat split. }
    left. simpl. rewrite Hfs. repeat split; eauto.
  - destruct (String.eqb_spec mode "test") as [->|Hne'].
    + apply bind_inv_Ok in Hm as (mf & s4 & Hmf & [= <- <- <-]).
      apply of_option_inv in Hmf as [Hmf ->].
      pose proof (set_neural_net_model _ _ _ _ Hnet eq_refl) as Hmdl.
      pose proof (set_neural_net_stdout _ _ _ _ _ Hnet) as Hout2.
      apply set_neural_net_inv in Hnet as [_ Hfs].
      apply bind_inv_Ok in Hlog as (mf' & s4 & Hmf' & Hlog).
      apply of_option_inv in Hmf' as [[= <-] ->].
      apply bind_inv_Ok in Hlog as ([] & s4 & Hload & [= <- <-]).
      apply load_model_inv in Hload as (p0 & d & p & Hp0 & Hd & Hp & ->).
      rewrite Hmdl in Hp0. rewrite Hfs in Hd. simpl in Hd.
      split; [exact Hout2|]. split.
      { exists j, by_mode, "test", c. by repeat split. }
      right. simpl. repeat split; auto.
      * by eapply initial_model_type.
      * by exists mf, d, p0, p.
    + injection Hm as <- <- <-.
      apply bind_inv_Ok in Hlog as (mf & s4 & Hmf & _). discriminate Hmf.
Qed.

(** X14. An engine that the constructor returns was built either for
    training or for testing (any other mode makes the constructor raise),
    and its attributes are those of the settings.  Built for training, it
    has an epoch count, the log [output/result.csv] and no model file, and
    its model is freshly initialised.  Built for testing, it has a model
    file but neither an epoch count nor a log, its signal is servo or motor,
    its model holds the parameters loaded from the model file, and no file
    has changed. *)
Theorem init_modes settings types s self s' :
  NNTools_init settings types s = (Ok self, s') ->
  types !! 0 = Some (type self) /\ stdout s' = stdout s /\
  (exists j by_mode mode c,
     fs s !! settings = Some (JsonFile j) /\
     j !! type self = Some by_mode /\ types !! 1 = Some mode /\
     by_mode !! mode = Some c /\
     c_shape c = Some (shape self) /\ c_batch c = Some (batch_size self) /\
     c_cuda c = Some (cuda self) /\
     (mode = "train" -> c_epoch c = epochs self)) /\
  ((types !! 1 = Some "train" /\ (exists E, epochs self = Some E) /\
    model_file self = None /\ log self = Some log_path /\
    model s' = initial_model (type self) (shape self) /\
    fs s' = output_files (fs s)) \/
   (types !! 1 = Some "test" /\ epochs self = None /\ log self = None /\
    (type self = "servo" \/ type self = "motor") /\
    fs s' = fs s /\
    exists mf d p0 p,
      model_file self = Some mf /\ fs s !! mf = Some (ModelFile d) /\
      initial_model (type self) (shape self) = Some p0 /\
      load_state_dict p0 d = Some p /\ model s' = Some p)).
Proof. apply NNTools_init_inv. Qed.

(** ** Evaluation: what makes it refuse *)

(** X15. [test] refuses to start when the manifest is missing, when the
    engine has no model or when the batch size is 0; the exception is
    decided in this order and nothing has changed, not even the console,
    whatever the flag [display]. *)
Theorem test_refuses self testset display s :
  fs s !! testset = None \/
  (exists names, fs s !! testset = Some (CsvFile names)) ->
  fs s !! testset = None \/ model s = None \/ batch_size self = 0 ->
  test self testset display s
  = (Raise match fs s !! testset, model s with
           | None, _ => FileNotFoundError
           | Some _, None => AttributeError
           | Some _, Some _ => ValueError
           end, s).
Proof.
  intros Hcsv H. unfold test.
  cbv [bind read_csv get self_model of_option DataLoader ret raise].
  destruct Hcsv as [Hf|[names Hf]]; rewrite Hf; [reflexivity|].
  destruct (model s) as [mdl|] eqn:Hm; [|reflexivity].
  destruct (batch_size self) as [|k] eqn:Hb; [reflexivity|].
  exfalso. destruct H as [H|[H|H]]; congruence.
Qed.

(** ** The driver *)

Lemma train_setup_keeps self trainset s r s' :
  train_setup self trainset s = (r, s') ->
  fs s' = fs s /\ model s' = model s /\ rng s' = rng s /\
  stdout s' = stdout s.
Proof.
  rewrite train_setup_run. intros H.
  repeat case_match; cbv zeta in H; simplify_eq; simpl; auto.
Qed.

Lemma epochs_console self dl devset epochs_ s s' :
  for_each (train_epoch self dl devset) epochs_ s = (Ok tt, s') ->
  exists evs, stdout s' = stdout s ++ evs.
Proof.
  revert s. induction epochs_ as [|e epochs_ IH]; intros s H; simpl in H.
  - injection H as <-. exists []. by rewrite app_nil_r.
  - apply bind_inv_Ok in H as ([] & s1 & He & H).
    apply train_epoch_records in He as (evs1 & msg & _ & Ho & _).
    destruct (IH _ H) as (evs & Hevs).
    eexists. by rewrite Hevs, Ho, <- !app_assoc.
Qed.

Lemma driver_paths :
  AvTrainTest.TRAIN_DATA = "data/lists/Debug/train.csv" /\
  AvTrainTest.DEV_DATA = "data/lists/Debug/dev.csv" /\
  AvTrainTest.SETTINGS = SETTINGS.
Proof. by repeat split. Qed.

Lemma main_unfold s self s1 :
  NNTools_init AvTrainTest.SETTINGS ["servo"; "train"] s = (Ok self, s1) ->
  AvTrainTest.main s
  = (do train self AvTrainTest.TRAIN_DATA AvTrainTest.DEV_DATA in ret tt) s1.
Proof.
  intros H. unfold AvTrainTest.main. by erewrite bind_Ok by exact H.
Qed.

(** X16. When the training manifest [data/lists/Debug/train.csv] is
    missing, [main] ends with [FileNotFoundError], but only after the
    constructor has done its work: the output directories are there and the
    log is empty, so the results logged by an earlier session are lost. *)
Theorem main_missing_manifest s self s1 :
  output_layout (fs s) ->
  NNTools_init AvTrainTest.SETTINGS ["servo"; "train"] s = (Ok self, s1) ->
  fs s !! "data/lists/Debug/train.csv" = None ->
  AvTrainTest.main s = (Raise FileNotFoundError, s1) /\
  fs s1 !! log_path = Some (TextFile "") /\
  (forall d, d ∈ output_directories -> fs s1 !! d = Some Directory) /\
  (forall path, path <> log_path -> path ∉ output_directories ->
                fs s1 !! path = fs s !! path).
Proof.
  intros [_ Hdirs] Hinit Hmiss.
  rewrite (main_unfold _ _ _ Hinit).
  apply NNTools_init_inv in Hinit
    as (_ & _ & _ & [(_ & _ & _ & _ & _ & Hfs)|([=] & _)]).
  assert (Hother : forall path, path <> log_path ->
            path ∉ output_directories -> fs s1 !! path = fs s !! path).
  { intros path Hp Hd. rewrite Hfs, output_files_other by exact Hp.
    by rewrite decide_False. }
  split; [|split; [|split]].
  - unfold bind at 1, train, bind at 1. rewrite train_setup_run.
    change AvTrainTest.TRAIN_DATA with "data/lists/Debug/train.csv".
    rewrite Hother, Hmiss; [reflexivity|discriminate|].
    unfold output_directories. rewrite !elem_of_cons, elem_of_nil.
    by intros [?|[?|[?|[]]]].
  - rewrite Hfs. apply output_files_log.
  - intros d Hd. rewrite Hfs, output_files_other.
    + rewrite decide_True by exact Hd. by destruct (Hdirs d Hd) as [->| ->].
    + intros ->. revert Hd. unfold output_directories.
      rewrite !elem_of_cons, elem_of_nil. by intros [?|[?|[?|[]]]].
  - exact Hother.
Qed.

(** X17. A run of [main] that completes has read the settings of the
    servo signal in training mode and the Debug manifests; it ends with the
    finishing message of the servo signal, and with the epoch count [E] of
    the settings it leaves the [E] checkpoints and a log of [E] lines. *)
Theorem main_completes s s' :
  (forall x, newlines (format_2f x) = 0) ->
  AvTrainTest.main s = (Ok tt, s') ->
  exists j by_mode c E names evs txt,
    fs s !! "settings.json" = Some (JsonFile j) /\
    j !! "servo" = Some by_mode /\ by_mode !! "train" = Some c /\
    c_epoch c = Some E /\
    fs s !! "data/lists/Debug/train.csv" = Some (CsvFile names) /\
    stdout s' = stdout s ++ evs ++ [Message "Servo model training finished!"] /\
    (forall n, 1 <= n <= E ->
               exists p, fs s' !! checkpoint_path n = Some (ModelFile p)) /\
    fs s' !! log_path = Some (TextFile txt) /\ newlines txt = E.
Proof.
  intros Hfmt H. unfold AvTrainTest.main in H.
  apply bind_inv_Ok in H as (self & s1 & Hinit & H).
  apply bind_inv_Ok in H as ([] & s2 & Htrain & [= <-]).
  apply NNTools_init_inv in Hinit
    as (Hty & Hout1 & (j & by_mode & mode & c & Hj & Hby & Hmode & Hc & _ & _ & _ & He)
        & [(_ & (E & HE) & _ & Hlog & _ & Hfs)|([=] & _)]).
  injection Hty as Hty. injection Hmode as <-.
  rewrite <- Hty in *. rewrite HE in He. specialize (He eq_refl).
  unfold train in Htrain.
  apply bind_inv_Ok in Htrain as ([dl n] & s3 & Hsetup & Htrain).
  pose proof Hsetup as Hrun. rewrite train_setup_run in Hrun.
  change AvTrainTest.TRAIN_DATA with "data/lists/Debug/train.csv" in Hrun.
  destruct (fs s1 !! "data/lists/Debug/train.csv") as [[]|] eqn:Hcsv;
    try discriminate.
  rewrite Hfs, output_files_other in Hcsv by discriminate.
  rewrite decide_False in Hcsv
    by (unfold output_directories; rewrite !elem_of_cons, elem_of_nil;
        by intros [?|[?|[?|[]]]]).
  clear Hrun.
  assert (Hout3 : stdout s3 = stdout s1).
  { by apply train_setup_keeps in Hsetup as (_ & _ & _ & ?). }
  apply train_setup_inv in Hsetup as (Hn & Hfs3 & Htl & Hda).
  rewrite HE in Hn. injection Hn as <-.
  apply bind_inv_Ok in Htrain as ([] & s4 & Hloop & Hmsg).
  pose proof (epochs_console _ _ _ _ _ _ Hloop) as (evs & Hout4).
  assert (Hinv : session_inv self s1 0 s3).
  { split; [by rewrite Htl|]. split; [by rewrite Hda|].
    split; [exists ""; by rewrite Hfs3, Hfs, output_files_log|].
    split; [intros n Hn; lia|]. intros path _ _ _ _. by rewrite Hfs3. }
  apply (session_inv_loop Hfmt self dl AvTrainTest.DEV_DATA s1 E Hlog 0 _ _
           Hinv) in Hloop as Hfinal.
  destruct Hfinal as (_ & _ & (txt & Htxt & Hnl) & Hck & _).
  rewrite <- Hty in Hmsg. simpl in Hmsg.
  cbv [bind print modify ret] in Hmsg. injection Hmsg as <-. simpl.
  exists j, by_mode, c, E, images.
  exists evs, txt. rewrite Hout4, Hout3, Hout1, <- app_assoc.
  by repeat split.
Qed.

(** ** Plotting twice *)

Lemma figure_of_ok self a b s :
  type self = "servo" \/ type self = "motor" ->
  figure_of self a b s
  = (Ok (figure_title self,
         ODIR +:+ (if String.eqb (type self) "servo" then a else b)), s).
Proof.
  intros [H|H]; unfold figure_of, figure_title; by rewrite H.
Qed.

Lemma plot_result_ok self epoch tl da s a i logp old :
  type self = "servo" \/ type self = "motor" ->
  length tl = epoch -> length da = epoch -> 1 <= epoch ->
  da !! (epoch - 1) = Some a ->
  (forall s0, argmax da s0 = (Ok i, s0)) ->
  log self = Some logp ->
  let fs2 :=
    <[accuracy_curve self := FigureFile (figure_title self) (seq 1 epoch) da]>
      (<[loss_curve self
         := FigureFile (figure_title self) (seq 1 epoch) tl]> (fs s)) in
  fs2 !! logp = Some (TextFile old) ->
  plot_result self epoch tl da s
  = (Ok tt,
     set_fs (<[logp := TextFile
                         (old +:+ log_line (signal_name self) epoch a (i + 1))]>
               fs2) s).
Proof.
  intros Hty Htl Hda He Ha Hi Hlog fs2 Hold. unfold plot_result, plot.
  rewrite Htl, Hda, Nat.eqb_refl, !bind_ret.
  erewrite bind_Ok by (by apply figure_of_ok). cbv beta iota.
  unfold bind at 1, savefig at 1, write_file at 1, modify at 1.
  erewrite bind_Ok by (by apply figure_of_ok). cbv beta iota.
  unfold bind at 1, savefig at 1, write_file at 1, modify at 1.
  erewrite bind_Ok by (apply log_content_ok; eauto).
  rewrite Hlog. simpl of_option. rewrite bind_ret.
  fold (loss_curve self) (accuracy_curve self). simpl fst. simpl snd.
  unfold open_append, write_append.
  cbv [bind get ret write_file modify]. simpl.
  fold fs2. rewrite Hold. simpl. fold fs2. rewrite Hold.
  reflexivity.
Qed.

(** X18. [plot_result] called a second time with the same arguments
    succeeds again: it rewrites the two curves to what they were, and
    appends to the log the same line once more, so that the log then ends
    with this line twice; no other file changes. *)
Theorem plot_result_twice self epoch tl da s s1 :
  plot_result self epoch tl da s = (Ok tt, s1) ->
  exists logp old line s2,
    log self = Some logp /\
    fs s1 !! logp = Some (TextFile (old +:+ line)) /\
    plot_result self epoch tl da s1 = (Ok tt, s2) /\
    fs s2 !! logp = Some (TextFile ((old +:+ line) +:+ line)) /\
    (forall path, path <> logp -> fs s2 !! path = fs s1 !! path) /\
    model s2 = model s1 /\ stdout s2 = stdout s1.
Proof.
  intros H.
  apply plot_result_inv in H
    as (Hty & Htl & Hda & logp & old & a & i & Hlog & Ha & Hi & Hold & ->).
  set (fs2 := <[accuracy_curve self := _]> (<[loss_curve self := _]> (fs s)))
    in *.
  set (line := log_line (signal_name self) epoch a (i + 1)).
  apply argmax_inv in Hi as [_ Hi].
  assert (He : 1 <= epoch).
  { destruct epoch; [|lia]. destruct da; [discriminate Ha|discriminate Hda]. }
  assert (Hfs2 : <[accuracy_curve self
                   := FigureFile (figure_title self) (seq 1 epoch) da]>
                   (<[loss_curve self
                      := FigureFile (figure_title self) (seq 1 epoch) tl]>
                      (<[logp := TextFile (old +:+ line)]> fs2))
                 !! logp = Some (TextFile (old +:+ line))).
  { destruct (decide (logp = accuracy_curve self)) as [->|N1].
    { exfalso. unfold fs2 in Hold. rewrite lookup_insert_eq in Hold.
      destruct Hold as [[=]|[[=] _]]. }
    rewrite lookup_insert_ne by done.
    destruct (decide (logp = loss_curve self)) as [->|N2].
    { exfalso. unfold fs2 in Hold.
      rewrite lookup_insert_ne, lookup_insert_eq in Hold by done.
      destruct Hold as [[=]|[[=] _]]. }
    rewrite lookup_insert_ne by done. apply lookup_insert_eq. }
  exists logp, (old), line. eexists.
  split; [exact Hlog|]. split; [apply lookup_insert_eq|].
  split; [eapply plot_result_ok; eauto|].
  simpl. split; [apply lookup_insert_eq|]. split; [|done].
  intros path Hp. rewrite !(lookup_insert_ne _ logp) by done.
  unfold fs2.
  destruct (decide (path = accuracy_curve self)) as [->|N1];
    [by rewrite !lookup_insert_eq|].
  rewrite !(lookup_insert_ne _ (accuracy_curve self)) by done.
  destruct (decide (path = loss_curve self)) as [->|N2];
    [by rewrite !lookup_insert_eq|].
  rewrite !(lookup_insert_ne _ (loss_curve self)) by done.
  by rewrite !lookup_insert_ne by done.
Qed.

(** ** Evaluation: the last status line *)

Lemma py_div_ok x n (s : state) :
  1 <= n -> py_div x n s = (Ok (x / inject_Z (Z.of_nat n))%Q, s).
Proof. destruct n; [lia|reflexivity]. Qed.

(** One batch of the loop of [test], displaying. *)
Lemma test_loop_step self mdl b rest total count s :
  type self = "servo" \/ type self = "motor" ->
  1 <= batch_size self ->
  (forall name, name ∈ b -> is_Some (prediction self mdl name)) ->
  exists total',
    (total' == total + inject_Z (Z.of_nat (correct_count self mdl b)))%Q /\
    test_loop self mdl true (b :: rest) total count s
    = test_loop self mdl true rest total' (count + batch_size self)
        (if (count + batch_size self) mod 100 =? 0
         then set_stdout
                (stdout s
                 ++ [TestStatus (count + batch_size self)
                       (total' * 100
                        / inject_Z (Z.of_nat (count + batch_size self)))%Q]) s
         else s).
Proof.
  intros Hty Hbs Hp. simpl test_loop.
  pose proof (collate_labels self b) as Hlab.
  destruct (collate (shape self) b) as [[img servo] motor] eqn:Hc.
  simpl in Hlab.
  destruct (forward_batch_ok self mdl b s Hp) as (outs & Hf & H2).
  unfold collate in Hc. injection Hc as <- <- <-.
  erewrite bind_Ok; [|by apply set_io_ok]. cbv beta iota.
  erewrite bind_Ok; [|exact Hf].
  fold (collate (shape self) b) in *.
  set (count' := count + batch_size self).
  eexists. split; last first.
  - simpl andb. destruct (count' mod 100 =? 0); [|by rewrite bind_ret].
    unfold bind at 1 2. rewrite py_div_ok by (unfold count'; lia).
    reflexivity.
  - cbv beta. by rewrite Hlab, (count_true_correct self mdl b outs Hty H2).
Qed.

Lemma test_loop_last_line self mdl batches total count s :
  type self = "servo" \/ type self = "motor" ->
  1 <= batch_size self ->
  (forall name, name ∈ concat batches -> is_Some (prediction self mdl name)) ->
  batches <> [] ->
  (count + length batches * batch_size self) mod 100 = 0 ->
  exists q evs,
    test_loop self mdl true batches total count s
    = (Ok (q, count + length batches * batch_size self),
       set_stdout
         (stdout s ++ evs
          ++ [TestStatus (count + length batches * batch_size self)
                (q * 100
                 / inject_Z (Z.of_nat
                     (count + length batches * batch_size self)))%Q]) s) /\
    (q == total
          + inject_Z (Z.of_nat (correct_count self mdl (concat batches))))%Q.
Proof.
  intros Hty Hbs. revert total count s.
  induction batches as [|b batches IH]; intros total count s Hp Hne Hc;
    [done|].
  destruct (test_loop_step self mdl b batches total count s Hty Hbs)
    as (total' & Htot & ->).
  { intros n Hn. apply Hp. simpl. apply elem_of_app. by left. }
  simpl length in *.
  replace (count + S (length batches) * batch_size self)
    with (count + batch_size self + length batches * batch_size self)
    in * by lia.
  destruct batches as [|b' batches].
  - simpl in *. rewrite Nat.add_0_r in *.
    apply Nat.eqb_eq in Hc. rewrite Hc.
    exists total', []. split; [reflexivity|].
    rewrite Htot, app_nil_r. reflexivity.
  - destruct (IH total' (count + batch_size self)
                (if (count + batch_size self) mod 100 =? 0
                 then set_stdout
                        (stdout s
                         ++ [TestStatus (count + batch_size self)
                               (total' * 100
                                / inject_Z (Z.of_nat
                                    (count + batch_size self)))%Q]) s
                 else s))
      as (q & evs & Hrun & Hq); [|done|exact Hc|].
    { intros n Hn. apply Hp. simpl concat. apply elem_of_app. by right. }
    rewrite Hrun.
    exists q,
      ((if (count + batch_size self) mod 100 =? 0
        then [TestStatus (count + batch_size self)
                (total' * 100
                 / inject_Z (Z.of_nat (count + batch_size self)))%Q]
        else []) ++ evs).
    split.
    + f_equal. destruct ((count + batch_size self) mod 100 =? 0); simpl.
      * by rewrite <- app_assoc.
      * reflexivity.
    + rewrite Hq, Htot. change (concat (b :: b' :: batches))
        with (b ++ concat (b' :: batches)).
      rewrite correct_count_app, Nat2Z.inj_add, inject_Z_plus. ring.
Qed.

(** X19. The counter that [test] displays advances by the batch size even
    for a short last batch, so the last status line can show more examples
    than the manifest holds.  When the counter ends on a multiple of 100,
    the line before the total shows the number of correct examples of the
    whole manifest as a percentage of the counter [c], while the total is
    their percentage of the [n] examples, with [n <= c < n + batch_size]:
    the two agree only if the last batch was full. *)
Theorem last_status_line_overcounts self testset s names mdl :
  fs s !! testset = Some (CsvFile names) ->
  names <> [] ->
  model s = Some mdl ->
  type self = "servo" \/ type self = "motor" ->
  1 <= batch_size self ->
  (forall name, name ∈ names -> is_Some (prediction self mdl name)) ->
  (length (batch_sampler (batch_size self) names []) * batch_size self)
    mod 100 = 0 ->
  exists evs a q,
    test self testset true s
    = (Ok q,
       set_stdout
         (stdout s ++ evs
          ++ [TestStatus
                (length (batch_sampler (batch_size self) names [])
                 * batch_size self) a;
              TestTotal q]) s) /\
    (a == 100 * inject_Z (Z.of_nat (correct_count self mdl names))
          / inject_Z (Z.of_nat
              (length (batch_sampler (batch_size self) names [])
               * batch_size self)))%Q /\
    (q == 100 * inject_Z (Z.of_nat (correct_count self mdl names))
          / inject_Z (Z.of_nat (length names)))%Q /\
    length names
    <= length (batch_sampler (batch_size self) names []) * batch_size self
    < length names + batch_size self.
Proof.
  intros Hfs Hne Hm Hty Hbs Hp Hc.
  assert (Hdl : forall s0,
            DataLoader names (shape self) (batch_size self) false s0
            = (Ok (mkDataLoader names (shape self) (batch_size self) false),
               s0)).
  { intros s0. unfold DataLoader. simpl andb. cbv iota.
    destruct (batch_size self); [lia|reflexivity]. }
  pose proof (batch_sampler_count (batch_size self) names [] Hbs
                ltac:(simpl; lia)) as Hcount.
  simpl in Hcount.
  assert (Hn : 1 <= length names) by (destruct names; [done|simpl; lia]).
  set (batches := batch_sampler (batch_size self) names []) in *.
  destruct (test_loop_last_line self mdl batches 0%Q 0 s Hty Hbs)
    as (total & evs & Hloop & Htot).
  { unfold batches. by rewrite batch_sampler_concat. }
  { intros E. rewrite E in Hcount. simpl in Hcount. lia. }
  { exact Hc. }
  unfold batches in Htot. rewrite batch_sampler_concat in Htot.
  simpl in Htot, Hloop.
  set (c := length batches * batch_size self) in *.
  exists evs, (total * 100 / inject_Z (Z.of_nat c))%Q,
         (total * 100 / inject_Z (Z.of_nat (length names)))%Q.
  assert (Hz : forall k, 1 <= k -> ~ (inject_Z (Z.of_nat k) == 0)%Q).
  { intros k Hk E. apply (inject_Z_injective (Z.of_nat k) 0) in E. lia. }
  split; [|split; [|split]].
  - unfold test.
    erewrite bind_Ok; [|by apply read_csv_ok].
    erewrite bind_Ok; [|by apply self_model_ok].
    erewrite bind_Ok; [|apply Hdl].
    unfold iter. simpl dl_shuffle. cbv iota.
    rewrite bind_ret. simpl dl_batch_size. simpl dl_names.
    fold batches. erewrite bind_Ok; [|exact Hloop]. cbv beta iota.
    unfold bind at 1 2. rewrite py_div_ok by exact Hn.
    unfold print, modify. rewrite py_div_ok by exact Hn.
    simpl. by rewrite <- !app_assoc.
  - rewrite Htot. field. apply Hz. lia.
  - rewrite Htot. field. by apply Hz.
  - lia.
Qed.

(** ** An unknown signal *)



End EngineFacts.

(** ** The evaluation scenario *)

Lemma scenario_predictions name :
  name ∈ scenario_names ->
  is_Some (prediction (T := toy 0) scenario_self 0%Q name).
Proof.
  unfold scenario_names. intros H.
  repeat (apply elem_of_cons in H as [->|H]); try (by eexists).
  by apply elem_of_nil in H.
Qed.

Lemma test_accuracy_witness :
  exists q s',
    test (T := toy 0) scenario_self "dev.csv" false scenario_state
    = (Ok q, s') /\ (q == 100)%Q.
Proof.
  destruct (test_accuracy (T := toy 0) scenario_self "dev.csv" false
              scenario_state scenario_names 0%Q)
    as (q & s' & Ht & _ & _ & _ & Hq).
  - reflexivity.
  - discriminate.
  - reflexivity.
  - left. reflexivity.
  - simpl. lia.
  - apply scenario_predictions.
  - exists q, s'. split; [exact Ht|]. apply Hq; reflexivity.
Defined.

(** C1, as stated, fails: on its own scenario the code counts the fourth
    example as correct as well ([|8 - 9| <= 1]) and returns 100, not 80. *)
Lemma scenario_is_not_80 :
  batch_size scenario_self = 2 /\
  map (label_of (T := toy 0) scenario_self) scenario_names
  = [3; 5; 2; 8; 1]%Q /\
  map (fun name => round <$> prediction (T := toy 0) scenario_self 0%Q name)
      scenario_names
  = [Some 3; Some 4; Some 2; Some 9; Some 1]%Z /\
  exists q,
    fst (test (T := toy 0) scenario_self "dev.csv" false scenario_state)
    = Ok q /\ (q == 100)%Q /\ ~ (q == 80)%Q.
Proof.
  split; [reflexivity|]. split; [reflexivity|]. split; [reflexivity|].
  exists (500 # 5)%Q. split; [by vm_compute|]. split; [reflexivity|].
  intros H. discriminate H.
Qed.

Lemma test_empty_manifest_witness :
  fst (test (T := toy 0) scenario_self "empty.csv" true
         (set_fs {[ "empty.csv" := CsvFile (T := toy 0) [] ]} scenario_state))
  = Raise ZeroDivisionError.
Proof.
  refine (proj2 (proj1 (test_empty_manifest (T := toy 0) scenario_self
                          "empty.csv" true _ [] 0%Q _ _ _ _ _)) _).
  - reflexivity.
  - reflexivity.
  - left. reflexivity.
  - simpl. lia.
  - intros name H. by apply elem_of_nil in H.
  - reflexivity.
Defined.

(** Epochs with the accuracies 60, 90, 75, 90: the first of the two best
    epochs, the second, is the one logged, in the field ["   2"]. *)
Lemma best_epoch_index_witness :
  exists i a m,
    log_content (T := toy 0) scenario_self 4 [60; 90; 75; 90]%Q scenario_state
    = (Ok (Some (log_line (T := toy 0) "Servo" 4 a (i + 1))), scenario_state)
    /\ i = 1 /\ a = 90%Q /\ m = 90%Q /\ format_4d (i + 1) = "   2".
Proof.
  destruct (best_epoch_index (T := toy 0) scenario_self 4 [60; 90; 75; 90]%Q
              scenario_state) as (i & a & m & Hl & Ha & Hi & Hm & _).
  - discriminate.
  - left. reflexivity.
  - simpl. lia.
  - exists i, a, m. split; [exact Hl|].
    cbv [argmax ret] in Hi. injection Hi as <-.
    injection Ha as <-. injection Hm as <-. auto.
Defined.

(** ** Training sessions on the small backend *)

(** A run is determined by its outcome and the state it ends in. *)
Lemma run_outcome {A S} (r : result A * S) (a : result A) :
  fst r = a -> r = (a, snd r).
Proof. intros <-. by destruct r. Qed.

(** Settles [m s = (a, snd (m s))] by evaluating the outcome of the run. *)
Ltac run_by_evaluation :=
  match goal with
  | |- ?r = (?a, _) => apply (run_outcome r a); vm_compute; reflexivity
  end.

Lemma train_session_outputs_witness :
  let s1 := snd (session_init 0 "servo" 2 2 scenario_names scenario_names) in
  let s2 := snd (train (T := toy 0) (session_self "servo" 2 2)
                   "train.csv" "dev.csv" s1) in
  length (total_loss (locals s2)) = 2 /\
  length (dev_accuracy (locals s2)) = 2 /\
  (exists txt, fs s2 !! log_path = Some (TextFile txt) /\ newlines txt = 2) /\
  (exists p, fs s2 !! checkpoint_path 1 = Some (ModelFile p)) /\
  (exists p, fs s2 !! checkpoint_path 2 = Some (ModelFile p)).
Proof.
  intros s1 s2.
  destruct (train_session_outputs (T := toy 0) toy_format_2f_newlines
              "settings.json"
              ["servo"; "train"] "train.csv" "dev.csv"
              (session_state 0 2 2 scenario_names scenario_names)
              (session_self "servo" 2 2) s1 2 s2)
    as ((R1 & R2) & (C & _) & (_ & _ & L & _)).
  - subst s1. run_by_evaluation.
  - reflexivity.
  - lia.
  - subst s2. run_by_evaluation.
  - repeat split; auto; apply C; lia.
Defined.

Lemma progress_reports_witness :
  exists evs,
    stdout (snd (batch_loop (T := toy 0) (session_self "servo" 50 1)
                   (mkDataLoader interval_names [1] 50 true) 1
                   (epoch_state 0 interval_names scenario_names)))
    = [] ++ evs /\
    Forall2 (fun e c => exists loss dev, e = TrainStatus 1 c loss dev)
      evs [100].
Proof.
  destruct (progress_reports (T := toy 0) (session_self "servo" 50 1)
              (mkDataLoader interval_names [1] 50 true) 1
              (epoch_state 0 interval_names scenario_names)
              (snd (batch_loop (T := toy 0) (session_self "servo" 50 1)
                      (mkDataLoader interval_names [1] 50 true) 1
                      (epoch_state 0 interval_names scenario_names))))
    as ((evs & Ho & Hr) & _).
  - run_by_evaluation.
  - exists evs. split; [exact Ho|]. exact Hr.
Defined.

(** C3, as stated, fails.  With batch size 3 the counter steps over 100
    (99, then 102) and an epoch of 102 examples prints no status line at
    all.  With batch size 50 the line at 100 examples shows the sum of the
    two batch losses divided by 100, here 0.1, where the mean loss over the
    hundred examples of the interval is 5. *)
Lemma progress_reports_counterexample :
  (let r := batch_loop (T := toy 0) (session_self "servo" 3 1)
              (mkDataLoader (repeat "32" 102) [1] 3 true) 1
              (epoch_state 0 (repeat "32" 102) scenario_names) in
   fst r = Ok tt /\ batch (locals (snd r)) = 102 /\ stdout (snd r) = []) /\
  (let self := session_self "servo" 50 1 in
   let r := batch_loop (T := toy 0) self
              (mkDataLoader interval_names [1] 50 true) 1
              (epoch_state 0 interval_names scenario_names) in
   exists v,
     stdout (snd r) = [TrainStatus 1 100 v 0%Q] /\
     (v == 1 # 10)%Q /\
     (MSELoss (map (label_of (T := toy 0) self) interval_names)
        (map (fun name =>
                default 0%Q (prediction (T := toy 0) self 0%Q name))
             interval_names) == 5)%Q /\
     ~ (v == 5)%Q).
Proof.
  split.
  - split; [vm_compute; reflexivity|]. split; vm_compute; reflexivity.
  - exists (25000 # 250000)%Q. split; [vm_compute; reflexivity|].
    split; [reflexivity|]. split; [vm_compute; reflexivity|].
    intros H. discriminate H.
Qed.

(** C4, as stated, fails: the 9 that the first epoch leaves in the
    accumulator is not part of the first status line of the second epoch,
    which shows (1 + 1) / 100 and not (9 + 1 + 1) / 100. *)
Lemma carry_over_counterexample :
  let self := session_self "servo" 50 2 in
  let dl := mkDataLoader carry_names [1] 50 true in
  let r1 := train_epoch (T := toy 0) self dl "dev.csv" 1
              (epoch_state 0 carry_names scenario_names) in
  let r2 := train_epoch (T := toy 0) self dl "dev.csv" 2 (snd r1) in
  fst r1 = Ok tt /\ fst r2 = Ok tt /\
  (running_loss (locals (snd r1)) == 9)%Q /\
  exists v acc,
    stdout (snd r2)
    = stdout (snd r1)
      ++ [TrainStatus 2 100 v acc; Message "Saving servo Model "] /\
    (v == 2 # 100)%Q /\ ~ (v == (9 + 2) / 100)%Q.
Proof.
  intros self dl r1 r2.
  split; [vm_compute; reflexivity|]. split; [vm_compute; reflexivity|].
  split; [vm_compute; reflexivity|].
  exists (5000 # 250000)%Q, (500 # 5)%Q.
  split; [vm_compute; reflexivity|]. split; [reflexivity|].
  intros H. discriminate H.
Qed.

(** C5, on a motor session of one epoch: the checkpoint is written under
    the servo name, and no file carries the motor name. *)
Lemma motor_checkpoint_named_servo :
  let init := session_init 0 "motor" 2 1 scenario_names scenario_names in
  let r := train (T := toy 0) (session_self "motor" 2 1)
             "train.csv" "dev.csv" (snd init) in
  fst init = Ok (session_self "motor" 2 1) /\
  fst r = Ok tt /\
  checkpoint_path 1 = "output/models/servo_model_epoch_1.pth" /\
  (exists p, fs (snd r) !! checkpoint_path 1 = Some (ModelFile p)) /\
  fs (snd r) !! "output/models/motor_model_epoch_1.pth" = None.
Proof.
  intros init r.
  split; [vm_compute; reflexivity|]. split; [vm_compute; reflexivity|].
  split; [reflexivity|]. split; [|vm_compute; reflexivity].
  exists 0%Q. vm_compute. reflexivity.
Qed.

Lemma batch_failure_aborts_witness :
  train (T := toy (1 # 2)) failing_self "train.csv" "dev.csv" failing_s0
  = (Raise RuntimeError, failing_s3) /\
  fs failing_s3 = fs failing_s2 /\
  total_loss (locals failing_s3) = total_loss (locals failing_s2) /\
  dev_accuracy (locals failing_s3) = dev_accuracy (locals failing_s2) /\
  exists done failing rest s4,
    batches_of (T := toy (1 # 2)) failing_dl (rng failing_s2)
    = done ++ failing :: rest /\
    for_each (train_batch (T := toy (1 # 2)) failing_self 2) done
      (epoch_start (T := toy (1 # 2)) failing_dl failing_s2) = (Ok tt, s4) /\
    fst (train_batch (T := toy (1 # 2)) failing_self 2 failing s4)
    = Raise RuntimeError /\
    model failing_s3 = model s4.
Proof.
  apply (batch_failure_aborts (T := toy (1 # 2)) failing_self "train.csv"
           "dev.csv" failing_s0 failing_dl 3 failing_s1 2 failing_s2
           RuntimeError failing_s3).
  - run_by_evaluation.
  - lia.
  - run_by_evaluation.
  - run_by_evaluation.
Defined.

(** In that session the parameter ends at -5/2, the value reached by the two
    completed batches of the second epoch, while the only checkpoint, the
    only record and the only log line are those of the first epoch. *)
Lemma batch_failure_session :
  (exists p, model failing_s3 = Some p /\ (p == - (5 # 2))%Q) /\
  (exists p, fs failing_s3 !! checkpoint_path 1 = Some (ModelFile p) /\
             (p == - (3 # 2))%Q) /\
  fs failing_s3 !! checkpoint_path 2 = None /\
  length (total_loss (locals failing_s3)) = 1 /\
  length (dev_accuracy (locals failing_s3)) = 1 /\
  (exists txt, fs failing_s3 !! log_path = Some (TextFile txt) /\
               newlines txt = 1).
Proof.
  split; [exists (-80 # 32)%Q; split; [vm_compute|]; reflexivity|].
  split; [exists (-12 # 8)%Q; split; [vm_compute|]; reflexivity|].
  split; [vm_compute; reflexivity|]. split; [vm_compute; reflexivity|].
  split; [vm_compute; reflexivity|].
  eexists. split; vm_compute; reflexivity.
Qed.

(** Two constructions from the same files: one from a clean state, one
    after the generator was advanced, a model was set and lines were
    printed. *)
Lemma init_deterministic_witness :
  let sA := session_state 0 2 2 scenario_names scenario_names in
  let sB := set_rng (T := toy 0) 41%Z
              (set_stdout (T := toy 0) [Message "earlier output"]
                 (set_model (T := toy 0) (Some 7%Q) sA)) in
  model (snd (NNTools_init (T := toy 0) "settings.json" ["servo"; "train"] sA))
  = model (snd (NNTools_init (T := toy 0) "settings.json" ["servo"; "train"]
                  sB)).
Proof.
  intros sA sB.
  destruct (init_deterministic (T := toy 0) "settings.json"
              ["servo"; "train"] sA sB) as [_ H].
  - reflexivity.
  - destruct (H (session_self "servo" 2 2)) as [Hm _];
      [vm_compute; reflexivity|].
    exact Hm.
Defined.

(** ** Further scenarios *)

Lemma toy_int_conversion : int_conversion toy_int.
Proof.
  intros z [H1 H2]. unfold toy_int.
  apply Z.leb_le in H1. apply Z.ltb_lt in H2. by rewrite H1, H2.
Qed.

(** The entry ["45"]: the model answers 4, and its output is at most one
    half away from 4. *)
Lemma predict_nearest_witness :
  snd (predict (T := toy 0) toy_get_image toy_int scenario_self "45"
         scenario_state)
  = scenario_state /\
  exists o : Q,
    forward (Torch := toy 0) 0%Q (toy_get_image [1] "45") = Some o /\
    (Qabs (o - inject_Z 4) <= 1 # 2)%Q.
Proof.
  destruct (predict_nearest (T := toy 0) toy_get_image toy_int scenario_self
              "45" scenario_state toy_int_conversion) as (Hs & _ & Hz).
  split; [exact Hs|].
  destruct (Hz 4%Z eq_refl) as (mdl & o & Hm & Ho & _ & Hfit).
  injection Hm as <-. exists o. split; [exact Ho|].
  injection Ho as <-. apply Hfit. split; [discriminate|reflexivity].
Defined.

Lemma scenario_outputs_fit name (o : Q) :
  name ∈ scenario_names ->
  prediction (T := toy 0) scenario_self 0%Q name = Some o ->
  fits_int32 (round o).
Proof.
  unfold scenario_names. intros H.
  repeat (apply elem_of_cons in H as [->|H]);
    try (intros [= <-]; split; [discriminate|reflexivity]).
  by apply elem_of_nil in H.
Qed.

Lemma test_counts_predictions_witness :
  exists q,
    fst (test (T := toy 0) scenario_self "dev.csv" false scenario_state)
    = Ok q /\
    (q == 100
          * inject_Z (Z.of_nat
              (length (filter
                 (fun name => predicted_within_one (T := toy 0) toy_get_image
                                toy_int scenario_self scenario_state name)
                 scenario_names)))
          / inject_Z (Z.of_nat (length scenario_names)))%Q.
Proof.
  apply (test_counts_predictions (T := toy 0) toy_get_image toy_int
           scenario_self "dev.csv" false scenario_state scenario_names 0%Q).
  - apply toy_int_conversion.
  - reflexivity.
  - discriminate.
  - reflexivity.
  - left. reflexivity.
  - simpl. lia.
  - apply scenario_predictions.
  - apply scenario_outputs_fit.
  - intros name _. reflexivity.
Defined.



Lemma session_state_layout :
  output_layout (fs (session_state 0 2 2 scenario_names scenario_names)).
Proof.
  split.
  - intros H. change (None = Some (Directory (T := toy 0))) in H.
    discriminate H.
  - intros d Hd. left. unfold output_directories in Hd.
    repeat (apply elem_of_cons in Hd as [->|Hd]);
      [reflexivity..|by apply elem_of_nil in Hd].
Qed.

(** The settings of the sessions have no entry for testing: the
    constructor raises [KeyError]. *)
Lemma init_keeps_files_witness :
  fs (snd (NNTools_init (T := toy 0) "settings.json" ["servo"; "test"]
             (session_state 0 2 2 scenario_names scenario_names)))
  = fs (session_state 0 2 2 scenario_names scenario_names).
Proof.
  apply (init_keeps_files (T := toy 0) "settings.json" ["servo"; "test"]
           (session_state 0 2 2 scenario_names scenario_names)
           (Raise KeyError)).
  - apply session_state_layout.
  - run_by_evaluation.
  - left. by eexists.
Defined.

Lemma set_output_effect_witness :
  exists s',
    set_output (T := toy 0)
      (session_state 0 2 2 scenario_names scenario_names)
    = (Ok log_path, s') /\
    fs s' !! log_path = Some (TextFile (T := toy 0) "") /\
    set_output (T := toy 0) s' = (Ok log_path, s').
Proof.
  destruct (set_output_effect (T := toy 0)
              (session_state 0 2 2 scenario_names scenario_names)
              session_state_layout) as (s' & H1 & H2 & _ & _ & _ & H3).
  exists s'. split; [exact H1|]. split; [exact H2|exact H3].
Defined.

(** An engine without an epoch count, as the constructor builds it for
    testing. *)
Lemma train_refuses_witness :
  exists s',
    train (T := toy 0) scenario_self "dev.csv" "dev.csv" scenario_state
    = (Raise AttributeError, s') /\
    fs s' = fs scenario_state.
Proof.
  destruct (train_refuses (T := toy 0) scenario_self "dev.csv" "dev.csv"
              scenario_state) as (e & s' & H & He & Hf & _).
  - right. by exists scenario_names.
  - right. right. right. right. reflexivity.
  - exists s'. split; [|exact Hf]. rewrite H, He. reflexivity.
Defined.

Lemma train_zero_epochs_witness :
  exists s',
    train (T := toy 0) (session_self "servo" 2 0) "dev.csv" "missing.csv"
      scenario_state
    = (Ok tt, s') /\
    stdout s' = [Message "Servo model training finished!"].
Proof.
  destruct (train_zero_epochs (T := toy 0) (session_self "servo" 2 0)
              "dev.csv" "missing.csv" scenario_state scenario_names 0%Q)
    as (s' & H & Ho & _).
  - reflexivity.
  - reflexivity.
  - discriminate.
  - reflexivity.
  - simpl. lia.
  - exists s'. split; [exact H|exact Ho].
Defined.

Lemma last_checkpoint_is_final_model_witness :
  let s1 := snd (session_init 0 "servo" 2 2 scenario_names scenario_names) in
  let s2 := snd (train (T := toy 0) (session_self "servo" 2 2)
                   "train.csv" "dev.csv" s1) in
  exists p, model s2 = Some p /\
            fs s2 !! checkpoint_path 2 = Some (ModelFile (T := toy 0) p).
Proof.
  intros s1 s2.
  apply (last_checkpoint_is_final_model (T := toy 0)
           (session_self "servo" 2 2) "train.csv" "dev.csv" s1 2 s2).
  - reflexivity.
  - lia.
  - reflexivity.
  - subst s2. run_by_evaluation.
Defined.

Lemma epoch_records_last_shown_loss_witness :
  let s := epoch_state 0 interval_names scenario_names in
  let s' := snd (train_epoch (T := toy 0) (session_self "servo" 50 1)
                   (mkDataLoader interval_names [1] 50 true) "dev.csv" 1 s) in
  exists evs msg,
    stdout s' = stdout s ++ evs ++ [Message msg] /\
    total_loss (locals s')
    = total_loss (locals s) ++ [last_loss evs (epoch_loss (locals s))].
Proof.
  intros s s'.
  destruct (epoch_records_last_shown_loss (T := toy 0)
              (session_self "servo" 50 1)
              (mkDataLoader interval_names [1] 50 true) "dev.csv" 1 s s')
    as (evs & msg & acc & H1 & _ & H3 & _).
  - subst s'. run_by_evaluation.
  - exists evs, msg. split; [exact H1|exact H3].
Defined.

(** Five examples in batches of two: the counter ends at 6 in every
    epoch. *)
Lemma short_manifest_flat_loss_witness :
  let s1 := snd (session_init 0 "servo" 2 2 scenario_names scenario_names) in
  let s2 := snd (train (T := toy 0) (session_self "servo" 2 2)
                   "train.csv" "dev.csv" s1) in
  total_loss (locals s2) = [0; 0]%Q.
Proof.
  intros s1 s2.
  destruct (short_manifest_flat_loss (T := toy 0) (session_self "servo" 2 2)
              "train.csv" "dev.csv" s1 scenario_names 2 s2) as [H _].
  - subst s1. vm_compute. reflexivity.
  - intros g. reflexivity.
  - simpl. lia.
  - reflexivity.
  - subst s2. run_by_evaluation.
  - exact H.
Defined.

Lemma init_modes_witness :
  let s := session_state 0 2 2 scenario_names scenario_names in
  let s' := snd (session_init 0 "servo" 2 2 scenario_names scenario_names) in
  model s' = initial_model (T := toy 0) "servo" [1] /\
  fs s' = output_files (fs s).
Proof.
  intros s s'.
  destruct (init_modes (T := toy 0) "settings.json" ["servo"; "train"] s
              (session_self "servo" 2 2) s')
    as (_ & _ & _ & [(_ & _ & _ & _ & Hm & Hf)|(Hx & _)]).
  - subst s'. run_by_evaluation.
  - split; [exact Hm|exact Hf].
  - discriminate Hx.
Defined.

Lemma test_refuses_witness :
  test (T := toy 0) scenario_self "missing.csv" true scenario_state
  = (Raise FileNotFoundError, scenario_state).
Proof.
  apply (test_refuses (T := toy 0) scenario_self "missing.csv" true
           scenario_state).
  - left. reflexivity.
  - left. reflexivity.
Defined.

(** The files of the sessions have no Debug manifest. *)
Lemma main_missing_manifest_witness :
  let s := session_state 0 2 2 scenario_names scenario_names in
  let s1 := snd (session_init 0 "servo" 2 2 scenario_names scenario_names) in
  AvTrainTest.main (T := toy 0) s = (Raise FileNotFoundError, s1) /\
  fs s1 !! log_path = Some (TextFile (T := toy 0) "").
Proof.
  intros s s1.
  destruct (main_missing_manifest (T := toy 0) s (session_self "servo" 2 2)
              s1) as (H & Hl & _).
  - apply session_state_layout.
  - subst s1. run_by_evaluation.
  - reflexivity.
  - split; [exact H|exact Hl].
Defined.

Lemma main_completes_witness :
  exists evs txt,
    stdout (snd (AvTrainTest.main (T := toy 0) driver_state))
    = [] ++ evs ++ [Message "Servo model training finished!"] /\
    fs (snd (AvTrainTest.main (T := toy 0) driver_state)) !! log_path
    = Some (TextFile (T := toy 0) txt).
Proof.
  destruct (main_completes (T := toy 0) driver_state
              (snd (AvTrainTest.main (T := toy 0) driver_state))
              toy_format_2f_newlines)
    as (j & by_mode & c & E & names & evs & txt
        & _ & _ & _ & _ & _ & Ho & _ & Ht & _).
  - run_by_evaluation.
  - exists evs, txt. split; [exact Ho|exact Ht].
Defined.

Lemma plot_result_twice_witness :
  let s1 := snd (plot_result (T := toy 0) (session_self "servo" 2 1) 1
                   [0]%Q [80]%Q scenario_state) in
  exists old line (s2 : @state (toy 0)),
    fs s1 !! "output/result.csv" = Some (TextFile (T := toy 0) (old +:+ line)) /\
    fs s2 !! "output/result.csv"
    = Some (TextFile (T := toy 0) ((old +:+ line) +:+ line)).
Proof.
  intros s1.
  destruct (plot_result_twice (T := toy 0) (session_self "servo" 2 1) 1
              [0]%Q [80]%Q scenario_state s1)
    as (logp & old & line & s2 & H1 & H2 & _ & H4 & _).
  - subst s1. run_by_evaluation.
  - injection H1 as <-. exists old, line, s2. split; [exact H2|exact H4].
Defined.

Lemma overcount_predictions name :
  name ∈ overcount_names ->
  is_Some (prediction (T := toy 0) overcount_self 0%Q name).
Proof.
  intros H. apply list_elem_of_In, repeat_spec in H. subst name.
  by eexists.
Qed.

(** 95 examples, all correct: the last status line shows 95 per cent at the
    counter 100, the total 100 per cent. *)
Lemma last_status_line_overcounts_witness :
  exists evs a q,
    test (T := toy 0) overcount_self "test.csv" true overcount_state
    = (Ok q,
       set_stdout (T := toy 0)
         ([] ++ evs ++ [TestStatus 100 a; TestTotal q]) overcount_state) /\
    (a == 95)%Q /\ (q == 100)%Q.
Proof.
  destruct (last_status_line_overcounts (T := toy 0) overcount_self
              "test.csv" overcount_state overcount_names 0%Q)
    as (evs & a & q & Ht & Ha & Hq & _).
  - reflexivity.
  - discriminate.
  - reflexivity.
  - left. reflexivity.
  - simpl. lia.
  - apply overcount_predictions.
  - vm_compute. reflexivity.
  - exists evs, a, q. split; [exact Ht|].
    split; [rewrite Ha|rewrite Hq]; vm_compute; reflexivity.
Defined.

